(** * Decision Coin: the flip coordinator, the motion trigger detector,
      the persistent history log and the history panel

    A shallow embedding of [src/App.js], of the storage utilities
    ([utils/storage.js]) and of the components ([components/Coin.js],
    [components/HistoryPanel.js]) it imports, together with the
    properties of the specification that concern them.

    Conventions of the embedding.
    - A JavaScript string is a [string]; the character of code [n] stands for
      the UTF-16 code unit [n] (the range 0..255).
    - A JavaScript number is a binary64 floating-point number.  The
      components of an acceleration sample are such numbers ([float]),
      with the arithmetic and the comparisons of IEEE 754, [NaN] and the
      infinities included.  A timestamp in milliseconds is an integer
      [Z]: the integers of the range of [Date] are exact in binary64.  A
      random draw and a velocity, which the program only compares with a
      constant, are the rationals [Q] they denote.
    - Code that can throw runs in the monad [M]: a state transformer whose
      result is [Return a] or [Throw e].  [try_catch] is the [try]/[catch]
      statement.
    - [flipCoin] is cut at its [await]s: the code between two [await]s is
      one block in [M], and a program counter names the [await] at which a
      call is suspended.  Other events can happen while it is suspended.
    - A call of a function of [utils/storage.js] runs as one block: nothing
      else touches the store between its read and its write.  So does a
      call of [loadHistory] or [handleClearHistory] of the panel.
    - The platform may fail: every awaited promise may reject and every
      call of AsyncStorage may throw, as a plan of failures decides.  The
      state setters of React, the assignments to refs and the console
      do not fail. *)

From Stdlib Require Import ZArith QArith Ascii String List Bool Lia.
From Stdlib Require Import DecimalString DecimalZ DecimalPos.
From Stdlib Require Import PrimFloat.
From stdpp Require Import base option list gmap strings.

Import ListNotations.
Local Open Scope string_scope.

Set Default Proof Using "Type".
Set Warnings "-inexact-float".

(* ===================================================================== *)
(** ** JavaScript strings *)
(* ===================================================================== *)

Module JsString.

(** ECMAScript [WhiteSpace] and [LineTerminator] code points below 256:
    TAB, LF, VT, FF, CR, SP and NBSP. *)
Definition is_white_space (c : ascii) : bool :=
  match nat_of_ascii c with
  | 9%nat | 10%nat | 11%nat | 12%nat | 13%nat | 32%nat | 160%nat => true
  | _ => false
  end.

Fixpoint trimStart (s : string) : string :=
  match s with
  | EmptyString => EmptyString
  | String c s' => if is_white_space c then trimStart s' else s
  end.

Fixpoint trimEnd (s : string) : string :=
  match s with
  | EmptyString => EmptyString
  | String c s' =>
      match trimEnd s' with
      | EmptyString => if is_white_space c then EmptyString
                       else String c EmptyString
      | r => String c r
      end
  end.

(** [s.trim()] *)
Definition trim (s : string) : string := trimEnd (trimStart s).

(** [s.substring(start, end)] for non-negative integer arguments: the
    arguments are swapped when [start > end] and clamped to the length. *)
Definition substring (s : string) (start end_ : nat) : string :=
  let a := Nat.min start end_ in
  let b := Nat.max start end_ in
  String.substring a (b - a) s.

(** Truthiness of a string: every string but the empty one. *)
Definition truthy (s : string) : bool :=
  match s with EmptyString => false | _ => true end.

End JsString.

(* ===================================================================== *)
(** ** JavaScript values and the JSON object *)
(* ===================================================================== *)

(** The values [JSON.parse] produces and [JSON.stringify] consumes.  An
    object keeps its members in order, as its serialisation does. *)
#[warnings="-register-all"]
Inductive json : Type :=
| JNull
| JBool (b : bool)
| JNumber (n : Z)
| JString (s : string)
| JArray (elements : list json)
| JObject (members : list (string * json)).

(** A value passed to a function: [undefined] or a piece of data. *)
Inductive value : Type :=
| undefined
| data (j : json).

Definition typeof (v : value) : string :=
  match v with
  | undefined => "undefined"
  | data JNull => "object"
  | data (JBool _) => "boolean"
  | data (JNumber _) => "number"
  | data (JString _) => "string"
  | data (JArray _) => "object"
  | data (JObject _) => "object"
  end.

(** [!!v] *)
Definition truthy (v : value) : bool :=
  match v with
  | undefined => false
  | data JNull => false
  | data (JBool b) => b
  | data (JNumber n) => negb (n =? 0)%Z
  | data (JString s) => JsString.truthy s
  | data (JArray _) => true
  | data (JObject _) => true
  end.

Definition Array_isArray (j : json) : bool :=
  match j with JArray _ => true | _ => false end.

(** [a.slice(start, end)] for non-negative integer arguments. *)
Definition Array_slice {A} (a : list A) (start end_ : nat) : list A :=
  take (end_ - start) (drop start a).

(** Property access [o.key] on a parsed value; [None] is [undefined]. *)
Fixpoint lookup_member (key : string) (members : list (string * json))
  : option json :=
  match members with
  | [] => None
  | (k, v) :: rest =>
      if String.eqb k key then Some v else lookup_member key rest
  end.

Definition get_member (key : string) (j : json) : option json :=
  match j with
  | JObject members => lookup_member key members
  | _ => None
  end.

(** The host's [JSON] object.  [JSON_parse] returns [None] where
    [JSON.parse] throws a [SyntaxError]. *)
Class JsonRuntime : Type := {
  JSON_stringify : json -> string;
  JSON_parse : string -> option json
}.

(** Parsing a serialised value gives the value back. *)
Definition round_trips `{JsonRuntime} : Prop :=
  forall v : json, JSON_parse (JSON_stringify v) = Some v.

(* ===================================================================== *)
(** ** Exceptions and state *)
(* ===================================================================== *)

Inductive error : Type := Error (message : string).

Inductive Result (A : Type) : Type :=
| Return (a : A)
| Throw (e : error).
Arguments Return {A} a.
Arguments Throw {A} e.

Definition M (S A : Type) : Type := S -> Result A * S.

Definition ret {S A} (a : A) : M S A := fun s => (Return a, s).
Definition throw {S A} (e : error) : M S A := fun s => (Throw e, s).
Definition bind {S A B} (m : M S A) (k : A -> M S B) : M S B :=
  fun s => match m s with
           | (Return a, s') => k a s'
           | (Throw e, s') => (Throw e, s')
           end.
Definition try_catch {S A} (body : M S A) (handler : error -> M S A) : M S A :=
  fun s => match body s with
           | (Return a, s') => (Return a, s')
           | (Throw e, s') => handler e s'
           end.
Definition gets {S A} (f : S -> A) : M S A := fun s => (Return (f s), s).
Definition modify {S} (f : S -> S) : M S unit := fun s => (Return tt, f s).

Declare Scope js_scope.
Delimit Scope js_scope with js.
Notation "x <- m ;; k" := (bind m (fun x => k))
  (at level 20, m at level 99, k at level 200, only parsing) : js_scope.
Notation "m ;; k" := (bind m (fun _ => k))
  (at level 100, k at level 200, right associativity, only parsing) : js_scope.
Local Open Scope js_scope.

(* ===================================================================== *)
(** ** The platform: AsyncStorage, the clock, the console *)
(* ===================================================================== *)

(** [faults] is the environment's plan of failures: each call of a
    platform operation that can fail takes the next entry, and fails when
    it is [true]; an exhausted plan means no more failures.  [randoms] are
    the coming results of [Math.random()]. *)
Record Platform : Type := mkPlatform {
  asyncStorage : gmap string string;
  now : Z;
  faults : list bool;
  randoms : list Q;
  console : list string
}.

Definition set_asyncStorage (f : gmap string string -> gmap string string)
  (w : Platform) : Platform :=
  mkPlatform (f (asyncStorage w)) (now w) (faults w) (randoms w) (console w).
Definition set_now (t : Z) (w : Platform) : Platform :=
  mkPlatform (asyncStorage w) t (faults w) (randoms w) (console w).
Definition set_faults (fs : list bool) (w : Platform) : Platform :=
  mkPlatform (asyncStorage w) (now w) fs (randoms w) (console w).
Definition set_randoms (rs : list Q) (w : Platform) : Platform :=
  mkPlatform (asyncStorage w) (now w) (faults w) rs (console w).
Definition set_console (c : list string) (w : Platform) : Platform :=
  mkPlatform (asyncStorage w) (now w) (faults w) (randoms w) c.

(** A platform call that may fail: it consults the plan of failures. *)
Definition fallible {A} (name : string) (op : M Platform A) : M Platform A :=
  fun w =>
    match faults w with
    | true :: fs => (Throw (Error name), set_faults fs w)
    | false :: fs => op (set_faults fs w)
    | [] => op w
    end.

Definition console_warn (msg : string) : M Platform unit :=
  modify (fun w => set_console (console w ++ [msg]) w).
Definition console_error (msg : string) : M Platform unit :=
  modify (fun w => set_console (console w ++ [msg]) w).

Definition Date_now : M Platform Z := gets now.

(** [Math.random()]: the next draw (0 when none is left). *)
Definition Math_random : M Platform Q :=
  fun w => match randoms w with
           | r :: rs => (Return r, set_randoms rs w)
           | [] => (Return 0%Q, w)
           end.

Module AsyncStorage.

Definition getItem (key : string) : M Platform (option string) :=
  fallible "AsyncStorage.getItem" (gets (fun w => asyncStorage w !! key)).

Definition setItem (key v : string) : M Platform unit :=
  fallible "AsyncStorage.setItem"
    (modify (set_asyncStorage (fun m => <[key := v]> m))).

Definition removeItem (key : string) : M Platform unit :=
  fallible "AsyncStorage.removeItem"
    (modify (set_asyncStorage (fun m => delete key m))).

End AsyncStorage.

(* ===================================================================== *)
(** ** utils/storage.js *)
(* ===================================================================== *)

Section Storage.
Context `{JsonRuntime}.

Definition HISTORY_KEY : string := "@decision_coin_history".
Definition MAX_HISTORY_ENTRIES : nat := 10.

(** [JSON.parse(s)], throwing on a syntax error. *)
Definition JSON_parse_throwing (s : string) : M Platform json :=
  match JSON_parse s with
  | Some v => ret v
  | None => throw (Error "SyntaxError")
  end.

(** [side.trim()]: a [TypeError] when [side] has no such method. *)
Definition call_trim (side : value) : M Platform string :=
  match side with
  | data (JString s) => ret (JsString.trim s)
  | _ => throw (Error "TypeError")
  end.

Definition getHistory : M Platform (list json) :=
  try_catch
    (jsonValue <- AsyncStorage.getItem HISTORY_KEY ;;
     match jsonValue with
     | None => ret []
     | Some text =>
         parsed <- JSON_parse_throwing text ;;
         if negb (Array_isArray parsed) then
           console_warn
             "getHistory: Stored data is not an array, returning empty array" ;;
           ret []
         else
           match parsed with
           | JArray elements => ret elements
           | _ => ret []
           end
     end)
    (fun _ => console_error "getHistory error:" ;; ret []).

Definition saveFlipToHistory (side : value) : M Platform bool :=
  try_catch
    (if negb (truthy side) || negb (String.eqb (typeof side) "string") then
       console_warn "saveFlipToHistory: Invalid side parameter" ;;
       ret false
     else
       timestamp <- Date_now ;;
       trimmed <- call_trim side ;;
       let entry := JObject [("side", JString trimmed);
                             ("timestamp", JNumber timestamp)] in
       currentHistory <- getHistory ;;
       let updatedHistory := entry :: currentHistory in
       let trimmedHistory :=
         Array_slice updatedHistory 0 MAX_HISTORY_ENTRIES in
       let jsonValue := JSON_stringify (JArray trimmedHistory) in
       AsyncStorage.setItem HISTORY_KEY jsonValue ;;
       ret true)
    (fun _ => console_error "saveFlipToHistory error:" ;; ret false).

Definition clearHistory : M Platform bool :=
  try_catch
    (AsyncStorage.removeItem HISTORY_KEY ;; ret true)
    (fun _ => console_error "clearHistory error:" ;; ret false).

End Storage.

(* ===================================================================== *)
(** ** components/HistoryPanel.js *)
(* ===================================================================== *)

(** [try { body } finally { finalizer }] *)
Definition try_finally {S A} (body : M S A) (finalizer : M S unit) : M S A :=
  fun s =>
    let (r, s') := body s in
    match finalizer s' with
    | (Return _, s'') => (r, s'')
    | (Throw e, s'') => (Throw e, s'')
    end.

(** The decimal numeral of an integer: [String(n)] and [`${n}`] for the
    integers below 10^21 in magnitude. *)
Definition Number_toString (n : Z) : string :=
  NilZero.string_of_int (Z.to_int n).

(** The time value of [new Date(t)]: nothing, for a date out of the
    range of 100,000,000 days around the epoch (an invalid date). *)
Definition new_Date (t : Z) : option Z :=
  if (Z.abs t <=? 8640000000000000)%Z then Some t else None.

(** The host's [Date.prototype.toLocaleDateString], on valid dates. *)
Class DateRuntime : Type := {
  toLocaleDateString : Z -> string
}.

(** [String(v)] for a parsed value, as a template literal computes it:
    an array joins its elements with commas, [null] elements giving the
    empty string; an object gives ["[object Object]"], and a [TypeError]
    ([None]) when a member of its own hides [toString]. *)
Fixpoint ToString (v : json) : option string :=
  match v with
  | JNull => Some "null"
  | JBool true => Some "true"
  | JBool false => Some "false"
  | JNumber n => Some (Number_toString n)
  | JString s => Some s
  | JArray elements =>
      (fix join (l : list json) : option string :=
         match l with
         | [] => Some EmptyString
         | x :: rest =>
             match (match x with
                    | JNull => Some EmptyString
                    | _ => ToString x
                    end)
             with
             | None => None
             | Some first =>
                 match rest with
                 | [] => Some first
                 | _ :: _ =>
                     match join rest with
                     | None => None
                     | Some others => Some (first ++ "," ++ others)
                     end
                 end
             end
         end) elements
  | JObject members =>
      match lookup_member "toString" members with
      | Some _ => None
      | None => Some "[object Object]"
      end
  end.

Module HistoryPanel.

(** The two [useState] variables of the panel, and the platform. *)
Record Panel : Type := mkPanel {
  history : list json;
  isLoading : bool;
  host : Platform
}.

Definition set_history (v : list json) (p : Panel) : Panel :=
  mkPanel v (isLoading p) (host p).
Definition set_isLoading (v : bool) (p : Panel) : Panel :=
  mkPanel (history p) v (host p).
Definition set_host (w : Platform) (p : Panel) : Panel :=
  mkPanel (history p) (isLoading p) w.

(** The panel as it is mounted, lines 19-20. *)
Definition initial_panel (w : Platform) : Panel := mkPanel [] true w.

Definition setHistory (v : list json) : M Panel unit := modify (set_history v).
Definition setIsLoading (v : bool) : M Panel unit := modify (set_isLoading v).

Definition liftH {A} (m : M Platform A) : M Panel A :=
  fun p => let (r, w) := m (host p) in (r, set_host w p).

(** A row of the list: the two texts of lines 97-98. *)
Record Row : Type := mkRow {
  historySide : json;
  historyTime : string
}.

(** What the panel shows below its header, lines 119-148. *)
Inductive View : Type :=
| LoadingView
| EmptyView
| ListView (data_ : list json).

Definition view (p : Panel) : View :=
  if isLoading p then LoadingView
  else if (length (history p) =? 0)%nat then EmptyView
  else ListView (history p).

Section Panel.
Context `{JsonRuntime} `{DateRuntime}.

(** Lines 29-41.  The call runs as one block. *)
Definition loadHistory : M Panel unit :=
  setIsLoading true ;;
  try_finally
    (try_catch
       (historyData <- liftH getHistory ;;
        setHistory (if Array_isArray (JArray historyData)
                    then historyData else []))
       (fun _ =>
          liftH (console_error "HistoryPanel loadHistory error:") ;;
          setHistory []))
    (setIsLoading false).

(** Lines 43-53. *)
Definition handleClearHistory : M Panel unit :=
  try_catch
    (success <- liftH clearHistory ;;
     if success then setHistory [] else ret tt)
    (fun _ => liftH (console_error "HistoryPanel handleClearHistory error:")).

(** Lines 55-84.  The differences are those of the time values; with an
    invalid date they are [NaN], every comparison fails, and the text
    is the one of an invalid date. *)
Definition formatTimestamp (timestamp : value) : M Platform string :=
  if negb (truthy timestamp) || negb (String.eqb (typeof timestamp) "number")
  then ret "Unknown time"
  else
    try_catch
      (match timestamp with
       | data (JNumber t) =>
           now <- Date_now ;;
           match new_Date t with
           | Some date =>
               let diffMs := (now - date)%Z in
               let diffMins := (diffMs / 60000)%Z in
               let diffHours := (diffMs / 3600000)%Z in
               let diffDays := (diffMs / 86400000)%Z in
               if (diffMins <? 1)%Z then ret "Just now"
               else if (diffMins <? 60)%Z then
                 ret (Number_toString diffMins ++ "m ago")
               else if (diffHours <? 24)%Z then
                 ret (Number_toString diffHours ++ "h ago")
               else if (diffDays <? 7)%Z then
                 ret (Number_toString diffDays ++ "d ago")
               else ret (toLocaleDateString date)
           | None => ret "Invalid Date"
           end
       | _ => ret "Unknown time"
       end)
      (fun _ => console_error "formatTimestamp error:" ;; ret "Unknown time").

(** [v || fallback], for a property [v] that may be missing. *)
Definition or_else (v : option json) (fallback : json) : json :=
  match v with
  | Some j => if truthy (data j) then j else fallback
  | None => fallback
  end.

(** Lines 86-101: the row of an item, or nothing ([null]). *)
Definition renderHistoryItem (item : json) : M Platform (option Row) :=
  if negb (truthy (data item))
     || negb (String.eqb (typeof (data item)) "object")
  then ret None
  else
    let side := or_else (get_member "side" item) (JString "Unknown") in
    now <- Date_now ;;
    let timestamp := or_else (get_member "timestamp" item) (JNumber now) in
    time <- formatTimestamp (data timestamp) ;;
    ret (Some (mkRow side time)).

(** Lines 132-137: the key of a cell of the list.  Reading a property of
    [null] is a [TypeError]. *)
Definition keyExtractor (item : json) (index : nat) : Result string :=
  match item with
  | JNull => Throw (Error "TypeError")
  | _ =>
      match get_member "timestamp" item with
      | Some stamp =>
          if truthy (data stamp) then
            match ToString stamp with
            | Some text =>
                Return (text ++ "-" ++ Number_toString (Z.of_nat index))
            | None => Throw (Error "TypeError")
            end
          else Return ("item-" ++ Number_toString (Z.of_nat index))
      | None => Return ("item-" ++ Number_toString (Z.of_nat index))
      end
  end.

End Panel.

End HistoryPanel.

(* ===================================================================== *)
(** ** App.js: the component's state *)
(* ===================================================================== *)

(** What a function created during one render sees of the component's
    state: the values of the [useState] variables at that render. *)
Record Render : Type := mkRender {
  r_isFlipping : bool;
  r_isCustomMode : bool;
  r_customSideA : string;
  r_customSideB : string
}.

(** The [await] at which a call of [flipCoin] is suspended. *)
Inductive flip_pc : Type :=
| AwaitImpact                      (* line 79: Haptics.impactAsync *)
| AwaitStart                       (* line 86: setTimeout(resolve, 100) *)
| AwaitAnimation (result : string) (* line 100: the rest of the animation *)
| AwaitSave                        (* line 115: saveFlipToHistory *)
| AwaitNotification.               (* line 123: Haptics.notificationAsync *)

(** A call of [flipCoin] that has not returned yet: the render that created
    the function, and where it is suspended. *)
Record FlipTask : Type := mkFlipTask {
  closure : Render;
  pc : flip_pc
}.

(** The [useState] variables, the [useRef] cells, the effect's [isMounted]
    variable, the suspended calls of [flipCoin], the pending [setTimeout]
    handles, the two [useState] variables of the history panel that the
    component renders, and the platform. *)
Record State : Type := mkState {
  side : option string;
  isFlipping : bool;
  isCustomMode : bool;
  customSideA : string;
  customSideB : string;
  shakeTimeoutRef : option nat;
  lastShakeTimeRef : Z;
  lastFlickTimeRef : Z;
  prevYRef : float;
  flipInProgressRef : bool;
  isMounted : bool;
  flips : list FlipTask;
  timers : list nat;
  nextTimer : nat;
  historyVisible : bool;
  panel_history : list json;
  panel_isLoading : bool;
  platform : Platform
}.

Definition set_side (v : option string) (s : State) : State :=
  mkState v (isFlipping s) (isCustomMode s) (customSideA s) (customSideB s)
    (shakeTimeoutRef s) (lastShakeTimeRef s) (lastFlickTimeRef s) (prevYRef s)
    (flipInProgressRef s) (isMounted s) (flips s) (timers s) (nextTimer s)
    (historyVisible s) (panel_history s) (panel_isLoading s) (platform s).
Definition set_isFlipping (v : bool) (s : State) : State :=
  mkState (side s) v (isCustomMode s) (customSideA s) (customSideB s)
    (shakeTimeoutRef s) (lastShakeTimeRef s) (lastFlickTimeRef s) (prevYRef s)
    (flipInProgressRef s) (isMounted s) (flips s) (timers s) (nextTimer s)
    (historyVisible s) (panel_history s) (panel_isLoading s) (platform s).
Definition set_isCustomMode (v : bool) (s : State) : State :=
  mkState (side s) (isFlipping s) v (customSideA s) (customSideB s)
    (shakeTimeoutRef s) (lastShakeTimeRef s) (lastFlickTimeRef s) (prevYRef s)
    (flipInProgressRef s) (isMounted s) (flips s) (timers s) (nextTimer s)
    (historyVisible s) (panel_history s) (panel_isLoading s) (platform s).
Definition set_customSideA (v : string) (s : State) : State :=
  mkState (side s) (isFlipping s) (isCustomMode s) v (customSideB s)
    (shakeTimeoutRef s) (lastShakeTimeRef s) (lastFlickTimeRef s) (prevYRef s)
    (flipInProgressRef s) (isMounted s) (flips s) (timers s) (nextTimer s)
    (historyVisible s) (panel_history s) (panel_isLoading s) (platform s).
Definition set_customSideB (v : string) (s : State) : State :=
  mkState (side s) (isFlipping s) (isCustomMode s) (customSideA s) v
    (shakeTimeoutRef s) (lastShakeTimeRef s) (lastFlickTimeRef s) (prevYRef s)
    (flipInProgressRef s) (isMounted s) (flips s) (timers s) (nextTimer s)
    (historyVisible s) (panel_history s) (panel_isLoading s) (platform s).
Definition set_shakeTimeoutRef (v : option nat) (s : State) : State :=
  mkState (side s) (isFlipping s) (isCustomMode s) (customSideA s)
    (customSideB s) v (lastShakeTimeRef s) (lastFlickTimeRef s) (prevYRef s)
    (flipInProgressRef s) (isMounted s) (flips s) (timers s) (nextTimer s)
    (historyVisible s) (panel_history s) (panel_isLoading s) (platform s).
Definition set_lastShakeTimeRef (v : Z) (s : State) : State :=
  mkState (side s) (isFlipping s) (isCustomMode s) (customSideA s)
    (customSideB s) (shakeTimeoutRef s) v (lastFlickTimeRef s) (prevYRef s)
    (flipInProgressRef s) (isMounted s) (flips s) (timers s) (nextTimer s)
    (historyVisible s) (panel_history s) (panel_isLoading s) (platform s).
Definition set_lastFlickTimeRef (v : Z) (s : State) : State :=
  mkState (side s) (isFlipping s) (isCustomMode s) (customSideA s)
    (customSideB s) (shakeTimeoutRef s) (lastShakeTimeRef s) v (prevYRef s)
    (flipInProgressRef s) (isMounted s) (flips s) (timers s) (nextTimer s)
    (historyVisible s) (panel_history s) (panel_isLoading s) (platform s).
Definition set_prevYRef (v : float) (s : State) : State :=
  mkState (side s) (isFlipping s) (isCustomMode s) (customSideA s)
    (customSideB s) (shakeTimeoutRef s) (lastShakeTimeRef s)
    (lastFlickTimeRef s) v (flipInProgressRef s) (isMounted s) (flips s)
    (timers s) (nextTimer s) (historyVisible s) (panel_history s)
    (panel_isLoading s) (platform s).
Definition set_flipInProgressRef (v : bool) (s : State) : State :=
  mkState (side s) (isFlipping s) (isCustomMode s) (customSideA s)
    (customSideB s) (shakeTimeoutRef s) (lastShakeTimeRef s)
    (lastFlickTimeRef s) (prevYRef s) v (isMounted s) (flips s) (timers s)
    (nextTimer s) (historyVisible s) (panel_history s) (panel_isLoading s)
    (platform s).
Definition set_isMounted (v : bool) (s : State) : State :=
  mkState (side s) (isFlipping s) (isCustomMode s) (customSideA s)
    (customSideB s) (shakeTimeoutRef s) (lastShakeTimeRef s)
    (lastFlickTimeRef s) (prevYRef s) (flipInProgressRef s) v (flips s)
    (timers s) (nextTimer s) (historyVisible s) (panel_history s)
    (panel_isLoading s) (platform s).
Definition set_flips (v : list FlipTask) (s : State) : State :=
  mkState (side s) (isFlipping s) (isCustomMode s) (customSideA s)
    (customSideB s) (shakeTimeoutRef s) (lastShakeTimeRef s)
    (lastFlickTimeRef s) (prevYRef s) (flipInProgressRef s) (isMounted s) v
    (timers s) (nextTimer s) (historyVisible s) (panel_history s)
    (panel_isLoading s) (platform s).
Definition set_timers (v : list nat) (s : State) : State :=
  mkState (side s) (isFlipping s) (isCustomMode s) (customSideA s)
    (customSideB s) (shakeTimeoutRef s) (lastShakeTimeRef s)
    (lastFlickTimeRef s) (prevYRef s) (flipInProgressRef s) (isMounted s)
    (flips s) v (nextTimer s) (historyVisible s) (panel_history s)
    (panel_isLoading s) (platform s).
Definition set_nextTimer (v : nat) (s : State) : State :=
  mkState (side s) (isFlipping s) (isCustomMode s) (customSideA s)
    (customSideB s) (shakeTimeoutRef s) (lastShakeTimeRef s)
    (lastFlickTimeRef s) (prevYRef s) (flipInProgressRef s) (isMounted s)
    (flips s) (timers s) v (historyVisible s) (panel_history s)
    (panel_isLoading s) (platform s).
Definition set_historyVisible (v : bool) (s : State) : State :=
  mkState (side s) (isFlipping s) (isCustomMode s) (customSideA s)
    (customSideB s) (shakeTimeoutRef s) (lastShakeTimeRef s)
    (lastFlickTimeRef s) (prevYRef s) (flipInProgressRef s) (isMounted s)
    (flips s) (timers s) (nextTimer s) v (panel_history s) (panel_isLoading s)
    (platform s).
Definition set_panel_history (v : list json) (s : State) : State :=
  mkState (side s) (isFlipping s) (isCustomMode s) (customSideA s)
    (customSideB s) (shakeTimeoutRef s) (lastShakeTimeRef s)
    (lastFlickTimeRef s) (prevYRef s) (flipInProgressRef s) (isMounted s)
    (flips s) (timers s) (nextTimer s) (historyVisible s) v
    (panel_isLoading s) (platform s).
Definition set_panel_isLoading (v : bool) (s : State) : State :=
  mkState (side s) (isFlipping s) (isCustomMode s) (customSideA s)
    (customSideB s) (shakeTimeoutRef s) (lastShakeTimeRef s)
    (lastFlickTimeRef s) (prevYRef s) (flipInProgressRef s) (isMounted s)
    (flips s) (timers s) (nextTimer s) (historyVisible s) (panel_history s) v
    (platform s).
Definition set_platform (v : Platform) (s : State) : State :=
  mkState (side s) (isFlipping s) (isCustomMode s) (customSideA s)
    (customSideB s) (shakeTimeoutRef s) (lastShakeTimeRef s)
    (lastFlickTimeRef s) (prevYRef s) (flipInProgressRef s) (isMounted s)
    (flips s) (timers s) (nextTimer s) (historyVisible s) (panel_history s)
    (panel_isLoading s) v.

Definition render_of (s : State) : Render :=
  mkRender (isFlipping s) (isCustomMode s) (customSideA s) (customSideB s).

(** The first render: the initial values of the [useState] variables. *)
Definition first_render : Render :=
  mkRender false false EmptyString EmptyString.

Definition initial_state (w : Platform) : State :=
  mkState None false false EmptyString EmptyString None 0 0 0%float false
    true [] [] 1 false [] true w.

(** Run a platform operation from the component. *)
Definition liftP {A} (m : M Platform A) : M State A :=
  fun s => let (r, w) := m (platform s) in (r, set_platform w s).

(** The state setters of [useState]. *)
Definition setSide (v : option string) : M State unit := modify (set_side v).
Definition setIsFlipping (v : bool) : M State unit := modify (set_isFlipping v).
Definition setIsCustomMode (v : bool) : M State unit :=
  modify (set_isCustomMode v).
Definition setCustomSideA (v : string) : M State unit :=
  modify (set_customSideA v).
Definition setCustomSideB (v : string) : M State unit :=
  modify (set_customSideB v).

(** [Keyboard.dismiss()] changes nothing of the component. *)
Definition Keyboard_dismiss : M State unit := ret tt.

(** [await p]: the function resumes when the promise settles; a rejected
    promise throws at the [await]. *)
Inductive promise : Type :=
| HapticsPromise (call : string)
| TimeoutPromise (ms : Z).

Definition promise_name (p : promise) : string :=
  match p with
  | HapticsPromise call => call
  | TimeoutPromise _ => "setTimeout"
  end.

Definition settle (p : promise) : M State unit :=
  liftP (fallible (promise_name p) (ret tt)).

(** [setTimeout(callback, ms)] with the debounce callback of the shake
    detector, and [clearTimeout]. *)
Definition setTimeout_ (ms : Z) : M State nat :=
  fun s => let id := nextTimer s in
           (Return id, set_nextTimer (S id) (set_timers (timers s ++ [id]) s)).

Definition clearTimeout (id : nat) : M State unit :=
  modify (fun s => set_timers (filter (fun i => i <> id) (timers s)) s).

(** [a < b] on the rationals that two numbers denote. *)
Definition Qltb (a b : Q) : bool := negb (Qle_bool b a).

(** A component of an accelerometer sample: a number, [NaN] and the
    infinities included, or a value whose [typeof] is not ["number"]. *)
Inductive reading : Type :=
| Reading (q : float)
| NotNumber.

(** [setHistoryVisible] of line 47, and the history panel inside the
    component: its calls run on the panel's two variables and on the
    platform of the component. *)
Definition setHistoryVisible (v : bool) : M State unit :=
  modify (set_historyVisible v).

Definition panel_of (s : State) : HistoryPanel.Panel :=
  HistoryPanel.mkPanel (panel_history s) (panel_isLoading s) (platform s).

Definition liftPanel {A} (m : M HistoryPanel.Panel A) : M State A :=
  fun s =>
    let (r, p) := m (panel_of s) in
    (r, set_platform (HistoryPanel.host p)
          (set_panel_isLoading (HistoryPanel.isLoading p)
             (set_panel_history (HistoryPanel.history p) s))).

(* ===================================================================== *)
(** ** App.js: the handlers *)
(* ===================================================================== *)

Section App.
Context `{JsonRuntime}.

Definition FLIP_ANIMATION_DURATION : Z := 3200.

(** Lines 127-132: the [catch] of [flipCoin]. *)
Definition flipCoin_catch (_ : error) : M State (option flip_pc) :=
  liftP (console_error "flipCoin error:") ;;
  setIsFlipping false ;;
  modify (set_flipInProgressRef false) ;;
  ret None.

(** Lines 89-97: the result of the flip. *)
Definition determine_result (r : Render) : M State string :=
  if r_isCustomMode r then
    let sideA :=
      if JsString.truthy (r_customSideA r)
         && JsString.truthy (JsString.trim (r_customSideA r))
      then "A" else "A" in
    let sideB :=
      if JsString.truthy (r_customSideB r)
         && JsString.truthy (JsString.trim (r_customSideB r))
      then "B" else "B" in
    x <- liftP Math_random ;;
    ret (if Qltb x 0.5 then sideA else sideB)
  else
    x <- liftP Math_random ;;
    ret (if Qltb x 0.5 then "Heads" else "Tails").

(** Lines 109-114: the label written to the history. *)
Definition historyLabel (r : Render) (result : string) : string :=
  if String.eqb result "A"
     && JsString.truthy (r_customSideA r)
     && JsString.truthy (JsString.trim (r_customSideA r))
  then JsString.trim (r_customSideA r)
  else if String.eqb result "B"
          && JsString.truthy (r_customSideB r)
          && JsString.truthy (JsString.trim (r_customSideB r))
  then JsString.trim (r_customSideB r)
  else result.

(** Lines 67-79: [flipCoin] from its call to its first [await].  The
    result is the [await] reached, or [None] when the call has returned. *)
Definition flipCoin_enter (r : Render) : M State (option flip_pc) :=
  inProgress <- gets flipInProgressRef ;;
  if inProgress || r_isFlipping r then
    ret None
  else
    try_catch
      (modify (set_flipInProgressRef true) ;;
       setIsFlipping true ;;
       ret (Some AwaitImpact))
      flipCoin_catch.

(** [flipCoin] from the [await] it is suspended at to the next one. *)
Definition flipCoin_resume (r : Render) (at_ : flip_pc)
  : M State (option flip_pc) :=
  match at_ with
  | AwaitImpact =>
      try_catch
        (try_catch
           (settle (HapticsPromise "Haptics.impactAsync"))
           (fun _ => liftP (console_warn "Haptic feedback error:")) ;;
         ret (Some AwaitStart))
        flipCoin_catch
  | AwaitStart =>
      try_catch
        (settle (TimeoutPromise 100) ;;
         result <- determine_result r ;;
         ret (Some (AwaitAnimation result)))
        flipCoin_catch
  | AwaitAnimation result =>
      try_catch
        (settle (TimeoutPromise (FLIP_ANIMATION_DURATION - 100)) ;;
         setSide (Some result) ;;
         setIsFlipping false ;;
         modify (set_flipInProgressRef false) ;;
         try_catch
           (_ <- liftP (saveFlipToHistory
                          (data (JString (historyLabel r result)))) ;;
            ret tt)
           (fun _ => liftP (console_error "Failed to save flip to history:")) ;;
         ret (Some AwaitSave))
        flipCoin_catch
  | AwaitSave =>
      try_catch (ret (Some AwaitNotification)) flipCoin_catch
  | AwaitNotification =>
      try_catch
        (try_catch
           (settle (HapticsPromise "Haptics.notificationAsync"))
           (fun _ => ret tt) ;;
         ret None)
        flipCoin_catch
  end.

(** A call [flipCoin()] whose promise nobody awaits: the function runs to
    its first [await] and stays suspended there. *)
Definition flipCoin (r : Render) : M State unit :=
  reached <- flipCoin_enter r ;;
  match reached with
  | Some at_ => modify (fun s => set_flips (flips s ++ [mkFlipTask r at_]) s)
  | None => ret tt
  end.

(** Lines 139-151.  The promise of [Haptics.impactAsync] carries its own
    [catch], so its rejection is dropped. *)
Definition resetResult (r : Render) : M State unit :=
  inProgress <- gets flipInProgressRef ;;
  if r_isFlipping r || inProgress then
    ret tt
  else
    try_catch
      (setSide None)
      (fun _ => liftP (console_error "resetResult error:")).

(** Lines 259-269. *)
Definition toggleMode (r : Render) : M State unit :=
  inProgress <- gets flipInProgressRef ;;
  if r_isFlipping r || inProgress then
    ret tt
  else
    Keyboard_dismiss ;;
    setIsCustomMode (negb (r_isCustomMode r)) ;;
    setSide None.

(** Lines 275-285. *)
Definition handleCustomSideAChange (text : string) : M State unit :=
  let sanitized := JsString.substring text 0 150 in
  setCustomSideA sanitized.

Definition handleCustomSideBChange (text : string) : M State unit :=
  let sanitized := JsString.substring text 0 150 in
  setCustomSideB sanitized.

(** Lines 211-215: the debounce callback.  It was created by the effect
    of the first render, and so was the [resetResult] it calls. *)
Definition shake_timeout (id : nat) : M State unit :=
  pending <- gets timers ;;
  if bool_decide (id ∈ pending) then
    clearTimeout id ;;
    mounted <- gets isMounted ;;
    if mounted then resetResult first_render else ret tt
  else ret tt.

(** Lines 172-217: the accelerometer listener.  The effect that installs
    it runs once, after the first render: the [flipCoin] it calls is the
    function of that render.  The differences, the products, the sums,
    the square root and the comparisons are those of binary64. *)
Definition accelerometer_listener (x y z : reading) : M State unit :=
  match x, y, z with
  | Reading x, Reading y, Reading z =>
      now <- liftP Date_now ;;
      prevY <- gets prevYRef ;;
      let yDelta := (y - prevY)%float in
      modify (set_prevYRef y) ;;
      lastFlick <- gets lastFlickTimeRef ;;
      inProgress <- gets flipInProgressRef ;;
      if (0.8 <? yDelta)%float && (4000 <? now - lastFlick)%Z
         && negb inProgress
      then
        modify (set_lastFlickTimeRef now) ;;
        mounted <- gets isMounted ;;
        if mounted then flipCoin first_render else ret tt
      else
        let acceleration := sqrt (x * x + y * y + z * z)%float in
        let threshold := 1.5%float in
        lastShake <- gets lastShakeTimeRef ;;
        if (threshold <? acceleration)%float
           && (1000 <? now - lastShake)%Z
        then
          modify (set_lastShakeTimeRef now) ;;
          handle <- gets shakeTimeoutRef ;;
          match handle with
          | Some id => clearTimeout id
          | None => ret tt
          end ;;
          id <- setTimeout_ 100 ;;
          modify (set_shakeTimeoutRef (Some id))
        else ret tt
  | _, _, _ => ret tt
  end.

(** Lines 227-237: the effect's cleanup. *)
Definition cleanup : M State unit :=
  modify (set_isMounted false) ;;
  handle <- gets shakeTimeoutRef ;;
  match handle with
  | Some id => clearTimeout id ;; modify (set_shakeTimeoutRef None)
  | None => ret tt
  end.

End App.

(* ===================================================================== *)
(** ** The running application *)
(* ===================================================================== *)

(** What can happen to the mounted component and to the history panel it
    renders.  A handler that the user interface calls is the function
    of some render [r]: the latest one, or an earlier one while the
    component has not rendered again. *)
Inductive event : Type :=
| PressFlip (r : Render)             (* the button, or a flick of the coin *)
| PressReset (r : Render)
| PressToggleMode (r : Render)
| ChangeTextA (text : string)
| ChangeTextB (text : string)
| Accelerometer (x y z : reading)    (* a sample reaches the listener *)
| ShakeTimeout (id : nat)            (* a debounce timer fires *)
| Resume (i : nat)                   (* the i-th suspended call resumes *)
| Tick (ms : Z)                      (* the clock advances *)
| Unmount
| PressHistory                       (* the History button of the header *)
| CloseHistory                       (* the panel asks to be closed *)
| PressClearHistory.                 (* the Clear History button *)

Section Machine.
Context `{JsonRuntime}.

(** Resume the [i]-th suspended call of [flipCoin]. *)
Definition resume_flip (i : nat) : M State unit :=
  fun s =>
    match flips s !! i with
    | None => (Return tt, s)
    | Some t =>
        match flipCoin_resume (closure t) (pc t) s with
        | (Return (Some at_), s') =>
            (Return tt,
             set_flips (<[i := mkFlipTask (closure t) at_]> (flips s')) s')
        | (_, s') => (Return tt, set_flips (delete i (flips s')) s')
        end
    end.

Definition handle (e : event) : M State unit :=
  match e with
  | PressFlip r => flipCoin r
  | PressReset r => resetResult r
  | PressToggleMode r => toggleMode r
  | ChangeTextA text => handleCustomSideAChange text
  | ChangeTextB text => handleCustomSideBChange text
  | Accelerometer x y z =>
      (* the cleanup of the effect has removed the listener *)
      mounted <- gets isMounted ;;
      if mounted then accelerometer_listener x y z else ret tt
  | ShakeTimeout id => shake_timeout id
  | Resume i => resume_flip i
  | Tick ms =>
      modify (fun s => set_platform (set_now (now (platform s) + ms)
                                       (platform s)) s)
  | Unmount => cleanup
  | PressHistory =>
      (* lines 298 and 435-438; the effect of the panel, lines 23-27 of
         HistoryPanel.js, runs when [visible] has become true *)
      visible <- gets historyVisible ;;
      setHistoryVisible true ;;
      if visible then ret tt else liftPanel HistoryPanel.loadHistory
  | CloseHistory => setHistoryVisible false
  | PressClearHistory => liftPanel HistoryPanel.handleClearHistory
  end.

Definition step (s : State) (e : event) : State := snd (handle e s).

Definition run (es : list event) (s : State) : State := fold_left step es s.

(** A call of [flipCoin] run from its call to its return, with nothing
    happening in between: it is resumed at most five times, once for
    each of its [await]s. *)
Fixpoint flipCoin_from (fuel : nat) (r : Render) (at_ : flip_pc)
  : M State unit :=
  match fuel with
  | O => ret tt
  | S fuel' =>
      next <- flipCoin_resume r at_ ;;
      match next with
      | Some at' => flipCoin_from fuel' r at'
      | None => ret tt
      end
  end.

Definition flipCoin_to_end (r : Render) : M State unit :=
  reached <- flipCoin_enter r ;;
  match reached with
  | Some at_ => flipCoin_from 5 r at_
  | None => ret tt
  end.

End Machine.

(** The flip holds the guard from its call until it has committed its
    result or failed. *)
Definition holds_guard (at_ : flip_pc) : bool :=
  match at_ with
  | AwaitImpact | AwaitStart | AwaitAnimation _ => true
  | AwaitSave | AwaitNotification => false
  end.

(** The calls of [flipCoin] in progress. *)
Definition in_progress (s : State) : list FlipTask :=
  filter (fun t => holds_guard (pc t) = true) (flips s).

Inductive Phase : Type := Idle | Flipping.

Definition phase (s : State) : Phase :=
  if flipInProgressRef s then Flipping else Idle.

(* ===================================================================== *)
(** ** The vocabulary of the specification *)
(* ===================================================================== *)

Section Vocabulary.
Context `{JsonRuntime}.

(** The history entry [{ side, timestamp }] of lines 26-29 of
    [utils/storage.js]. *)
Definition history_entry (side : string) (timestamp : Z) : json :=
  JObject [("side", JString side); ("timestamp", JNumber timestamp)].

(** An object with a string field [side] and an integer field
    [timestamp]. *)
Definition is_history_entry (j : json) : Prop :=
  exists side timestamp, j = history_entry side timestamp.

(** What the specification asks of [readAll], by the content of the
    slot: nothing stored, text that is not JSON and JSON that is not an
    array give the empty sequence, an array gives its elements. *)
Definition readAll_spec (slot : option string) : list json :=
  match slot with
  | None => []
  | Some text =>
      match JSON_parse text with
      | None => []
      | Some (JArray elements) => elements
      | Some _ => []
      end
  end.

(** The argument [saveFlipToHistory] accepts: a string that is not
    empty. *)
Definition non_empty_string (v : value) : bool :=
  match v with
  | data (JString (String _ _)) => true
  | _ => false
  end.

(** The array [saveFlipToHistory] writes: the new entry, then the
    entries read, cut to [MAX_HISTORY_ENTRIES]. *)
Definition appended (label : string) (timestamp : Z) (current : list json)
  : list json :=
  Array_slice (history_entry (JsString.trim label) timestamp :: current)
    0 MAX_HISTORY_ENTRIES.

(** The platform after a call that read the slot and wrote nothing: the
    store and the clock are those of [w], one entry of the plan of
    failures is used. *)
Definition after_read (w w' : Platform) : Prop :=
  asyncStorage w' = asyncStorage w /\ now w' = now w /\
  faults w' = tail (faults w) /\ randoms w' = randoms w.

(** The content of the history slot. *)
Definition history_slot (w : Platform) : option string :=
  asyncStorage w !! HISTORY_KEY.

(** Append the label [fst e] when the clock reads [snd e]. *)
Definition append_at (w : Platform) (e : string * Z) : Platform :=
  snd (saveFlipToHistory (data (JString (fst e))) (set_now (snd e) w)).

Definition appends (es : list (string * Z)) (w : Platform) : Platform :=
  fold_left append_at es w.


(** An object with a string field [label] and an integer field
    [timestamp]. *)
Definition has_label_and_timestamp (j : json) : Prop :=
  exists label timestamp,
    get_member "label" j = Some (JString label)
    /\ get_member "timestamp" j = Some (JNumber timestamp).

End Vocabulary.


(** The custom label of a side, trimmed, or the name of the side when
    nothing is left of the label. *)
Definition label_or (custom fallback : string) : string :=
  match JsString.trim custom with
  | EmptyString => fallback
  | trimmed => trimmed
  end.

(** The possible results of a flip: the names of the two sides of the
    mode. *)
Definition sides (custom : bool) : list string :=
  if custom then ["A"; "B"] else ["Heads"; "Tails"].

(** [s'] differs from [s] at most by the outcome on display, the two
    marks of a flip in progress, and the platform. *)
Definition same_but_flip (s s' : State) : Prop :=
  isCustomMode s' = isCustomMode s
  /\ customSideA s' = customSideA s
  /\ customSideB s' = customSideB s
  /\ shakeTimeoutRef s' = shakeTimeoutRef s
  /\ lastShakeTimeRef s' = lastShakeTimeRef s
  /\ lastFlickTimeRef s' = lastFlickTimeRef s
  /\ prevYRef s' = prevYRef s
  /\ isMounted s' = isMounted s
  /\ flips s' = flips s
  /\ timers s' = timers s
  /\ nextTimer s' = nextTimer s
  /\ historyVisible s' = historyVisible s
  /\ panel_history s' = panel_history s
  /\ panel_isLoading s' = panel_isLoading s.

(** The number of calls of [flipCoin] in a list that hold the guard. *)
Definition holders (l : list FlipTask) : nat :=
  length (filter (fun t => holds_guard (pc t) = true) l).

Definition weight (t : FlipTask) : nat :=
  if holds_guard (pc t) then 1 else 0.

(** The two marks of a flip in progress agree, and they are set exactly
    when one call of [flipCoin] holds the guard. *)
Definition guard_consistent (s : State) : Prop :=
  isFlipping s = flipInProgressRef s
  /\ length (in_progress s) = (if flipInProgressRef s then 1 else 0)%nat.

Definition labels_bounded (s : State) : Prop :=
  (String.length (customSideA s) <= 150)%nat
  /\ (String.length (customSideB s) <= 150)%nat.

(** The store, the clock and the coming random draws of [w'] are those
    of [w]. *)
Definition platform_kept (w w' : Platform) : Prop :=
  asyncStorage w' = asyncStorage w /\ now w' = now w
  /\ randoms w' = randoms w.

(** The side that the draw [x] selects, by the mode the call saw. *)
Definition outcome_of (r : Render) (x : Q) : string :=
  if r_isCustomMode r
  then (if Qltb x 0.5 then "A" else "B")
  else (if Qltb x 0.5 then "Heads" else "Tails").

(** The next draw of [Math.random()]. *)
Definition next_random (w : Platform) : Q := hd 0%Q (randoms w).

(** The next entry of the plan of failures: a platform call made now
    fails. *)
Definition fails_next (w : Platform) : bool := hd false (faults w).

(** The label that a flip in custom mode writes for the side drawn. *)
Definition custom_label (r : Render) (result : string) : string :=
  if String.eqb result "A" then label_or (r_customSideA r) "A"
  else label_or (r_customSideB r) "B".

(** A step that leaves the suspended calls and the two marks alone. *)
Definition guard_frame (s s' : State) : Prop :=
  flips s' = flips s /\ isFlipping s' = isFlipping s
  /\ flipInProgressRef s' = flipInProgressRef s.

Definition labels_frame (s s' : State) : Prop :=
  customSideA s' = customSideA s /\ customSideB s' = customSideB s.

(** A step of the history panel: of the component's own cells it writes
    at most [historyVisible]. *)
Definition panel_frame (s s' : State) : Prop :=
  side s' = side s
  /\ isFlipping s' = isFlipping s
  /\ isCustomMode s' = isCustomMode s
  /\ customSideA s' = customSideA s
  /\ customSideB s' = customSideB s
  /\ shakeTimeoutRef s' = shakeTimeoutRef s
  /\ lastShakeTimeRef s' = lastShakeTimeRef s
  /\ lastFlickTimeRef s' = lastFlickTimeRef s
  /\ prevYRef s' = prevYRef s
  /\ flipInProgressRef s' = flipInProgressRef s
  /\ isMounted s' = isMounted s
  /\ flips s' = flips s
  /\ timers s' = timers s
  /\ nextTimer s' = nextTimer s.

(** The events of the history panel. *)
Definition panel_event (e : event) : bool :=
  match e with
  | PressHistory | CloseHistory | PressClearHistory => true
  | _ => false
  end.

(** The [await]s that a call of [flipCoin] has still to pass before it
    releases the guard. *)
Definition awaits_left (at_ : flip_pc) : nat :=
  match at_ with
  | AwaitImpact => 3
  | AwaitStart => 2
  | AwaitAnimation _ => 1
  | AwaitSave | AwaitNotification => 0
  end.

(* ===================================================================== *)
(** ** A reference JSON runtime

    The serialiser and the parser of the JSON texts over the values of
    [json]: numbers are integer numerals. *)
(* ===================================================================== *)

Module ReferenceJSON.

Definition quote_char : ascii := "034"%char.
Definition backslash : ascii := "092"%char.

Definition hex_digit (n : nat) : ascii :=
  nth n ["0"; "1"; "2"; "3"; "4"; "5"; "6"; "7"; "8"; "9";
         "a"; "b"; "c"; "d"; "e"; "f"]%char "0"%char.

Definition hex_value (c : ascii) : option nat :=
  let n := nat_of_ascii c in
  if ((48 <=? n) && (n <=? 57))%nat then Some (n - 48)%nat
  else if ((97 <=? n) && (n <=? 102))%nat then Some (n - 87)%nat
  else if ((65 <=? n) && (n <=? 70))%nat then Some (n - 55)%nat
  else None.

(** The escape of one character in a string literal. *)
Definition escape_char (c : ascii) (k : string) : string :=
  let n := nat_of_ascii c in
  if (c =? quote_char)%char then String backslash (String quote_char k)
  else if (c =? backslash)%char then String backslash (String backslash k)
  else if (n =? 8)%nat then String backslash (String "b" k)
  else if (n =? 12)%nat then String backslash (String "f" k)
  else if (n =? 10)%nat then String backslash (String "n" k)
  else if (n =? 13)%nat then String backslash (String "r" k)
  else if (n =? 9)%nat then String backslash (String "t" k)
  else if (n <? 32)%nat then
    String backslash
      (String "u" (String "0" (String "0"
         (String (hex_digit (n / 16)) (String (hex_digit (n mod 16)) k)))))
  else String c k.

Fixpoint show_chars (s : string) (k : string) : string :=
  match s with
  | EmptyString => String quote_char k
  | String c s' => escape_char c (show_chars s' k)
  end.

Definition show_string (s : string) (k : string) : string :=
  String quote_char (show_chars s k).

Definition show_number (n : Z) (k : string) : string :=
  NilZero.string_of_int (Z.to_int n) ++ k.

(** [show v k] is the serialisation of [v] followed by [k]. *)
Fixpoint show (v : json) (k : string) : string :=
  match v with
  | JNull => String "n" (String "u" (String "l" (String "l" k)))
  | JBool true => String "t" (String "r" (String "u" (String "e" k)))
  | JBool false =>
      String "f" (String "a" (String "l" (String "s" (String "e" k))))
  | JNumber n => show_number n k
  | JString s => show_string s k
  | JArray elements =>
      String "["
        match elements with
        | [] => String "]" k
        | x :: xs =>
            show x
              ((fix more (l : list json) : string :=
                  match l with
                  | [] => String "]" k
                  | y :: ys => String "," (show y (more ys))
                  end) xs)
        end
  | JObject members =>
      String "{"
        match members with
        | [] => String "}" k
        | (key, x) :: xs =>
            show_string key (String ":" (show x
              ((fix more (l : list (string * json)) : string :=
                  match l with
                  | [] => String "}" k
                  | (key', y) :: ys =>
                      String "," (show_string key'
                                    (String ":" (show y (more ys))))
                  end) xs)))
        end
  end.

(** The rest of an array after an element, and of an object after a
    member. *)
Fixpoint show_elements (l : list json) (k : string) : string :=
  match l with
  | [] => String "]" k
  | y :: ys => String "," (show y (show_elements ys k))
  end.

Fixpoint show_members (l : list (string * json)) (k : string) : string :=
  match l with
  | [] => String "}" k
  | (key, y) :: ys =>
      String "," (show_string key (String ":" (show y (show_members ys k))))
  end.

Definition stringify (v : json) : string := show v EmptyString.

(** JSON white space: space, tab, line feed, carriage return. *)
Definition is_ws (c : ascii) : bool :=
  let n := nat_of_ascii c in
  (n =? 32)%nat || (n =? 9)%nat || (n =? 10)%nat || (n =? 13)%nat.

Fixpoint skip_ws (s : string) : string :=
  match s with
  | String c rest => if is_ws c then skip_ws rest else s
  | EmptyString => EmptyString
  end.

Definition unescape (e : ascii) : option ascii :=
  if (e =? quote_char)%char then Some quote_char
  else if (e =? backslash)%char then Some backslash
  else if (e =? "/")%char then Some "/"%char
  else if (e =? "b")%char then Some "008"%char
  else if (e =? "f")%char then Some "012"%char
  else if (e =? "n")%char then Some "010"%char
  else if (e =? "r")%char then Some "013"%char
  else if (e =? "t")%char then Some "009"%char
  else None.

Definition hex4 (a b c d : ascii) : option nat :=
  match hex_value a, hex_value b, hex_value c, hex_value d with
  | Some x, Some y, Some z, Some t =>
      Some (((x * 16 + y) * 16 + z) * 16 + t)%nat
  | _, _, _, _ => None
  end.

Definition prepend (c : ascii) (r : string * string) : string * string :=
  (String c (fst r), snd r).

(** The characters of a string literal, after its opening quote. *)
Fixpoint parse_chars (s : string) : option (string * string) :=
  match s with
  | EmptyString => None
  | String c rest =>
      if (c =? quote_char)%char then Some (EmptyString, rest)
      else if (c =? backslash)%char then
        match rest with
        | String "u" (String h1 (String h2 (String h3 (String h4 rest')))) =>
            match hex4 h1 h2 h3 h4 with
            | Some n =>
                if (n <? 256)%nat
                then option_map (prepend (ascii_of_nat n)) (parse_chars rest')
                else None
            | None => None
            end
        | String e rest' =>
            match unescape e with
            | Some c' => option_map (prepend c') (parse_chars rest')
            | None => None
            end
        | EmptyString => None
        end
      else if (nat_of_ascii c <? 32)%nat then None
      else option_map (prepend c) (parse_chars rest)
  end.

Definition is_number_char (c : ascii) : bool :=
  let n := nat_of_ascii c in
  ((48 <=? n) && (n <=? 57))%nat
  || (c =? "-")%char || (c =? "+")%char || (c =? ".")%char
  || (c =? "e")%char || (c =? "E")%char.

Fixpoint span_number (s : string) : string * string :=
  match s with
  | String c rest =>
      if is_number_char c
      then let (lexeme, k) := span_number rest in (String c lexeme, k)
      else (EmptyString, s)
  | EmptyString => (EmptyString, EmptyString)
  end.

(** An integer numeral; a numeral with a fraction or an exponent is
    outside this runtime. *)
Definition parse_number (lexeme : string) : option Z :=
  match NilZero.int_of_string lexeme with
  | Some d =>
      let n := Z.of_int d in
      if String.eqb (NilZero.string_of_int (Z.to_int n)) lexeme then Some n
      else if String.eqb lexeme "-0" then Some 0%Z
      else None
  | None => None
  end.

Fixpoint strip_prefix (p s : string) : option string :=
  match p, s with
  | EmptyString, _ => Some s
  | String a p', String b s' =>
      if (a =? b)%char then strip_prefix p' s' else None
  | String _ _, EmptyString => None
  end.

Definition parse_literal (s : string) : option (json * string) :=
  match strip_prefix "null" s with
  | Some k => Some (JNull, k)
  | None =>
      match strip_prefix "true" s with
      | Some k => Some (JBool true, k)
      | None =>
          match strip_prefix "false" s with
          | Some k => Some (JBool false, k)
          | None => None
          end
      end
  end.

Definition first_is (c : ascii) (s : string) : bool :=
  match s with
  | String c' _ => (c' =? c)%char
  | EmptyString => false
  end.

Definition starts_number (s : string) : bool :=
  match s with
  | String c _ => is_number_char c
  | EmptyString => false
  end.

Definition behead (s : string) : string :=
  match s with
  | String _ k => k
  | EmptyString => EmptyString
  end.

Fixpoint parse_value (fuel : nat) (s : string) : option (json * string) :=
  match fuel with
  | O => None
  | S fuel' =>
      let s := skip_ws s in
      if first_is "[" s then
        let rest := skip_ws (behead s) in
        if first_is "]" rest then Some (JArray [], behead rest)
        else
          match parse_value fuel' rest with
          | Some (x, k) =>
              match parse_elements fuel' k with
              | Some (xs, k') => Some (JArray (x :: xs), k')
              | None => None
              end
          | None => None
          end
      else if first_is "{" s then
        let rest := skip_ws (behead s) in
        if first_is "}" rest then Some (JObject [], behead rest)
        else
          match parse_member fuel' rest with
          | Some (m, k) =>
              match parse_members fuel' k with
              | Some (ms, k') => Some (JObject (m :: ms), k')
              | None => None
              end
          | None => None
          end
      else if first_is quote_char s then
        match parse_chars (behead s) with
        | Some (str, k) => Some (JString str, k)
        | None => None
        end
      else if starts_number s then
        let (lexeme, k) := span_number s in
        match parse_number lexeme with
        | Some n => Some (JNumber n, k)
        | None => None
        end
      else parse_literal s
  end
with parse_elements (fuel : nat) (s : string)
  : option (list json * string) :=
  match fuel with
  | O => None
  | S fuel' =>
      let s := skip_ws s in
      if first_is "]" s then Some ([], behead s)
      else if first_is "," s then
        match parse_value fuel' (behead s) with
        | Some (y, k) =>
            match parse_elements fuel' k with
            | Some (ys, k') => Some (y :: ys, k')
            | None => None
            end
        | None => None
        end
      else None
  end
with parse_member (fuel : nat) (s : string)
  : option ((string * json) * string) :=
  match fuel with
  | O => None
  | S fuel' =>
      let s := skip_ws s in
      if first_is quote_char s then
        match parse_chars (behead s) with
        | Some (key, k) =>
            let k := skip_ws k in
            if first_is ":" k then
              match parse_value fuel' (behead k) with
              | Some (x, k') => Some ((key, x), k')
              | None => None
              end
            else None
        | None => None
        end
      else None
  end
with parse_members (fuel : nat) (s : string)
  : option (list (string * json) * string) :=
  match fuel with
  | O => None
  | S fuel' =>
      let s := skip_ws s in
      if first_is "}" s then Some ([], behead s)
      else if first_is "," s then
        match parse_member fuel' (behead s) with
        | Some (m, k) =>
            match parse_members fuel' k with
            | Some (ms, k') => Some (m :: ms, k')
            | None => None
            end
        | None => None
        end
      else None
  end.

Definition parse (s : string) : option json :=
  match parse_value (S (String.length s)) s with
  | Some (v, k) =>
      match skip_ws k with
      | EmptyString => Some v
      | String _ _ => None
      end
  | None => None
  end.

(** *** What the proof that [parse] inverts [stringify] speaks of *)

(** A string made of the characters of numerals. *)
Fixpoint all_number (s : string) : Prop :=
  match s with
  | EmptyString => True
  | String c s' => is_number_char c = true /\ all_number s'
  end.

(** What may follow a numeral. *)
Definition terminated (k : string) : Prop := starts_number k = false.

(** The calls that parse the rest of an array, and of an object. *)
Fixpoint sizes (size : json -> nat) (l : list json) : nat :=
  match l with
  | [] => 1
  | x :: xs => size x + sizes size xs
  end.

Fixpoint member_sizes (size : json -> nat) (m : list (string * json))
  : nat :=
  match m with
  | [] => 1
  | (_, x) :: xs => S (size x) + member_sizes size xs
  end.

(** A bound on the depth of the calls that parse [show v k]. *)
Fixpoint size (v : json) : nat :=
  match v with
  | JArray l => S (sizes size l)
  | JObject m => S (member_sizes size m)
  | _ => 1
  end.

(** A serialised value starts with a character that is neither white
    space nor a closing bracket. *)
Definition value_head (s : string) : Prop :=
  skip_ws s = s /\ first_is "]" s = false /\ first_is "}" s = false.

(** With enough fuel, [parse_value] reads [v] back from [show v k]. *)
Definition parses (v : json) : Prop :=
  forall fuel k,
    size v <= fuel -> terminated k ->
    parse_value fuel (show v k) = Some (v, k).

(** The serialisation of [v] is at least as long as [size v]. *)
Definition fits (v : json) : Prop :=
  forall k, size v + String.length k <= String.length (show v k).

End ReferenceJSON.

(** The reference runtime. *)
Definition reference_runtime : JsonRuntime :=
  {| JSON_stringify := ReferenceJSON.stringify;
     JSON_parse := ReferenceJSON.parse |}.

(* ===================================================================== *)
(** ** Concrete platforms, states and runs *)
(* ===================================================================== *)

(** A platform with an empty store, no failure planned, and a clock that
    reads 1700000000000. *)
Definition fresh_platform : Platform :=
  mkPlatform ∅ 1700000000000 [] [] [].

(** The platform after the label ["Heads"] was appended. *)
Definition heads_appended : Platform :=
  snd (@saveFlipToHistory reference_runtime (data (JString "Heads"))
         fresh_platform).

(** The application just started, and the application after a press of
    the flip button: one call of [flipCoin] is suspended at its first
    [await]. *)
Definition started : State := initial_state fresh_platform.

Definition flipping : State :=
  @step reference_runtime started (PressFlip (render_of started)).

(** Twelve appends of the label ["Heads"], at the times 1, ..., 12. *)
Definition heads_at (i : nat) : string * Z := ("Heads", Z.of_nat i).

(** The custom mode with the labels ["Pizza"] and the empty string, and
    an application whose next random draw is 0.25. *)
Definition pizza : Render := mkRender false true "Pizza" EmptyString.

Definition draws (x : Q) : State :=
  initial_state (mkPlatform ∅ 1700000000000 [] [x] []).

(** The user switches to the custom mode, enters the label ["Pizza"] for
    the side A, and flicks the device; the flip runs to its end. *)
Definition flick_in_custom_mode : list event :=
  [PressToggleMode first_render;
   ChangeTextA "Pizza";
   Accelerometer (Reading 0) (Reading 0.9) (Reading 0);
   Resume 0; Resume 0; Resume 0; Resume 0; Resume 0].

(** An application in which the second platform call of the flip, the
    first timer, fails. *)
Definition failing_timer : State :=
  initial_state (mkPlatform ∅ 1700000000000 [false; true] [] []).

(** The application 500 ms after a first flick, with no flip in
    progress. *)
Definition after_flick : State :=
  set_platform (set_now 1700000000500 fresh_platform)
    (set_lastFlickTimeRef 1700000000000 (set_prevYRef 0.9 started)).

(** A platform whose history slot holds [text]. *)
Definition slot_holding (text : string) (plan : list bool) : Platform :=
  mkPlatform {[ HISTORY_KEY := text ]} 1700000000000 plan [] [].

(** The button pressed twice in a row. *)
Definition two_presses : list event :=
  [PressFlip first_render; PressFlip first_render].

(* ===================================================================== *)
(** ** utils/storage.js: sequences of calls *)
(* ===================================================================== *)

(** A client of the module calls its three functions in any order, while
    the clock advances. *)
Inductive storage_call : Type :=
| Save (side : value)
| Read
| Clear
| Wait (ms : Z).

Section StorageCalls.
Context `{JsonRuntime}.

Definition perform (w : Platform) (c : storage_call) : Platform :=
  match c with
  | Save side => snd (saveFlipToHistory side w)
  | Read => snd (getHistory w)
  | Clear => snd (clearHistory w)
  | Wait ms => set_now (now w + ms) w
  end.

Definition session (cs : list storage_call) (w : Platform) : Platform :=
  fold_left perform cs w.

End StorageCalls.

(* ===================================================================== *)
(** ** App.js: what the component shows *)
(* ===================================================================== *)

(** Lines 243-254.  [!side] holds for [null] and for the empty string. *)
Definition getDisplayLabel (side : option string)
  (customSideA customSideB : string) : string :=
  match side with
  | None => "Ready"
  | Some side =>
      if negb (JsString.truthy side) then "Ready"
      else if String.eqb side "A"
              && JsString.truthy customSideA
              && JsString.truthy (JsString.trim customSideA)
      then JsString.trim customSideA
      else if String.eqb side "B"
              && JsString.truthy customSideB
              && JsString.truthy (JsString.trim customSideB)
      then JsString.trim customSideB
      else side
  end.

(** Lines 387-392: the result display, present when [side] is truthy. *)
Definition resultText (s : State) : option string :=
  match side s with
  | Some x =>
      if JsString.truthy x
      then Some (getDisplayLabel (side s) (customSideA s) (customSideB s))
      else None
  | None => None
  end.

(** Line 379: the [side] the component passes to [Coin],
    [side || 'Heads']. *)
Definition coin_side (s : State) : string :=
  match side s with
  | Some x => if JsString.truthy x then x else "Heads"
  | None => "Heads"
  end.

(* ===================================================================== *)
(** ** components/Coin.js *)
(* ===================================================================== *)

Module Coin.

(** Line 15: [side || 'Heads']. *)
Definition displaySide (side : string) : string :=
  if JsString.truthy side then side else "Heads".

(** Lines 18-26. *)
Definition getSideLabel (customSideA customSideB sideValue : string)
  : string :=
  if String.eqb sideValue "A" then
    if JsString.truthy customSideA
       && JsString.truthy (JsString.trim customSideA)
    then JsString.trim customSideA else "A"
  else if String.eqb sideValue "B" then
    if JsString.truthy customSideB
       && JsString.truthy (JsString.trim customSideB)
    then JsString.trim customSideB else "B"
  else sideValue.

(** Lines 29-35: the end of a pan gesture on the coin.  [onFlipStart] is
    the property of that name: a function, or nothing. *)
Definition panGesture_onEnd (isFlipping : bool)
  (onFlipStart : option (M State unit)) (velocityY : Q) : M State unit :=
  match onFlipStart with
  | Some callback =>
      if Qltb velocityY (-500) && negb isFlipping then callback else ret tt
  | None => ret tt
  end.

End Coin.

(** Lines 378-384 of [App.js]: the label on the coin, and the gesture
    handler of the coin that the render [r] created. *)
Definition coinLabel (s : State) : string :=
  Coin.getSideLabel (customSideA s) (customSideB s)
    (Coin.displaySide (coin_side s)).

Section CoinOfApp.
Context `{JsonRuntime}.

Definition coin_onEnd (r : Render) (velocityY : Q) : M State unit :=
  Coin.panGesture_onEnd (r_isFlipping r) (Some (flipCoin r)) velocityY.

End CoinOfApp.

(* ===================================================================== *)
(** ** The vocabulary of the further properties *)
(* ===================================================================== *)

Section StoredLog.
Context `{JsonRuntime}.

(** The log that the history slot decodes to. *)
Definition stored_log (w : Platform) : list json :=
  readAll_spec (history_slot w).

End StoredLog.

(** The clock does not go back. *)
Definition forward (c : storage_call) : Prop :=
  match c with
  | Wait ms => (0 <= ms)%Z
  | _ => True
  end.

(** A log of entries [{ side, timestamp }] with trimmed labels, whose
    timestamps do not exceed [bound] and do not increase along the
    log. *)
Fixpoint newest_first (bound : Z) (l : list json) : bool :=
  match l with
  | [] => true
  | JObject [(k1, JString label); (k2, JNumber t)] :: rest =>
      String.eqb k1 "side" && String.eqb k2 "timestamp"
      && String.eqb (JsString.trim label) label
      && (t <=? bound)%Z && newest_first t rest
  | _ => false
  end.

(** An entry [{ side, timestamp }] whose label is not empty and is
    trimmed. *)
Definition labelled (j : json) : Prop :=
  exists label t,
    j = history_entry label t
    /\ JsString.truthy label = true
    /\ JsString.trim label = label.

(** The four results of a flip. *)
Definition is_side (x : string) : bool :=
  String.eqb x "Heads" || String.eqb x "Tails"
  || String.eqb x "A" || String.eqb x "B".

Definition drawn (t : FlipTask) : Prop :=
  match pc t with
  | AwaitAnimation result => is_side result = true
  | _ => True
  end.

(** The result on display, and the result that every suspended flip
    will commit, are among the four. *)
Definition results_valid (s : State) : Prop :=
  match side s with Some x => is_side x = true | None => True end
  /\ Forall drawn (flips s).

(** No debounce timer is pending, or one is and [shakeTimeoutRef] holds
    its handle. *)
Definition one_timer (s : State) : Prop :=
  timers s = [] \/ exists id, timers s = [id] /\ shakeTimeoutRef s = Some id.

(** The event is the resumption of a flip at the end of its animation,
    where the flip commits its result and writes the history. *)
Definition commits (s : State) (e : event) : bool :=
  match e with
  | Resume i =>
      match flips s !! i with
      | Some t =>
          match pc t with AwaitAnimation _ => true | _ => false end
      | None => false
      end
  | _ => false
  end.

(** The event is a press of the Clear History button of the panel. *)
Definition clears (e : event) : bool :=
  match e with
  | PressClearHistory => true
  | _ => false
  end.

(** [s'] differs from [s] at most by the cells of the motion detection:
    the last sample, the times of the last flick and shake, and the
    debounce timer. *)
Definition motion_frame (s s' : State) : Prop :=
  side s' = side s
  /\ isFlipping s' = isFlipping s
  /\ isCustomMode s' = isCustomMode s
  /\ customSideA s' = customSideA s
  /\ customSideB s' = customSideB s
  /\ flipInProgressRef s' = flipInProgressRef s
  /\ isMounted s' = isMounted s
  /\ flips s' = flips s
  /\ platform s' = platform s
  /\ historyVisible s' = historyVisible s
  /\ panel_history s' = panel_history s
  /\ panel_isLoading s' = panel_isLoading s.

(** A string without the character ["-"]. *)
Fixpoint no_dash (s : string) : Prop :=
  match s with
  | EmptyString => True
  | String c rest => c <> "-"%char /\ no_dash rest
  end.

(* ===================================================================== *)
(** ** A reference locale *)
(* ===================================================================== *)

(** A locale for the examples: month/day/year of the proleptic
    Gregorian calendar, in universal time. *)
Definition en_US_UTC (t : Z) : string :=
  let z := (t / 86400000 + 719468)%Z in
  let era := (z / 146097)%Z in
  let doe := (z - era * 146097)%Z in
  let yoe := ((doe - doe / 1460 + doe / 36524 - doe / 146096) / 365)%Z in
  let doy := (doe - (365 * yoe + yoe / 4 - yoe / 100))%Z in
  let mp := ((5 * doy + 2) / 153)%Z in
  let d := (doy - (153 * mp + 2) / 5 + 1)%Z in
  let m := (if (mp <? 10)%Z then mp + 3 else mp - 9)%Z in
  let y := (yoe + era * 400 + (if (m <=? 2)%Z then 1 else 0))%Z in
  Number_toString m ++ "/" ++ Number_toString d ++ "/" ++ Number_toString y.

Definition reference_dates : DateRuntime :=
  {| toLocaleDateString := en_US_UTC |}.

(* ===================================================================== *)
(** ** More concrete platforms, states and calls *)
(* ===================================================================== *)

(** A platform whose history slot holds the array [[1, 2]], and whose
    next storage call, a read, fails. *)
Definition failing_read : Platform := slot_holding "[1, 2]" [true].

(** A client that appends a value that is no string, clears, appends,
    waits, reads, appends a padded label, and then appends nine more
    times, one millisecond apart. *)
Definition some_calls : list storage_call :=
  [Save undefined; Clear; Save (data (JString "Heads")); Wait 5; Read;
   Save (data (JString " Tails "))]
  ++ concat (repeat [Wait 1; Save (data (JString "A"))] 9).

(** The application with a result on display: ["Heads"] was flipped. *)
Definition showing_heads : State := set_side (Some "Heads") started.

(** An entry written 1000 seconds before the clock of [fresh_platform]
    was read. *)
Definition earlier : Z := 1699999000000.

(** A platform whose history slot holds the array [[null]]. *)
Definition holding_null : Platform := slot_holding "[null]" [].

(** A press of the flip button and the five resumptions that take the
    flip to its end. *)
Definition one_flip : list event :=
  [PressFlip first_render; Resume 0; Resume 0; Resume 0; Resume 0; Resume 0].

(* ===================================================================== *)
(** ** Strings: trimming and truncation *)
(* ===================================================================== *)

Module JsStringFacts.
Import JsString.

(** A string that is empty or starts with a character that is not white
    space. *)
Definition starts_clean (s : string) : Prop :=
  match s with
  | EmptyString => True
  | String c _ => is_white_space c = false
  end.

Lemma trimStart_starts_clean (s : string) : starts_clean (trimStart s).
Proof.
  induction s as [|c s IH]; simpl; [exact I|].
  destruct (is_white_space c) eqn:Hc; [exact IH | exact Hc].
Qed.

Lemma trimStart_clean (s : string) : starts_clean s -> trimStart s = s.
Proof.
  destruct s as [|c s]; simpl; [reflexivity|].
  intros ->. reflexivity.
Qed.

Lemma trimEnd_starts_clean (s : string) :
  starts_clean s -> starts_clean (trimEnd s).
Proof.
  destruct s as [|c s]; simpl; [trivial|].
  intros Hc. rewrite Hc. destruct (trimEnd s); simpl; exact Hc.
Qed.

Lemma trimEnd_idempotent (s : string) : trimEnd (trimEnd s) = trimEnd s.
Proof.
  induction s as [|c s IH]; simpl; [reflexivity|].
  destruct (trimEnd s) as [|d r] eqn:Hr.
  - destruct (is_white_space c) eqn:Hc; simpl; [reflexivity|].
    rewrite Hc. reflexivity.
  - change (trimEnd (String c (String d r)))
      with (match trimEnd (String d r) with
            | EmptyString => if is_white_space c then EmptyString
                             else String c EmptyString
            | String e r' => String c (String e r')
            end).
    rewrite IH. reflexivity.
Qed.

Lemma trim_idempotent (s : string) : trim (trim s) = trim s.
Proof.
  unfold trim.
  rewrite (trimStart_clean (trimEnd (trimStart s))).
  - apply trimEnd_idempotent.
  - apply trimEnd_starts_clean, trimStart_starts_clean.
Qed.

Lemma length_substring_0 (n : nat) (s : string) :
  String.length (String.substring 0 n s) = Nat.min n (String.length s).
Proof.
  revert s; induction n as [|n IH]; intros [|c s]; simpl; try reflexivity.
  rewrite IH. reflexivity.
Qed.

Lemma substring_0_all (n : nat) (s : string) :
  String.length s <= n -> String.substring 0 n s = s.
Proof.
  revert s; induction n as [|n IH]; intros [|c s]; simpl; intros Hl;
    try reflexivity; try lia.
  rewrite IH by lia. reflexivity.
Qed.

(** [text.substring(0, n)] is the prefix of [text] of length
    [min n (length text)]. *)
Lemma substring_0_prefix (n : nat) (s : string) :
  exists rest, s = String.substring 0 n s ++ rest.
Proof.
  revert s; induction n as [|n IH]; intros [|c s]; simpl.
  - exists EmptyString; reflexivity.
  - exists (String c s); reflexivity.
  - exists EmptyString; reflexivity.
  - destruct (IH s) as [rest Hrest]. exists rest.
    change (String c s = String c (String.substring 0 n s ++ rest)).
    f_equal. exact Hrest.
Qed.

End JsStringFacts.

(* ===================================================================== *)
(** ** The reference runtime parses what it serialises *)
(* ===================================================================== *)

Module ReferenceJSONFacts.
Import ReferenceJSON.

(** Induction on values, with the elements of arrays and the members of
    objects. *)
Section JsonInd.
Variable P : json -> Prop.
Hypothesis Hnull : P JNull.
Hypothesis Hbool : forall b, P (JBool b).
Hypothesis Hnumber : forall n, P (JNumber n).
Hypothesis Hstring : forall s, P (JString s).
Hypothesis Harray : forall l, Forall P l -> P (JArray l).
Hypothesis Hobject :
  forall m, Forall (fun kv => P (snd kv)) m -> P (JObject m).

Fixpoint json_induction (v : json) : P v :=
  match v with
  | JNull => Hnull
  | JBool b => Hbool b
  | JNumber n => Hnumber n
  | JString s => Hstring s
  | JArray l =>
      Harray l
        ((fix all (l : list json) : Forall P l :=
            match l with
            | [] => List.Forall_nil P
            | x :: xs => @List.Forall_cons _ P x xs (json_induction x) (all xs)
            end) l)
  | JObject m =>
      Hobject m
        ((fix all (m : list (string * json))
            : Forall (fun kv => P (snd kv)) m :=
            match m with
            | [] => List.Forall_nil _
            | kv :: ms =>
                @List.Forall_cons _ _ kv ms (json_induction (snd kv)) (all ms)
            end) m)
  end.
End JsonInd.

(** *** String literals *)

Lemma parse_escape_char (c : ascii) (k : string) :
  parse_chars (escape_char c k) = option_map (prepend c) (parse_chars k).
Proof.
  destruct c as [[|] [|] [|] [|] [|] [|] [|] [|]]; reflexivity.
Qed.

Lemma parse_show_chars (s k : string) :
  parse_chars (show_chars s k) = Some (s, k).
Proof.
  induction s as [|c s IH]; [reflexivity|].
  cbn [show_chars]. rewrite parse_escape_char, IH. reflexivity.
Qed.

(** *** Numerals *)

Lemma append_cons (c : ascii) (s k : string) :
  String c s ++ k = String c (s ++ k).
Proof. reflexivity. Qed.

Lemma append_empty (k : string) : EmptyString ++ k = k.
Proof. reflexivity. Qed.

Lemma span_number_app (s k : string) :
  all_number s -> terminated k -> span_number (s ++ k) = (s, k).
Proof.
  intros Hs Hk. induction s as [|c s IH].
  - rewrite append_empty. destruct k as [|c k]; [reflexivity|].
    unfold terminated in Hk. cbn in Hk. cbn [span_number]. rewrite Hk.
    reflexivity.
  - destruct Hs as [Hc Hs]. rewrite append_cons. cbn [span_number].
    rewrite Hc, (IH Hs). reflexivity.
Qed.

Lemma all_number_uint (d : Decimal.uint) :
  all_number (NilEmpty.string_of_uint d).
Proof. induction d; cbn; auto. Qed.

Lemma uint_nonempty (d : Decimal.uint) :
  d <> Decimal.Nil ->
  exists c r, NilEmpty.string_of_uint d = String c r.
Proof. destruct d; [congruence|..]; intros _; cbn; eauto. Qed.

Lemma to_int_nonnil (n : Z) :
  Z.to_int n <> Decimal.Pos Decimal.Nil
  /\ Z.to_int n <> Decimal.Neg Decimal.Nil.
Proof.
  destruct n as [|p|p]; cbn; split; try discriminate;
    intros [= Hp]; exact (Unsigned.to_uint_nonnil p Hp).
Qed.

Lemma string_of_uint_nonnil (d : Decimal.uint) :
  d <> Decimal.Nil ->
  NilZero.string_of_uint d = NilEmpty.string_of_uint d.
Proof. destruct d; [congruence|..]; reflexivity. Qed.

Lemma numeral_shape (n : Z) :
  exists c r,
    NilZero.string_of_int (Z.to_int n) = String c r
    /\ is_number_char c = true /\ all_number r.
Proof.
  destruct n as [|p|p]; cbn [Z.to_int NilZero.string_of_int].
  - exists "0"%char, EmptyString. cbn. auto.
  - pose proof (Unsigned.to_uint_nonnil p) as Hp.
    pose proof (all_number_uint (Pos.to_uint p)) as Hall.
    rewrite (string_of_uint_nonnil _ Hp).
    destruct (uint_nonempty _ Hp) as (c & r & Heq).
    rewrite Heq in *. exists c, r. cbn in Hall. tauto.
  - pose proof (Unsigned.to_uint_nonnil p) as Hp.
    pose proof (all_number_uint (Pos.to_uint p)) as Hall.
    rewrite (string_of_uint_nonnil _ Hp).
    exists "-"%char. eexists. split; [reflexivity|].
    split; [reflexivity | exact Hall].
Qed.

Lemma parse_number_numeral (n : Z) :
  parse_number (NilZero.string_of_int (Z.to_int n)) = Some n.
Proof.
  unfold parse_number.
  destruct (to_int_nonnil n) as [Hp Hn].
  rewrite (NilZero.isi _ Hp Hn). cbn zeta. rewrite of_to.
  rewrite String.eqb_refl. reflexivity.
Qed.

Lemma number_char_facts (c : ascii) :
  is_number_char c = true ->
  is_ws c = false /\ (c =? "[")%char = false /\ (c =? "]")%char = false
  /\ (c =? "{")%char = false /\ (c =? "}")%char = false
  /\ (c =? quote_char)%char = false /\ (c =? ",")%char = false.
Proof.
  destruct c as [[|] [|] [|] [|] [|] [|] [|] [|]]; cbn;
    intros Hc; try discriminate Hc; repeat split.
Qed.

(** *** Values *)

Lemma size_positive (v : json) : 0 < size v.
Proof. destruct v; cbn; lia. Qed.

Lemma sizes_positive (l : list json) : 0 < sizes size l.
Proof. destruct l as [|x xs]; cbn; [|pose proof (size_positive x)]; lia. Qed.

Lemma member_sizes_positive (m : list (string * json)) :
  0 < member_sizes size m.
Proof. destruct m as [|[key x] xs]; cbn; lia. Qed.

Lemma show_array (l : list json) (k : string) :
  show (JArray l) k =
    String "[" match l with
               | [] => String "]" k
               | x :: xs => show x (show_elements xs k)
               end.
Proof.
  destruct l as [|x xs]; [reflexivity|].
  cbn [show]. do 2 f_equal.
  induction xs as [|y ys IH]; [reflexivity|].
  cbn [show_elements]. rewrite <- IH. reflexivity.
Qed.

Lemma show_object (m : list (string * json)) (k : string) :
  show (JObject m) k =
    String "{" match m with
               | [] => String "}" k
               | (key, x) :: xs =>
                   show_string key (String ":" (show x (show_members xs k)))
               end.
Proof.
  destruct m as [|[key x] xs]; [reflexivity|].
  cbn [show]. do 4 f_equal.
  induction xs as [|[key' y] ys IH]; [reflexivity|].
  cbn [show_members]. rewrite <- IH. reflexivity.
Qed.

Lemma show_head (v : json) (k : string) : value_head (show v k).
Proof.
  destruct v as [|[|]|n|s|l|m];
    [repeat split .. | | repeat split | | ].
  - unfold show, show_number.
    destruct (numeral_shape n) as (c & r & -> & Hc & _).
    rewrite append_cons.
    destruct (number_char_facts c Hc) as (Hws & _ & Hb & _ & Hcb & _).
    unfold value_head. cbn. rewrite Hws, Hb, Hcb. auto.
  - rewrite show_array. repeat split.
  - rewrite show_object. repeat split.
Qed.

Lemma show_elements_terminated (xs : list json) (k : string) :
  terminated (show_elements xs k).
Proof. destruct xs; reflexivity. Qed.

Lemma show_members_terminated (xs : list (string * json)) (k : string) :
  terminated (show_members xs k).
Proof. destruct xs as [|[key y] ys]; reflexivity. Qed.

Lemma skip_ws_head (c : ascii) (r : string) :
  is_ws c = false -> skip_ws (String c r) = String c r.
Proof. intros Hc. cbn [skip_ws]. rewrite Hc. reflexivity. Qed.

Lemma first_is_head (c c' : ascii) (r : string) :
  first_is c (String c' r) = (c' =? c)%char.
Proof. reflexivity. Qed.

Lemma behead_head (c : ascii) (r : string) : behead (String c r) = r.
Proof. reflexivity. Qed.

(** Read the punctuation character at the head of the input. *)
Ltac punct :=
  rewrite ?skip_ws_head by reflexivity;
  rewrite ?first_is_head, ?behead_head;
  cbn [Ascii.eqb Bool.eqb quote_char]; cbv iota.

Lemma parse_show_elements (xs : list json) :
  Forall parses xs ->
  forall fuel k,
    sizes size xs <= fuel ->
    parse_elements fuel (show_elements xs k) = Some (xs, k).
Proof.
  induction 1 as [|y ys Hy _ IH]; intros [|fuel] k Hfuel;
    cbn [sizes] in Hfuel; try lia.
  - reflexivity.
  - pose proof (size_positive y). lia.
  - pose proof (size_positive y). pose proof (sizes_positive ys).
    cbn [show_elements parse_elements]. punct.
    rewrite (Hy fuel) by (try apply show_elements_terminated; lia).
    rewrite IH by lia. reflexivity.
Qed.

Lemma parse_show_member (key : string) (y : json) :
  parses y ->
  forall fuel k,
    S (size y) <= fuel -> terminated k ->
    parse_member fuel (show_string key (String ":" (show y k)))
    = Some ((key, y), k).
Proof.
  intros Hy [|fuel] k Hfuel Hk; try lia.
  unfold show_string. cbn [parse_member]. punct.
  rewrite parse_show_chars. punct.
  rewrite (Hy fuel) by (assumption || lia). reflexivity.
Qed.

Lemma parse_show_members (xs : list (string * json)) :
  Forall (fun kv => parses (snd kv)) xs ->
  forall fuel k,
    member_sizes size xs <= fuel ->
    parse_members fuel (show_members xs k) = Some (xs, k).
Proof.
  induction 1 as [|[key y] ys Hy _ IH]; intros [|fuel] k Hfuel;
    cbn [member_sizes] in Hfuel; try lia.
  - reflexivity.
  - pose proof (member_sizes_positive ys). cbn [snd] in Hy.
    cbn [show_members parse_members]. punct.
    rewrite (parse_show_member key y Hy)
      by (try apply show_members_terminated; lia).
    rewrite IH by lia. reflexivity.
Qed.

Theorem parse_show (v : json) : parses v.
Proof.
  induction v as [|b|n|s|l IH|m IH] using json_induction;
    intros [|fuel] k Hfuel Hk; cbn [size] in Hfuel; try lia.
  - reflexivity.
  - destruct b; reflexivity.
  - cbn [parse_value show]. unfold show_number.
    destruct (numeral_shape n) as (c & r & Heq & Hc & Hr).
    destruct (number_char_facts c Hc)
      as (Hws & Hob & _ & Hoc & _ & Hq & _).
    set (digits := NilZero.string_of_int (Z.to_int n)) in *.
    assert (Hskip : skip_ws (digits ++ k) = digits ++ k)
      by (rewrite Heq, append_cons; apply skip_ws_head, Hws).
    assert (Hfirst : forall c', (c =? c')%char = false ->
                                first_is c' (digits ++ k) = false)
      by (intros c' Hc'; rewrite Heq, append_cons; exact Hc').
    assert (Hstart : starts_number (digits ++ k) = true)
      by (rewrite Heq, append_cons; exact Hc).
    rewrite Hskip, !Hfirst, Hstart by assumption.
    rewrite span_number_app; [| rewrite Heq; split; assumption | exact Hk].
    unfold digits. rewrite parse_number_numeral. reflexivity.
  - cbn [parse_value show]. unfold show_string. punct.
    rewrite parse_show_chars. reflexivity.
  - rewrite show_array. cbn [parse_value]. punct.
    destruct l as [|x xs]; [punct; reflexivity|].
    destruct (show_head x (show_elements xs k)) as (Hskip & Hclose & _).
    rewrite Hskip, Hclose. cbn [sizes] in Hfuel.
    pose proof (size_positive x). pose proof (sizes_positive xs).
    apply Forall_cons in IH as [Hx Hxs].
    rewrite (Hx fuel) by (try apply show_elements_terminated; lia).
    rewrite (parse_show_elements xs Hxs) by lia. reflexivity.
  - rewrite show_object. cbn [parse_value]. punct.
    destruct m as [|[key x] xs]; [punct; reflexivity|].
    assert (Hhead : value_head
              (show_string key (String ":" (show x (show_members xs k)))))
      by (repeat split).
    destruct Hhead as (Hskip & _ & Hclose).
    rewrite Hskip, Hclose. cbn [member_sizes] in Hfuel.
    pose proof (member_sizes_positive xs).
    apply Forall_cons in IH as [Hx Hxs]. cbn [snd] in Hx.
    rewrite (parse_show_member key x Hx)
      by (try apply show_members_terminated; lia).
    rewrite (parse_show_members xs Hxs) by lia. reflexivity.
Qed.

(** *** The fuel [parse] gives is enough *)

Lemma length_escape_char (c : ascii) (k : string) :
  String.length k < String.length (escape_char c k).
Proof.
  destruct c as [[|] [|] [|] [|] [|] [|] [|] [|]];
    lazy -[String.length lt]; cbn [String.length]; lia.
Qed.

Lemma length_show_chars (s k : string) :
  String.length k < String.length (show_chars s k).
Proof.
  induction s as [|c s IH]; cbn [show_chars]; [cbn; lia|].
  pose proof (length_escape_char c (show_chars s k)). lia.
Qed.

Lemma length_append (s k : string) :
  String.length (s ++ k) = String.length s + String.length k.
Proof.
  induction s as [|c s IH]; [reflexivity|].
  rewrite append_cons. cbn [String.length]. rewrite IH. reflexivity.
Qed.

Lemma fits_elements (xs : list json) :
  Forall fits xs ->
  forall k, sizes size xs + String.length k
            <= String.length (show_elements xs k).
Proof.
  induction 1 as [|y ys Hy _ IH]; intros k; cbn [sizes show_elements].
  - cbn. lia.
  - specialize (Hy (show_elements ys k)). specialize (IH k).
    cbn [String.length]. lia.
Qed.

Lemma fits_members (xs : list (string * json)) :
  Forall (fun kv => fits (snd kv)) xs ->
  forall k, member_sizes size xs + String.length k
            <= String.length (show_members xs k).
Proof.
  induction 1 as [|[key y] ys Hy _ IH]; intros k;
    cbn [member_sizes show_members].
  - cbn. lia.
  - cbn [snd] in Hy. specialize (Hy (show_members ys k)).
    specialize (IH k). unfold show_string.
    pose proof (length_show_chars key
                  (String ":" (show y (show_members ys k)))) as Hkey.
    cbn [String.length] in *. lia.
Qed.

Lemma size_fits (v : json) : fits v.
Proof.
  induction v as [|b|n|s|l IH|m IH] using json_induction; intros k.
  - cbn. lia.
  - destruct b; cbn; lia.
  - cbn [show size]. unfold show_number. rewrite length_append.
    destruct (numeral_shape n) as (c & r & -> & _). cbn. lia.
  - cbn [show size]. unfold show_string.
    pose proof (length_show_chars s k). cbn [String.length]. lia.
  - rewrite show_array. cbn [size String.length].
    destruct l as [|x xs]; [cbn; lia|].
    apply Forall_cons in IH as [Hx Hxs].
    specialize (Hx (show_elements xs k)).
    pose proof (fits_elements xs Hxs k). cbn [sizes]. lia.
  - rewrite show_object. cbn [size String.length].
    destruct m as [|[key x] xs]; [cbn; lia|].
    apply Forall_cons in IH as [Hx Hxs]. cbn [snd] in Hx.
    specialize (Hx (show_members xs k)).
    pose proof (fits_members xs Hxs k). unfold show_string.
    pose proof (length_show_chars key
                  (String ":" (show x (show_members xs k)))) as Hkey.
    cbn [member_sizes String.length] in *. lia.
Qed.

Theorem parse_stringify (v : json) : parse (stringify v) = Some v.
Proof.
  unfold parse, stringify.
  rewrite parse_show; [reflexivity | | reflexivity].
  pose proof (size_fits v EmptyString). lia.
Qed.

End ReferenceJSONFacts.

Lemma reference_round_trips : @round_trips reference_runtime.
Proof. exact ReferenceJSONFacts.parse_stringify. Qed.

(* ===================================================================== *)
(** ** The history log *)
(* ===================================================================== *)

(** Unfold the monad and the platform operations. *)
Ltac run_js :=
  unfold try_catch, bind, ret, throw, gets, modify, fallible,
    console_warn, console_error, Date_now;
  cbn -[JSON_parse JSON_stringify String.eqb lookup insert delete
        JsString.trim saveFlipToHistory getHistory Qle_bool
        flipCoin resetResult].

Section HistoryLog.
Context `{JsonRuntime}.

Lemma getHistory_run (w : Platform) :
  exists w',
    getHistory w =
      (Return (match AsyncStorage.getItem HISTORY_KEY w with
               | (Return slot, _) => readAll_spec slot
               | (Throw _, _) => []
               end), w')
    /\ after_read w w'.
Proof.
  unfold getHistory, AsyncStorage.getItem, JSON_parse_throwing,
    readAll_spec, after_read.
  run_js.
  destruct (faults w) as [|[|] fs] eqn:Hf; run_js;
    try (eexists; split; [reflexivity|]; cbn; rewrite ?Hf; tauto);
    destruct (asyncStorage w !! HISTORY_KEY) as [text|]; run_js;
    try (eexists; split; [reflexivity|]; cbn; rewrite ?Hf; tauto);
    destruct (JSON_parse text) as [[]|]; run_js;
    eexists; (split; [reflexivity|]); cbn; rewrite ?Hf; tauto.
Qed.

Lemma guard_non_empty_string (v : value) :
  negb (truthy v) || negb (String.eqb (typeof v) "string")
  = negb (non_empty_string v).
Proof.
  destruct v as [|[|[|]|n|[|c s]| |]]; try reflexivity.
  cbn. rewrite orb_true_r. reflexivity.
Qed.

(** Every run of [saveFlipToHistory]: it returns [false] and leaves the
    store as it was, or it returns [true] and has written the slot. *)
Lemma saveFlipToHistory_run (v : value) (w : Platform) :
  exists (ok : bool) (w' : Platform),
    saveFlipToHistory v w = (Return ok, w')
    /\ now w' = now w /\ randoms w' = randoms w
    /\ if ok then
         exists label current w1,
           v = data (JString label) /\ non_empty_string v = true
           /\ getHistory w = (Return current, w1)
           /\ faults w' = tail (faults w1)
           /\ asyncStorage w' =
                <[HISTORY_KEY :=
                    JSON_stringify (JArray (appended label (now w) current))]>
                  (asyncStorage w)
       else asyncStorage w' = asyncStorage w.
Proof.
  unfold saveFlipToHistory. rewrite guard_non_empty_string.
  destruct (non_empty_string v) eqn:Hv.
  - destruct v as [|[| | |[|c s]| |]]; try discriminate Hv.
    destruct (getHistory_run w) as (w1 & Hget & Hs & Hn & Hf & Hr).
    set (current := match AsyncStorage.getItem HISTORY_KEY w with
                    | (Return slot, _) => readAll_spec slot
                    | (Throw _, _) => []
                    end) in Hget.
    unfold call_trim, AsyncStorage.setItem. run_js. rewrite Hget. run_js.
    destruct (faults w1) as [|[|] fs] eqn:Hf1; run_js.
    + exists true. eexists. split; [reflexivity|]. cbn.
      split; [exact Hn|]. split; [exact Hr|].
      exists (String c s), current, w1.
      rewrite Hf1, Hs. repeat split; reflexivity.
    + exists false. eexists. split; [reflexivity|]. cbn. tauto.
    + exists true. eexists. split; [reflexivity|]. cbn.
      split; [exact Hn|]. split; [exact Hr|].
      exists (String c s), current, w1.
      rewrite Hf1, Hs. repeat split; reflexivity.
  - run_js. exists false. eexists. split; [reflexivity|]. cbn. tauto.
Qed.

(** With no failure planned, [getHistory] returns what the
    specification asks for the content of the slot. *)
Lemma getHistory_no_fault (w : Platform) :
  faults w = [] ->
  exists w',
    getHistory w = (Return (readAll_spec (history_slot w)), w')
    /\ asyncStorage w' = asyncStorage w /\ now w' = now w
    /\ faults w' = [] /\ randoms w' = randoms w.
Proof.
  intros Hf.
  destruct (getHistory_run w) as (w' & Hget & Hs & Hn & Hf' & Hr).
  exists w'. rewrite Hget. rewrite Hf in Hf'.
  unfold AsyncStorage.getItem. run_js. rewrite Hf. run_js.
  repeat split; assumption.
Qed.

Lemma readAll_spec_stringify (l : list json) :
  round_trips -> readAll_spec (Some (JSON_stringify (JArray l))) = l.
Proof. intros Hrt. unfold readAll_spec. rewrite Hrt. reflexivity. Qed.

Lemma appended_cons (label : string) (t : Z) (current : list json) :
  appended label t current =
    history_entry (JsString.trim label) t :: take 9 current.
Proof. reflexivity. Qed.

(** With no failure planned, an append of a non-empty label succeeds
    and the slot then holds the new sequence. *)
Lemma saveFlipToHistory_no_fault (label : string) (w : Platform) :
  JsString.truthy label = true ->
  faults w = [] ->
  exists w',
    saveFlipToHistory (data (JString label)) w = (Return true, w')
    /\ now w' = now w /\ faults w' = [] /\ randoms w' = randoms w
    /\ asyncStorage w' =
         <[HISTORY_KEY :=
             JSON_stringify
               (JArray (appended label (now w)
                          (readAll_spec (history_slot w))))]>
           (asyncStorage w).
Proof.
  intros Hlabel Hf.
  destruct (getHistory_no_fault w Hf) as (w1 & Hget & Hs1 & Hn1 & Hf1 & Hr1).
  destruct (saveFlipToHistory_run (data (JString label)) w)
    as (ok & w' & Hsave & Hn & Hr & Hcase).
  exists w'. destruct ok.
  - destruct Hcase as (label' & current & w1' & [= <-] & _ & Hget' & Hf' & Hs).
    rewrite Hget in Hget'. injection Hget' as <- <-.
    rewrite Hf1 in Hf'. repeat split; assumption.
  - exfalso. revert Hsave. unfold saveFlipToHistory.
    rewrite guard_non_empty_string. destruct label; [discriminate|].
    unfold call_trim, AsyncStorage.setItem. run_js. rewrite Hget. run_js.
    rewrite Hf1. run_js. discriminate.
Qed.

(** *** Sequences of appends *)




End HistoryLog.

(* ===================================================================== *)
(** ** The history log: the properties of the specification *)
(* ===================================================================== *)

Section HistoryClaims.
Context `{JsonRuntime}.

(** C5, as amended.  [getHistory] never throws.  It returns the empty
    sequence when the read of the slot fails; and when the read gives
    the content of the slot, it returns what the specification
    describes: the empty sequence for a slot never written, for text
    that is not JSON and for JSON that is not an array, and the parsed
    array otherwise.  The store is left as it was. *)
Theorem getHistory_never_throws (w : Platform) :
  exists w',
    getHistory w =
      (Return (match AsyncStorage.getItem HISTORY_KEY w with
               | (Return slot, _) => readAll_spec slot
               | (Throw _, _) => []
               end), w')
    /\ asyncStorage w' = asyncStorage w.
Proof.
  destruct (getHistory_run w) as (w' & Hget & Hs & _).
  exists w'. split; [exact Hget | exact Hs].
Qed.

(** C10.  For an argument that is not a non-empty string,
    [saveFlipToHistory] returns [false]; it calls no storage operation
    and leaves the store as it was. *)
Theorem saveFlipToHistory_rejects_invalid (v : value) (w : Platform) :
  non_empty_string v = false ->
  exists w',
    saveFlipToHistory v w = (Return false, w')
    /\ asyncStorage w' = asyncStorage w
    /\ faults w' = faults w.
Proof.
  intros Hv. unfold saveFlipToHistory.
  rewrite guard_non_empty_string, Hv. run_js.
  eexists. split; [reflexivity|]. split; reflexivity.
Qed.

(** C1, as amended.  A successful append was given a string [label]
    and has written, to the history slot, the serialisation of an array
    of at most 10 elements: first the new entry, an object whose field
    [side] is the trimmed label and whose field [timestamp] is the time
    of the call, then the first nine elements read from the slot, in
    their order.  When the elements read were such entries, all the
    elements written are. *)
Theorem successful_append_writes_side_entries
  (v : value) (w w' : Platform) :
  saveFlipToHistory v w = (Return true, w') ->
  exists label current w1,
    v = data (JString label)
    /\ getHistory w = (Return current, w1)
    /\ let entries :=
         history_entry (JsString.trim label) (now w) :: take 9 current in
       history_slot w' = Some (JSON_stringify (JArray entries))
       /\ length entries <= 10
       /\ (Forall is_history_entry current ->
           Forall is_history_entry entries).
Proof.
  intros Hsave.
  destruct (saveFlipToHistory_run v w)
    as (ok & w2 & Hrun & _ & _ & Hcase).
  rewrite Hsave in Hrun. injection Hrun as <- <-.
  destruct Hcase as (label & current & w1 & -> & _ & Hget & _ & Hs).
  exists label, current, w1. split; [reflexivity|]. split; [exact Hget|].
  cbn zeta. split; [|split].
  - unfold history_slot. rewrite Hs, lookup_insert_eq. reflexivity.
  - cbn [length]. rewrite length_take. lia.
  - intros Hcurrent. constructor.
    + eexists _, _. reflexivity.
    + apply Forall_take, Hcurrent.
Qed.


End HistoryClaims.

(* ===================================================================== *)
(** ** The history log on the reference runtime *)
(* ===================================================================== *)

Lemma saveFlipToHistory_rejects_invalid_witness :
  @non_empty_string undefined = false
  /\ exists w',
      @saveFlipToHistory reference_runtime undefined fresh_platform
      = (Return false, w')
      /\ asyncStorage w' = asyncStorage fresh_platform
      /\ faults w' = faults fresh_platform.
Proof.
  split; [reflexivity|].
  apply (@saveFlipToHistory_rejects_invalid reference_runtime
           undefined fresh_platform).
  reflexivity.
Defined.

Lemma heads_appended_run :
  @saveFlipToHistory reference_runtime (data (JString "Heads")) fresh_platform
  = (Return true, heads_appended).
Proof. reflexivity. Qed.

Lemma successful_append_writes_side_entries_witness :
  @saveFlipToHistory reference_runtime (data (JString "Heads")) fresh_platform
  = (Return true, heads_appended)
  /\ exists label current w1,
      data (JString "Heads") = data (JString label)
      /\ @getHistory reference_runtime fresh_platform = (Return current, w1)
      /\ let entries :=
           history_entry (JsString.trim label) (now fresh_platform)
           :: take 9 current in
         history_slot heads_appended
         = Some (@JSON_stringify reference_runtime (JArray entries))
         /\ length entries <= 10
         /\ (Forall is_history_entry current ->
             Forall is_history_entry entries).
Proof.
  split; [reflexivity|].
  apply (@successful_append_writes_side_entries reference_runtime
           (data (JString "Heads")) fresh_platform heads_appended).
  reflexivity.
Defined.

(** C1, as the specification states it, fails: the entry that a
    successful append of ["Heads"] writes to the empty slot has a field
    [side] and no field [label]. *)
Lemma stored_entry_has_no_label_field :
  @saveFlipToHistory reference_runtime (data (JString "Heads")) fresh_platform
  = (Return true, heads_appended)
  /\ history_slot heads_appended
     = Some (@JSON_stringify reference_runtime
               (JArray [history_entry "Heads" 1700000000000]))
  /\ get_member "label" (history_entry "Heads" 1700000000000) = None
  /\ ~ (exists entries,
          history_slot heads_appended
          = Some (@JSON_stringify reference_runtime (JArray entries))
          /\ Forall has_label_and_timestamp entries
          /\ length entries <= 10).
Proof.
  split; [reflexivity|]. split; [reflexivity|]. split; [reflexivity|].
  intros (entries & Hslot & Hall & _).
  assert (Hentries : entries = [history_entry "Heads" 1700000000000]).
  { change (history_slot heads_appended)
      with (Some (@JSON_stringify reference_runtime
                    (JArray [history_entry "Heads" 1700000000000])))
      in Hslot.
    apply (f_equal (fun slot => slot ≫= @JSON_parse reference_runtime))
      in Hslot.
    cbn [mbind option_bind] in Hslot.
    rewrite (reference_round_trips (JArray entries)) in Hslot.
    rewrite (reference_round_trips
               (JArray [history_entry "Heads" 1700000000000])) in Hslot.
    congruence. }
  subst entries. apply Forall_cons in Hall as [(label & t & Hlabel & _) _].
  discriminate Hlabel.
Qed.

(** *** Reading slots that hold other things than a history *)

Example stringify_history :
  let quoted s := String "034" (s ++ String "034" EmptyString) in
  @JSON_stringify reference_runtime
    (JArray [history_entry "Heads" 1700000000000])
  = "[{" ++ quoted "side" ++ ":" ++ quoted "Heads" ++ ","
    ++ quoted "timestamp" ++ ":1700000000000}]".
Proof. reflexivity. Qed.

Example getHistory_of_text_that_is_not_JSON :
  fst (@getHistory reference_runtime (slot_holding "not json" [])) = Return [].
Proof. reflexivity. Qed.

Example getHistory_of_an_object :
  fst (@getHistory reference_runtime (slot_holding "{}" [])) = Return [].
Proof. reflexivity. Qed.

Example getHistory_of_an_array :
  fst (@getHistory reference_runtime (slot_holding "[1, 2]" []))
  = Return [JNumber 1; JNumber 2].
Proof. reflexivity. Qed.

(** C5, as the specification states it, fails: the slot holds the JSON
    array [[1, 2]], the read of the slot fails, and [getHistory] returns
    the empty sequence, not the parsed array. *)
Lemma failed_read_returns_empty :
  history_slot (slot_holding "[1, 2]" [true]) = Some "[1, 2]"
  /\ @readAll_spec reference_runtime (Some "[1, 2]") = [JNumber 1; JNumber 2]
  /\ fst (AsyncStorage.getItem HISTORY_KEY (slot_holding "[1, 2]" [true]))
     = Throw (Error "AsyncStorage.getItem")
  /\ fst (@getHistory reference_runtime (slot_holding "[1, 2]" [true]))
     = Return []
  /\ fst (@getHistory reference_runtime (slot_holding "[1, 2]" [true]))
     <> Return (@readAll_spec reference_runtime
                  (history_slot (slot_holding "[1, 2]" [true]))).
Proof. repeat split; try reflexivity. discriminate. Qed.

(* ===================================================================== *)
(** ** The flip coordinator: guards and label edits *)
(* ===================================================================== *)

(** Unfold the handlers of the component down to the monad. *)
Ltac run_app :=
  unfold flipCoin, flipCoin_enter, flipCoin_catch, resetResult, toggleMode,
    handleCustomSideAChange, handleCustomSideBChange, Keyboard_dismiss,
    setSide, setIsFlipping, setIsCustomMode, setCustomSideA, setCustomSideB,
    settle, liftP, clearTimeout, setTimeout_;
  run_js.

(** Name the fields of a state and of its platform. *)
Ltac open_state s :=
  destruct s as [sd flipping custom labelA labelB handle lastShake lastFlick
                   prevY inProgress mounted tasks pending next
                   visible items loading [store clock plan draws log]].

(** Run a handler to its end, by cases on its tests. *)
Ltac run_cases :=
  run_app;
  repeat (match goal with
          | |- context [if ?b then _ else _] => destruct b eqn:?
          | |- context [match ?x with Some _ => _ | None => _ end] =>
              destruct x eqn:?
          end; run_app).

(** Close a goal about the fields of the state reached. *)
Ltac fields := cbn; repeat split; congruence.

Section Guards.
Context `{JsonRuntime}.

Lemma phase_flipping (s : State) :
  phase s = Flipping <-> flipInProgressRef s = true.
Proof. unfold phase. destruct (flipInProgressRef s); split; congruence. Qed.

Lemma flipCoin_enter_guarded (r : Render) (s : State) :
  flipInProgressRef s = true \/ r_isFlipping r = true ->
  flipCoin_enter r s = (Return None, s).
Proof.
  intros Hguard. run_app.
  destruct Hguard as [-> | ->]; [reflexivity|].
  rewrite orb_true_r. reflexivity.
Qed.

Lemma flipCoin_guarded (r : Render) (s : State) :
  flipInProgressRef s = true \/ r_isFlipping r = true ->
  flipCoin r s = (Return tt, s).
Proof.
  intros Hguard. unfold flipCoin, bind.
  rewrite (flipCoin_enter_guarded r s Hguard). reflexivity.
Qed.

(** A call that passes the guard takes it and stops at its first
    [await]. *)
Lemma flipCoin_enter_free (r : Render) (s : State) :
  flipInProgressRef s = false -> r_isFlipping r = false ->
  flipCoin_enter r s
  = (Return (Some AwaitImpact),
     set_isFlipping true (set_flipInProgressRef true s)).
Proof. intros Href Hr. run_app. rewrite Href, Hr. reflexivity. Qed.

(** C7.  Called while a flip is in progress, [resetResult] and
    [toggleMode] return at their guard: the state is the one they were
    called in, so the outcome, the mode and both labels are unchanged.
    The same holds when the function comes from a render that saw
    [isFlipping]. *)
Theorem reset_and_toggle_ignored_while_flipping (r : Render) (s : State) :
  phase s = Flipping \/ r_isFlipping r = true ->
  resetResult r s = (Return tt, s) /\ toggleMode r s = (Return tt, s).
Proof.
  rewrite phase_flipping. intros Hguard. run_app.
  destruct Hguard as [-> | ->]; rewrite ?orb_true_r; split; reflexivity.
Qed.

(** One step of a suspended call of [flipCoin]: it never throws, and it
    moves to the next [await] or ends as described. *)
Lemma flipCoin_resume_cases (r : Render) (at_ : flip_pc) (s : State) :
  exists next s',
    flipCoin_resume r at_ s = (Return next, s')
    /\ same_but_flip s s'
    /\ match at_ with
       | AwaitImpact =>
           next = Some AwaitStart
           /\ side s' = side s /\ isFlipping s' = isFlipping s
           /\ flipInProgressRef s' = flipInProgressRef s
       | AwaitStart =>
           (exists result,
               next = Some (AwaitAnimation result)
               /\ In result (sides (r_isCustomMode r))
               /\ side s' = side s /\ isFlipping s' = isFlipping s
               /\ flipInProgressRef s' = flipInProgressRef s)
           \/ (next = None /\ side s' = side s
               /\ isFlipping s' = false /\ flipInProgressRef s' = false)
       | AwaitAnimation result =>
           (next = Some AwaitSave /\ side s' = Some result
            /\ isFlipping s' = false /\ flipInProgressRef s' = false)
           \/ (next = None /\ side s' = side s
               /\ isFlipping s' = false /\ flipInProgressRef s' = false)
       | AwaitSave => next = Some AwaitNotification /\ s' = s
       | AwaitNotification =>
           next = None
           /\ side s' = side s /\ isFlipping s' = isFlipping s
           /\ flipInProgressRef s' = flipInProgressRef s
       end.
Proof.
  unfold same_but_flip.
  destruct at_ as [| |result| |]; unfold flipCoin_resume.
  - run_app. destruct (faults (platform s)) as [|[|] fs]; run_app;
      do 2 eexists; (split; [reflexivity|]); cbn; tauto.
  - unfold determine_result, Math_random. run_app.
    destruct (faults (platform s)) as [|[|] fs]; run_app;
      try (do 2 eexists; (split; [reflexivity|]); cbn;
           split; [tauto|right; tauto]).
    all: destruct (r_isCustomMode r) eqn:Hmode; run_app;
      match goal with
      | |- context [randoms ?w] => destruct (randoms w) as [|x xs]
      end; run_app;
      rewrite ?Tauto.if_same;
      try match goal with
        | |- context [Qltb ?a ?b] => destruct (Qltb a b)
        end;
      do 2 eexists; (split; [reflexivity|]); cbn;
      (split; [tauto|left; eexists; split; [reflexivity|]; cbn; tauto]).
  - run_app. destruct (faults (platform s)) as [|[|] fs]; run_app.
    all: try (do 2 eexists; (split; [reflexivity|]); cbn;
              split; [tauto|right; tauto]).
    all: match goal with
         | |- context [saveFlipToHistory ?v ?w] =>
             destruct (saveFlipToHistory_run v w)
               as (ok & w' & -> & _)
         end; run_app;
      do 2 eexists; (split; [reflexivity|]); cbn;
      (split; [tauto|left; tauto]).
  - run_app. do 2 eexists. split; [reflexivity|]. tauto.
  - run_app. destruct (faults (platform s)) as [|[|] fs]; run_app;
      do 2 eexists; (split; [reflexivity|]); cbn; tauto.
Qed.

(** *** The steps of a flip, by the plan of failures *)

Lemma resume_impact (r : Render) (s : State) :
  exists s',
    flipCoin_resume r AwaitImpact s = (Return (Some AwaitStart), s')
    /\ same_but_flip s s'
    /\ side s' = side s /\ isFlipping s' = isFlipping s
    /\ flipInProgressRef s' = flipInProgressRef s
    /\ platform_kept (platform s) (platform s')
    /\ faults (platform s') = tail (faults (platform s)).
Proof.
  unfold same_but_flip, platform_kept. open_state s.
  unfold flipCoin_resume. run_app.
  destruct plan as [|[|] fs]; run_app;
    eexists; (split; [reflexivity|]); cbn; tauto.
Qed.

Lemma resume_start_fail (r : Render) (s : State) :
  fails_next (platform s) = true ->
  exists s',
    flipCoin_resume r AwaitStart s = (Return None, s')
    /\ same_but_flip s s'
    /\ side s' = side s /\ isFlipping s' = false
    /\ flipInProgressRef s' = false
    /\ platform_kept (platform s) (platform s')
    /\ faults (platform s') = tail (faults (platform s)).
Proof.
  unfold same_but_flip, platform_kept, fails_next. open_state s.
  unfold flipCoin_resume. run_app.
  destruct plan as [|[|] fs]; try discriminate. intros _. run_app.
  eexists; (split; [reflexivity|]); cbn; tauto.
Qed.

Lemma resume_start_ok (r : Render) (s : State) :
  fails_next (platform s) = false ->
  exists s',
    flipCoin_resume r AwaitStart s
    = (Return (Some (AwaitAnimation
                       (outcome_of r (next_random (platform s))))), s')
    /\ same_but_flip s s'
    /\ side s' = side s /\ isFlipping s' = isFlipping s
    /\ flipInProgressRef s' = flipInProgressRef s
    /\ asyncStorage (platform s') = asyncStorage (platform s)
    /\ now (platform s') = now (platform s)
    /\ faults (platform s') = tail (faults (platform s)).
Proof.
  unfold same_but_flip, fails_next, outcome_of, next_random. open_state s.
  unfold flipCoin_resume, determine_result, Math_random. run_app.
  destruct plan as [|[|] fs]; try discriminate; intros _; run_app;
    destruct (r_isCustomMode r); run_app;
    destruct draws as [|x xs]; run_app;
    rewrite ?Tauto.if_same;
    eexists; (split; [reflexivity|]); cbn; tauto.
Qed.

Lemma resume_animation_fail (r : Render) (result : string) (s : State) :
  fails_next (platform s) = true ->
  exists s',
    flipCoin_resume r (AwaitAnimation result) s = (Return None, s')
    /\ same_but_flip s s'
    /\ side s' = side s /\ isFlipping s' = false
    /\ flipInProgressRef s' = false
    /\ platform_kept (platform s) (platform s')
    /\ faults (platform s') = tail (faults (platform s)).
Proof.
  unfold same_but_flip, platform_kept, fails_next. open_state s.
  unfold flipCoin_resume. run_app.
  destruct plan as [|[|] fs]; try discriminate. intros _. run_app.
  eexists; (split; [reflexivity|]); cbn; tauto.
Qed.

(** The commit: the outcome is set, the guard is released, and the label
    is handed to [saveFlipToHistory]. *)
Lemma resume_animation_ok (r : Render) (result : string) (s : State) :
  fails_next (platform s) = false ->
  exists ok w' s',
    saveFlipToHistory (data (JString (historyLabel r result)))
      (set_faults (tail (faults (platform s))) (platform s))
    = (Return ok, w')
    /\ flipCoin_resume r (AwaitAnimation result) s
       = (Return (Some AwaitSave), s')
    /\ same_but_flip s s'
    /\ side s' = Some result /\ isFlipping s' = false
    /\ flipInProgressRef s' = false
    /\ platform s' = w'.
Proof.
  unfold same_but_flip, fails_next. open_state s.
  unfold flipCoin_resume. run_app.
  destruct plan as [|[|] fs]; try discriminate; intros _; run_app.
  all: unfold set_faults; cbn [tail faults asyncStorage now randoms console].
  all: match goal with
       | |- context [saveFlipToHistory ?v ?w] =>
           destruct (saveFlipToHistory_run v w) as (ok & w' & Hrun & _)
       end.
  all: exists ok, w'; rewrite Hrun; run_app;
    eexists; (split; [reflexivity|]); (split; [reflexivity|]); cbn; tauto.
Qed.

Lemma resume_notification (r : Render) (s : State) :
  exists s',
    flipCoin_resume r AwaitNotification s = (Return None, s')
    /\ same_but_flip s s'
    /\ side s' = side s /\ isFlipping s' = isFlipping s
    /\ flipInProgressRef s' = flipInProgressRef s
    /\ platform_kept (platform s) (platform s')
    /\ faults (platform s') = tail (faults (platform s)).
Proof.
  unfold same_but_flip, platform_kept. open_state s.
  unfold flipCoin_resume. run_app.
  destruct plan as [|[|] fs]; run_app;
    eexists; (split; [reflexivity|]); cbn; tauto.
Qed.

Lemma flipCoin_from_step (n : nat) (r : Render) (at_ : flip_pc) (s : State) :
  flipCoin_from (S n) r at_ s
  = match flipCoin_resume r at_ s with
    | (Return (Some at'), s') => flipCoin_from n r at' s'
    | (Return None, s') => (Return tt, s')
    | (Throw e, s') => (Throw e, s')
    end.
Proof.
  cbn [flipCoin_from]. unfold bind.
  destruct (flipCoin_resume r at_ s) as [[[at'|]|e] s']; reflexivity.
Qed.

(** After the commit the call only waits for the history and for the
    second haptic cue. *)
Lemma flipCoin_from_committed (n : nat) (r : Render) (s : State) :
  exists s',
    flipCoin_from (S (S n)) r AwaitSave s = (Return tt, s')
    /\ same_but_flip s s'
    /\ side s' = side s /\ isFlipping s' = isFlipping s
    /\ flipInProgressRef s' = flipInProgressRef s
    /\ platform_kept (platform s) (platform s')
    /\ faults (platform s') = tail (faults (platform s)).
Proof.
  rewrite flipCoin_from_step.
  change (flipCoin_resume r AwaitSave s)
    with (Return (Some AwaitNotification), s).
  cbv iota beta. rewrite flipCoin_from_step.
  destruct (resume_notification r s) as (s' & -> & Hrest).
  exists s'. split; [reflexivity | exact Hrest].
Qed.

End Guards.

(* ===================================================================== *)
(** ** The running application: what every state satisfies *)
(* ===================================================================== *)

Section Counting.

Lemma holders_cons (t : FlipTask) (l : list FlipTask) :
  holders (t :: l) = weight t + holders l.
Proof.
  unfold holders, weight. rewrite filter_cons.
  destruct (decide (holds_guard (pc t) = true)) as [-> | Hno].
  - reflexivity.
  - destruct (holds_guard (pc t)); [congruence | reflexivity].
Qed.

Lemma holders_app (l l' : list FlipTask) :
  holders (l ++ l') = holders l + holders l'.
Proof.
  induction l as [|t l IH]; [reflexivity|].
  cbn [app]. rewrite !holders_cons, IH. lia.
Qed.

Lemma holders_insert (i : nat) (t t' : FlipTask) (l : list FlipTask) :
  l !! i = Some t ->
  holders (<[i := t']> l) + weight t = holders l + weight t'.
Proof.
  revert i; induction l as [|x l IH]; intros [|i] Hi; try discriminate.
  - injection Hi as ->.
    change (<[0%nat := t']> (t :: l)) with (t' :: l).
    rewrite !holders_cons. lia.
  - change (<[S i := t']> (x :: l)) with (x :: <[i := t']> l).
    rewrite !holders_cons. specialize (IH i Hi). lia.
Qed.

Lemma holders_delete (i : nat) (t : FlipTask) (l : list FlipTask) :
  l !! i = Some t ->
  holders (delete i l) + weight t = holders l.
Proof.
  revert i; induction l as [|x l IH]; intros [|i] Hi; try discriminate.
  - injection Hi as ->.
    change (delete 0%nat (t :: l)) with l.
    rewrite holders_cons. lia.
  - change (delete (S i) (x :: l)) with (x :: delete i l).
    rewrite !holders_cons. specialize (IH i Hi). lia.
Qed.

Lemma holders_lookup (i : nat) (t : FlipTask) (l : list FlipTask) :
  l !! i = Some t -> weight t <= holders l.
Proof.
  intros Hi. pose proof (holders_delete i t l Hi). lia.
Qed.

End Counting.

Section Invariants.
Context `{JsonRuntime}.

Lemma guard_consistent_holders (s : State) :
  guard_consistent s <->
  isFlipping s = flipInProgressRef s
  /\ holders (flips s) = (if flipInProgressRef s then 1 else 0)%nat.
Proof. reflexivity. Qed.

Lemma guard_frame_consistent (s s' : State) :
  guard_frame s s' -> guard_consistent s -> guard_consistent s'.
Proof.
  rewrite !guard_consistent_holders. intros (-> & -> & ->). trivial.
Qed.

Lemma flipCoin_consistent (r : Render) (s : State) :
  guard_consistent s -> guard_consistent (snd (flipCoin r s)).
Proof.
  intros Hs.
  destruct (flipInProgressRef s) eqn:Href;
    [rewrite flipCoin_guarded by auto; exact Hs|].
  destruct (r_isFlipping r) eqn:Hr;
    [rewrite flipCoin_guarded by auto; exact Hs|].
  unfold flipCoin, bind. rewrite (flipCoin_enter_free r s Href Hr).
  destruct Hs as [_ Hcount].
  change (holders (flips s) = if flipInProgressRef s then 1 else 0)%nat
    in Hcount.
  rewrite Href in Hcount.
  apply guard_consistent_holders. cbn -[holders]. split; [reflexivity|].
  rewrite holders_app, Hcount. reflexivity.
Qed.

Lemma resume_flip_consistent (i : nat) (s : State) :
  guard_consistent s -> guard_consistent (snd (resume_flip i s)).
Proof.
  intros Hs. unfold resume_flip.
  destruct (flips s !! i) as [t|] eqn:Hi; [|exact Hs].
  destruct (flipCoin_resume_cases (closure t) (pc t) s)
    as (next & s' & -> & Hsame & Hcase).
  destruct Hsame as (_ & _ & _ & _ & _ & _ & _ & _ & Hflips & _).
  destruct Hs as [Hmarks Hcount].
  change (holders (flips s) = if flipInProgressRef s then 1 else 0)%nat
    in Hcount.
  pose proof (holders_lookup i t _ Hi) as Hweight.
  assert (Hins : forall at', holders (<[i := mkFlipTask (closure t) at']>
                                       (flips s)) + weight t
                             = (holders (flips s)
                                + weight (mkFlipTask (closure t) at'))%nat)
    by (intros at'; apply holders_insert, Hi).
  pose proof (holders_delete i t _ Hi) as Hdel.
  unfold weight in *. cbn [pc] in Hins.
  destruct next as [at'|]; cbn [snd]; apply guard_consistent_holders;
    cbn -[holders]; rewrite Hflips;
    destruct (pc t) as [| |result| |]; cbn [holds_guard] in *.
  all: repeat match goal with
         | H : _ /\ _ |- _ => destruct H
         | H : _ \/ _ |- _ => destruct H
         | H : exists _, _ |- _ => destruct H
         end;
    subst; try discriminate;
    repeat match goal with
      | H : Some _ = Some _ |- _ => injection H as ->
      end;
    try match goal with
      | |- context [holders (<[_ := mkFlipTask _ ?a]> _)] =>
          specialize (Hins a); cbn [holds_guard] in Hins
      end;
    repeat match goal with
      | H : isFlipping _ = _ |- _ => rewrite H in *
      | H : flipInProgressRef _ = _ |- _ => rewrite H in *
      end;
    destruct (flipInProgressRef s); split; congruence || lia.
Qed.

Lemma resetResult_frame (r : Render) (s : State) :
  guard_frame s (snd (resetResult r s))
  /\ labels_frame s (snd (resetResult r s)).
Proof. unfold guard_frame, labels_frame. run_cases; fields. Qed.

Lemma toggleMode_frame (r : Render) (s : State) :
  guard_frame s (snd (toggleMode r s))
  /\ labels_frame s (snd (toggleMode r s)).
Proof. unfold guard_frame, labels_frame. run_cases; fields. Qed.

Lemma shake_timeout_frame (id : nat) (s : State) :
  guard_frame s (snd (shake_timeout id s))
  /\ labels_frame s (snd (shake_timeout id s)).
Proof.
  unfold guard_frame, labels_frame, shake_timeout. run_cases; fields.
Qed.

Lemma cleanup_frame (s : State) :
  guard_frame s (snd (cleanup s)) /\ labels_frame s (snd (cleanup s)).
Proof.
  unfold guard_frame, labels_frame, cleanup. run_cases; fields.
Qed.

Lemma flipCoin_labels (r : Render) (s : State) :
  labels_frame s (snd (flipCoin r s)).
Proof. unfold labels_frame. run_cases; fields. Qed.

Lemma resume_flip_labels (i : nat) (s : State) :
  labels_frame s (snd (resume_flip i s)).
Proof.
  unfold labels_frame, resume_flip.
  destruct (flips s !! i) as [t|]; [|cbn; tauto].
  destruct (flipCoin_resume_cases (closure t) (pc t) s)
    as (next & s' & -> & (_ & HA & HB & _) & _).
  destruct next; cbn; tauto.
Qed.

(** The listener either calls [flipCoin], after it has recorded the
    sample and the time of the flick, or leaves the calls of [flipCoin]
    and the marks alone. *)
Lemma accelerometer_listener_cases (x y z : reading) (s : State) :
  (exists s1,
      accelerometer_listener x y z s = flipCoin first_render s1
      /\ guard_frame s s1 /\ labels_frame s s1)
  \/ (guard_frame s (snd (accelerometer_listener x y z s))
      /\ labels_frame s (snd (accelerometer_listener x y z s))).
Proof.
  unfold guard_frame, labels_frame, accelerometer_listener.
  destruct x as [x|], y as [y|], z as [z|]; try (right; cbn; tauto).
  destruct s as [sd flipping custom labelA labelB handle lastShake lastFlick
                   prevY inProgress mounted tasks pending next
                   visible items loading w].
  unfold liftP. run_js.
  destruct ((0.8 <? y - prevY)%float && (4000 <? now w - lastFlick)%Z
            && negb inProgress).
  - destruct mounted.
    + left. eexists. split; [reflexivity|]. cbn. tauto.
    + right. cbn. tauto.
  - right. run_cases; fields.
Qed.

(** The calls of the history panel write the panel's variables and the
    platform only. *)
Lemma liftPanel_frame {A} (m : M HistoryPanel.Panel A) (s : State) :
  panel_frame s (snd (liftPanel m s))
  /\ historyVisible (snd (liftPanel m s)) = historyVisible s.
Proof.
  unfold panel_frame, liftPanel. destruct (m (panel_of s)) as [res p].
  cbn. tauto.
Qed.

Lemma step_panel_frame (s : State) (e : event) :
  panel_event e = true -> panel_frame s (step s e).
Proof.
  unfold step. destruct e; try discriminate; intros _; cbn [handle].
  - unfold setHistoryVisible. run_js. destruct (historyVisible s).
    + unfold panel_frame. cbn. tauto.
    + destruct (liftPanel_frame HistoryPanel.loadHistory
                  (set_historyVisible true s)) as [Hframe _].
      exact Hframe.
  - unfold panel_frame. cbn. tauto.
  - apply liftPanel_frame.
Qed.

Lemma panel_guard_frame (s s' : State) :
  panel_frame s s' -> guard_frame s s'.
Proof. unfold panel_frame, guard_frame. tauto. Qed.

Lemma panel_labels_frame (s s' : State) :
  panel_frame s s' -> labels_frame s s'.
Proof. unfold panel_frame, labels_frame. tauto. Qed.

Lemma step_guard_consistent (s : State) (e : event) :
  guard_consistent s -> guard_consistent (step s e).
Proof.
  intros Hs. unfold step.
  destruct e as [r|r|r|text|text|x y z|id|i|ms| | | |]; cbn [handle].
  - apply flipCoin_consistent, Hs.
  - eapply guard_frame_consistent; [apply resetResult_frame | exact Hs].
  - eapply guard_frame_consistent; [apply toggleMode_frame | exact Hs].
  - exact Hs.
  - exact Hs.
  - unfold bind, gets. destruct (isMounted s); [|exact Hs].
    destruct (accelerometer_listener_cases x y z s)
      as [(s1 & -> & Hframe & _) | [Hframe _]].
    + apply flipCoin_consistent.
      exact (guard_frame_consistent _ _ Hframe Hs).
    + exact (guard_frame_consistent _ _ Hframe Hs).
  - eapply guard_frame_consistent; [apply shake_timeout_frame | exact Hs].
  - apply resume_flip_consistent, Hs.
  - exact Hs.
  - eapply guard_frame_consistent; [apply cleanup_frame | exact Hs].
  - eapply guard_frame_consistent; [|exact Hs].
    apply panel_guard_frame, (step_panel_frame s PressHistory eq_refl).
  - eapply guard_frame_consistent; [|exact Hs].
    apply panel_guard_frame, (step_panel_frame s CloseHistory eq_refl).
  - eapply guard_frame_consistent; [|exact Hs].
    apply panel_guard_frame, (step_panel_frame s PressClearHistory eq_refl).
Qed.

Lemma run_guard_consistent (es : list event) (s : State) :
  guard_consistent s -> guard_consistent (run es s).
Proof.
  revert s; induction es as [|e es IH]; intros s Hs; [exact Hs|].
  apply IH, step_guard_consistent, Hs.
Qed.

Lemma initial_guard_consistent (w : Platform) :
  guard_consistent (initial_state w).
Proof. split; reflexivity. Qed.

Lemma handleCustomSideAChange_run (text : string) (s : State) :
  handleCustomSideAChange text s
  = (Return tt, set_customSideA (String.substring 0 150 text) s).
Proof. reflexivity. Qed.

Lemma handleCustomSideBChange_run (text : string) (s : State) :
  handleCustomSideBChange text s
  = (Return tt, set_customSideB (String.substring 0 150 text) s).
Proof. reflexivity. Qed.

Lemma step_labels_bounded (s : State) (e : event) :
  labels_bounded s -> labels_bounded (step s e).
Proof.
  intros [HA HB]. unfold step, labels_bounded.
  assert (Hframe : forall s', labels_frame s s' -> labels_bounded s')
    by (intros s' [HA' HB']; split; [rewrite HA' | rewrite HB']; assumption).
  destruct e as [r|r|r|text|text|x y z|id|i|ms| | | |]; cbn [handle].
  - apply Hframe, flipCoin_labels.
  - apply Hframe, resetResult_frame.
  - apply Hframe, toggleMode_frame.
  - rewrite handleCustomSideAChange_run.
    cbn [snd customSideA customSideB set_customSideA].
    rewrite JsStringFacts.length_substring_0. split; [lia | exact HB].
  - rewrite handleCustomSideBChange_run.
    cbn [snd customSideA customSideB set_customSideB].
    rewrite JsStringFacts.length_substring_0. split; [exact HA | lia].
  - unfold bind, gets. destruct (isMounted s); [|split; assumption].
    destruct (accelerometer_listener_cases x y z s)
      as [(s1 & -> & _ & Hlabels) | [_ Hlabels]].
    + apply Hframe.
      destruct (flipCoin_labels first_render s1) as [HA1 HB1].
      destruct Hlabels as [HA2 HB2]. split; congruence.
    + apply Hframe, Hlabels.
  - apply Hframe, shake_timeout_frame.
  - apply Hframe, resume_flip_labels.
  - split; assumption.
  - apply Hframe, cleanup_frame.
  - apply Hframe, panel_labels_frame,
      (step_panel_frame s PressHistory eq_refl).
  - apply Hframe, panel_labels_frame,
      (step_panel_frame s CloseHistory eq_refl).
  - apply Hframe, panel_labels_frame,
      (step_panel_frame s PressClearHistory eq_refl).
Qed.

Lemma run_labels_bounded (es : list event) (s : State) :
  labels_bounded s -> labels_bounded (run es s).
Proof.
  revert s; induction es as [|e es IH]; intros s Hs; [exact Hs|].
  apply IH, step_labels_bounded, Hs.
Qed.

(** *** A flip in progress ends *)

Lemma run_app_events (es es' : list event) (s : State) :
  run (es ++ es') s = run es' (run es s).
Proof. unfold run. apply fold_left_app. Qed.

Lemma holders_positive (l : list FlipTask) :
  (0 < holders l)%nat ->
  exists i t, l !! i = Some t /\ holds_guard (pc t) = true.
Proof.
  induction l as [|x l IH]; [cbn; lia|].
  rewrite holders_cons. unfold weight.
  destruct (holds_guard (pc x)) eqn:Hx.
  - intros _. exists 0%nat, x. split; [reflexivity | exact Hx].
  - intros Hl. destruct (IH Hl) as (i & t & Hi & Ht).
    exists (S i), t. split; [exact Hi | exact Ht].
Qed.

(** No resumption takes the guard. *)
Lemma resume_flip_released (i : nat) (s : State) :
  flipInProgressRef s = false ->
  flipInProgressRef (snd (resume_flip i s)) = false.
Proof.
  intros Href. unfold resume_flip.
  destruct (flips s !! i) as [t|]; [|exact Href].
  destruct (flipCoin_resume_cases (closure t) (pc t) s)
    as (next & s' & -> & _ & Hcase).
  assert (Href' : flipInProgressRef s' = false).
  { destruct (pc t); repeat match goal with
      | H : _ /\ _ |- _ => destruct H
      | H : _ \/ _ |- _ => destruct H
      | H : exists _, _ |- _ => destruct H
      end; subst; congruence. }
  destruct next; exact Href'.
Qed.

(** The resumption of the call that holds the guard releases the guard,
    or leaves the call one [await] closer to it. *)
Lemma resume_flip_holder (i : nat) (t : FlipTask) (s : State) :
  flips s !! i = Some t ->
  holds_guard (pc t) = true ->
  flipInProgressRef (snd (resume_flip i s)) = false
  \/ exists t',
      flips (snd (resume_flip i s)) !! i = Some t'
      /\ holds_guard (pc t') = true
      /\ (awaits_left (pc t') < awaits_left (pc t))%nat.
Proof.
  intros Hi Ht. unfold resume_flip. rewrite Hi.
  destruct (flipCoin_resume_cases (closure t) (pc t) s)
    as (next & s' & -> & Hsame & Hcase).
  destruct Hsame as (_ & _ & _ & _ & _ & _ & _ & _ & Hflips & _).
  assert (Hlt : (i < length (flips s))%nat)
    by (eapply lookup_lt_Some, Hi).
  destruct (pc t) as [| |result| |]; try discriminate Ht.
  - destruct Hcase as (-> & _). right.
    exists (mkFlipTask (closure t) AwaitStart). cbn.
    rewrite Hflips, list_lookup_insert_eq by exact Hlt.
    repeat split; lia.
  - destruct Hcase as [(result & -> & _) | (-> & _ & _ & Href)].
    + right. exists (mkFlipTask (closure t) (AwaitAnimation result)). cbn.
      rewrite Hflips, list_lookup_insert_eq by exact Hlt.
      repeat split; lia.
    + left. exact Href.
  - destruct Hcase as [(-> & _ & _ & Href) | (-> & _ & _ & Href)];
      left; exact Href.
Qed.

Lemma run_cons (e : event) (es : list event) (s : State) :
  run (e :: es) s = run es (step s e).
Proof. reflexivity. Qed.

Lemma step_resume (i : nat) (s : State) :
  step s (Resume i) = snd (resume_flip i s).
Proof. reflexivity. Qed.

Lemma released_stays (n i : nat) (s : State) :
  flipInProgressRef s = false ->
  flipInProgressRef (run (replicate n (Resume i)) s) = false.
Proof.
  revert s; induction n as [|n IH]; intros s Href; [exact Href|].
  cbn [replicate]. rewrite run_cons, step_resume.
  apply IH, resume_flip_released, Href.
Qed.

Lemma holder_released (n i : nat) (t : FlipTask) (s : State) :
  flips s !! i = Some t ->
  holds_guard (pc t) = true ->
  (awaits_left (pc t) <= n)%nat ->
  flipInProgressRef (run (replicate n (Resume i)) s) = false.
Proof.
  revert t s; induction n as [|n IH]; intros t s Hi Ht Hn.
  - destruct (pc t); cbn in *; (discriminate || lia).
  - cbn [replicate]. rewrite run_cons, step_resume.
    destruct (resume_flip_holder i t s Hi Ht)
      as [Href | (t' & Hi' & Ht' & Hless)].
    + apply released_stays, Href.
    + apply (IH t'); [exact Hi' | exact Ht' | lia].
Qed.

(** In a state where the marks and the suspended calls agree, three
    resumptions of one suspended call are enough to leave [Flipping]. *)
Lemma never_stuck (s : State) :
  guard_consistent s ->
  exists i, phase (run (replicate 3 (Resume i)) s) = Idle.
Proof.
  intros [_ Hcount]. unfold phase.
  change (holders (flips s) = if flipInProgressRef s then 1 else 0)%nat
    in Hcount.
  destruct (flipInProgressRef s) eqn:Href.
  - destruct (holders_positive (flips s)) as (i & t & Hi & Ht); [lia|].
    exists i. rewrite (holder_released 3 i t s Hi Ht); [reflexivity|].
    destruct (pc t); cbn; lia.
  - exists 0%nat. rewrite (released_stays 3 0 s Href). reflexivity.
Qed.

End Invariants.

(* ===================================================================== *)
(** ** The flip coordinator: the properties of the specification *)
(* ===================================================================== *)

Section CoordinatorClaims.
Context `{JsonRuntime}.

(** C2.  A call of [flipCoin] made while a flip is in progress returns at
    the guard: it returns normally and the state is the one it was called
    in.  And whatever happens to the application from its start, at most
    one call of [flipCoin] holds the guard, and one does exactly when the
    phase is [Flipping]. *)
Theorem flipCoin_ignored_while_flipping
  (r : Render) (s : State) (w : Platform) (es : list event) :
  phase s = Flipping ->
  flipCoin_enter r s = (Return None, s)
  /\ flipCoin r s = (Return tt, s)
  /\ (length (in_progress (run es (initial_state w))) <= 1)%nat
  /\ (phase (run es (initial_state w)) = Flipping
      <-> length (in_progress (run es (initial_state w))) = 1%nat).
Proof.
  rewrite phase_flipping. intros Href.
  split; [apply flipCoin_enter_guarded; auto|].
  split; [apply flipCoin_guarded; auto|].
  destruct (run_guard_consistent es _ (initial_guard_consistent w))
    as [_ Hcount].
  rewrite Hcount, phase_flipping.
  destruct (flipInProgressRef (run es (initial_state w))).
  - split; [lia|]. split; reflexivity.
  - split; [lia|]. split; discriminate.
Qed.

(** C9.  [handleCustomSideAChange] and [handleCustomSideBChange] store
    [text.substring(0, 150)]: after the call the label of the side is
    the prefix of the text of length [min 150 (length text)], white
    space included, so that a text of at most 150 characters is stored
    as it is; the other label and every other cell of the state are
    those of before, and so it is for the two edits as events of the
    application.  And whatever happens to the application from its
    start, neither label is longer than 150 characters. *)
Theorem label_edits_truncate
  (text : string) (s : State) (w : Platform) (es : list event) :
  (exists stored rest,
      handleCustomSideAChange text s = (Return tt, set_customSideA stored s)
      /\ handleCustomSideBChange text s = (Return tt, set_customSideB stored s)
      /\ customSideA (snd (handleCustomSideAChange text s)) = stored
      /\ customSideB (snd (handleCustomSideAChange text s)) = customSideB s
      /\ customSideB (snd (handleCustomSideBChange text s)) = stored
      /\ customSideA (snd (handleCustomSideBChange text s)) = customSideA s
      /\ customSideA (step s (ChangeTextA text)) = stored
      /\ customSideB (step s (ChangeTextB text)) = stored
      /\ text = stored ++ rest
      /\ String.length stored = Nat.min 150 (String.length text))
  /\ labels_bounded (run es (initial_state w)).
Proof.
  split.
  - destruct (JsStringFacts.substring_0_prefix 150 text) as [rest Hrest].
    exists (String.substring 0 150 text), rest.
    split; [reflexivity|]. split; [reflexivity|].
    do 6 (split; [reflexivity|]). split; [exact Hrest|].
    apply JsStringFacts.length_substring_0.
  - apply run_labels_bounded. split; cbn; lia.
Qed.

Lemma hd_tail_nth (l : list bool) :
  hd false (tail l) = nth 1 l false
  /\ hd false (tail (tail l)) = nth 2 l false.
Proof. destruct l as [|a [|b [|c l]]]; split; reflexivity. Qed.

(** C6.  A call of [flipCoin] that has taken the guard, run to its end
    under any plan of failures: it returns normally, and it ends with
    the phase [Idle] and [isFlipping] unset.  The awaited timers are the
    second and third platform calls of the flip: when one of them fails,
    the outcome on display is the one the flip found at its start (none,
    when none was set); otherwise it is the side that was drawn.  And
    whatever has happened to the application since its start, three
    resumptions of one suspended call, whatever failures they meet,
    leave the phase [Idle]: no state is stuck in [Flipping]. *)
Theorem flip_fail_safe
  (r : Render) (s : State) (w : Platform) (es : list event) :
  flipInProgressRef s = false ->
  r_isFlipping r = false ->
  (exists s',
      flipCoin_to_end r s = (Return tt, s')
      /\ phase s' = Idle
      /\ flipInProgressRef s' = false
      /\ isFlipping s' = false
      /\ if nth 1 (faults (platform s)) false
            || nth 2 (faults (platform s)) false
         then side s' = side s
         else side s' = Some (outcome_of r (next_random (platform s))))
  /\ (exists i,
        phase (run (es ++ replicate 3 (Resume i)) (initial_state w)) = Idle).
Proof.
  intros Href Hr. split.
  2: { destruct (never_stuck (run es (initial_state w))) as [i Hi].
       - apply run_guard_consistent, initial_guard_consistent.
       - exists i. rewrite run_app_events. exact Hi. }
  unfold flipCoin_to_end, bind, phase.
  rewrite (flipCoin_enter_free r s Href Hr).
  set (s0 := set_isFlipping true (set_flipInProgressRef true s)).
  assert (Hside0 : side s0 = side s) by reflexivity.
  assert (Hplatform0 : platform s0 = platform s) by reflexivity.
  destruct (hd_tail_nth (faults (platform s))) as [Hn1 Hn2].
  rewrite flipCoin_from_step.
  destruct (resume_impact r s0)
    as (s1 & -> & _ & Hside1 & _ & _ & (_ & _ & Hrandoms1) & Hfaults1).
  rewrite flipCoin_from_step.
  rewrite Hplatform0 in *.
  assert (Hnext1 : fails_next (platform s1)
                   = nth 1 (faults (platform s)) false)
    by (unfold fails_next; rewrite Hfaults1; exact Hn1).
  destruct (nth 1 (faults (platform s)) false) eqn:Hfail1.
  - destruct (resume_start_fail r s1 Hnext1)
      as (s2 & -> & _ & Hside2 & Hflip2 & Href2 & _).
    exists s2. rewrite Href2. cbn [orb].
    repeat split; try assumption. congruence.
  - destruct (resume_start_ok r s1 Hnext1)
      as (s2 & -> & _ & Hside2 & _ & _ & _ & _ & Hfaults2).
    assert (Hdraw : next_random (platform s1) = next_random (platform s))
      by (unfold next_random; rewrite Hrandoms1; reflexivity).
    rewrite Hdraw. rewrite flipCoin_from_step. cbn [orb].
    assert (Hnext : fails_next (platform s2)
                    = nth 2 (faults (platform s)) false)
      by (unfold fails_next; rewrite Hfaults2, Hfaults1; exact Hn2).
    destruct (nth 2 (faults (platform s)) false) eqn:Hfail2.
    + destruct (resume_animation_fail
                  r (outcome_of r (next_random (platform s))) s2 Hnext)
        as (s3 & -> & _ & Hside3 & Hflip3 & Href3 & _).
      exists s3. rewrite Href3. repeat split; try assumption. congruence.
    + destruct (resume_animation_ok
                  r (outcome_of r (next_random (platform s))) s2 Hnext)
        as (ok & w' & s3 & _ & -> & _ & Hside3 & Hflip3 & Href3 & _).
      destruct (flipCoin_from_committed 0 r s3)
        as (s4 & -> & _ & Hside4 & Hflip4 & Href4 & _).
      exists s4. rewrite Href4, Href3.
      repeat split; try assumption; congruence.
Qed.

(** *** The label of a custom side *)

Lemma truthy_trim (c : string) :
  JsString.truthy c && JsString.truthy (JsString.trim c)
  = JsString.truthy (JsString.trim c).
Proof. destruct c; reflexivity. Qed.

Lemma label_or_spec (custom fallback : string) :
  label_or custom fallback
  = if JsString.truthy (JsString.trim custom)
    then JsString.trim custom else fallback.
Proof. unfold label_or. destruct (JsString.trim custom); reflexivity. Qed.

Lemma historyLabel_A (r : Render) :
  historyLabel r "A" = label_or (r_customSideA r) "A".
Proof.
  unfold historyLabel. rewrite label_or_spec.
  change (String.eqb "A" "A") with true. change (String.eqb "A" "B") with false.
  cbn [andb]. rewrite truthy_trim. reflexivity.
Qed.

Lemma historyLabel_B (r : Render) :
  historyLabel r "B" = label_or (r_customSideB r) "B".
Proof.
  unfold historyLabel. rewrite label_or_spec.
  change (String.eqb "B" "A") with false. change (String.eqb "B" "B") with true.
  cbn [andb]. rewrite truthy_trim. reflexivity.
Qed.

Lemma label_or_trimmed (custom fallback : string) :
  JsString.trim fallback = fallback ->
  JsString.truthy fallback = true ->
  JsString.trim (label_or custom fallback) = label_or custom fallback
  /\ JsString.truthy (label_or custom fallback) = true.
Proof.
  intros Htrim Htruthy. rewrite label_or_spec.
  destruct (JsString.truthy (JsString.trim custom)) eqn:Hc.
  - split; [apply JsStringFacts.trim_idempotent | exact Hc].
  - split; assumption.
Qed.

(** A call of [flipCoin] whose render saw the custom mode, run to its
    end with no failure: the outcome is ["A"] or ["B"], whatever the
    labels; and the history then starts with an entry whose label is the
    trimmed custom label of that side when something is left of it, and
    the name of the side otherwise.  This is the flip that the button
    starts. *)
Lemma custom_flip_logs_label (r : Render) (s : State) :
  round_trips ->
  r_isCustomMode r = true ->
  flipInProgressRef s = false ->
  r_isFlipping r = false ->
  faults (platform s) = [] ->
  exists result s' w',
    flipCoin_to_end r s = (Return tt, s')
    /\ (result = "A" \/ result = "B")
    /\ side s' = Some result
    /\ historyLabel r result = custom_label r result
    /\ getHistory (platform s')
       = (Return (take 10 (history_entry (custom_label r result)
                             (now (platform s))
                           :: readAll_spec (history_slot (platform s)))),
          w').
Proof.
  intros Hrt Hcustom Href Hr Hplan.
  set (result := outcome_of r (next_random (platform s))).
  set (s0 := set_isFlipping true (set_flipInProgressRef true s)).
  assert (Hplatform0 : platform s0 = platform s) by reflexivity.
  (* the first haptic cue *)
  destruct (resume_impact r s0)
    as (s1 & Hstep1 & _ & _ & _ & _ & (Hstore1 & Hnow1 & Hrandoms1) & Hfaults1).
  rewrite Hplatform0, ?Hplan in *. cbn [tail] in Hfaults1.
  (* the draw *)
  destruct (resume_start_ok r s1)
    as (s2 & Hstep2 & _ & _ & _ & _ & Hstore2 & Hnow2 & Hfaults2).
  { unfold fails_next. rewrite Hfaults1. reflexivity. }
  rewrite Hfaults1 in Hfaults2. cbn [tail] in Hfaults2.
  assert (Hdraw : next_random (platform s1) = next_random (platform s))
    by (unfold next_random; rewrite Hrandoms1; reflexivity).
  rewrite Hdraw in Hstep2. fold result in Hstep2.
  assert (Hresult : result = "A" \/ result = "B")
    by (unfold result, outcome_of; rewrite Hcustom;
        destruct (Qltb _ _); auto).
  assert (Hlabel : historyLabel r result = custom_label r result)
    by (unfold custom_label; destruct Hresult as [-> | ->];
        [apply historyLabel_A | apply historyLabel_B]).
  assert (Hclean : JsString.trim (custom_label r result)
                   = custom_label r result
                   /\ JsString.truthy (custom_label r result) = true)
    by (unfold custom_label; destruct Hresult as [-> | ->];
        apply label_or_trimmed; reflexivity).
  destruct Hclean as [Htrim Htruthy].
  (* the commit and the write to the history *)
  destruct (resume_animation_ok r result s2)
    as (ok & w3 & s3 & Hsave & Hstep3 & _ & Hside3 & _ & _ & Hplatform3).
  { unfold fails_next. rewrite Hfaults2. reflexivity. }
  rewrite Hfaults2, Hlabel in Hsave. cbn [tail] in Hsave.
  destruct (saveFlipToHistory_no_fault (custom_label r result)
              (set_faults [] (platform s2)) Htruthy eq_refl)
    as (w3' & Hsave' & Hnow3 & Hfaults3 & _ & Hstore3).
  rewrite Hsave' in Hsave. injection Hsave as <- <-.
  (* the rest of the call *)
  destruct (flipCoin_from_committed 0 r s3)
    as (s4 & Hstep4 & _ & Hside4 & _ & _ & (Hstore4 & Hnow4 & _) & Hfaults4).
  rewrite Hplatform3, ?Hfaults3 in *. cbn [tail] in Hfaults4.
  destruct (getHistory_no_fault (platform s4) Hfaults4)
    as (w' & Hget & _).
  exists result, s4, w'. split; [|split; [exact Hresult|]].
  { unfold flipCoin_to_end, bind.
    rewrite (flipCoin_enter_free r s Href Hr). fold s0.
    rewrite flipCoin_from_step, Hstep1, flipCoin_from_step, Hstep2,
      flipCoin_from_step, Hstep3.
    exact Hstep4. }
  split; [congruence|]. split; [exact Hlabel|].
  rewrite Hget. unfold history_slot at 1.
  rewrite Hstore4, Hstore3, lookup_insert_eq.
  rewrite (readAll_spec_stringify _ Hrt), appended_cons, Htrim.
  cbn [now asyncStorage set_faults] in *. unfold history_slot.
  cbn [asyncStorage set_faults].
  rewrite Hnow2, Hnow1, Hstore2, Hstore1. reflexivity.
Qed.

(** *** The motion trigger detector *)

(** C8.  A sample reaches the mounted listener, and the difference of
    its Y component and the previous one, as the code computes it in
    double precision, tests greater than 0.8.  When more than 4000 ms
    have passed since the last flick and no flip is in progress, the
    listener calls [flipCoin] (one more call is suspended, the phase is
    [Flipping]), records the sample and the time of the flick, and
    leaves the state of the shake detection alone; otherwise it calls no
    [flipCoin]: the suspended calls, the two marks of a flip in
    progress, the outcome on display, the time of the last flick and
    the platform are those of before.  And when it has fired, a second
    sample 500 ms later with no flip in progress, whatever its Y
    component, calls no [flipCoin] and records no flick. *)
Theorem flick_detection
  (x y z : float) (s : State) (x2 y2 z2 : float) (s2 : State) :
  isMounted s = true ->
  (0.8 <? y - prevYRef s)%float = true ->
  let s' :=
    snd (accelerometer_listener (Reading x) (Reading y) (Reading z) s) in
  let s2' :=
    snd (accelerometer_listener (Reading x2) (Reading y2) (Reading z2) s2) in
  (if (4000 <? now (platform s) - lastFlickTimeRef s)%Z
      && negb (flipInProgressRef s)
   then flips s' = (flips s ++ [mkFlipTask first_render AwaitImpact])%list
        /\ phase s' = Flipping
        /\ lastFlickTimeRef s' = now (platform s)
        /\ lastShakeTimeRef s' = lastShakeTimeRef s
        /\ shakeTimeoutRef s' = shakeTimeoutRef s
        /\ timers s' = timers s
        /\ prevYRef s' = y
   else flips s' = flips s
        /\ flipInProgressRef s' = flipInProgressRef s
        /\ isFlipping s' = isFlipping s
        /\ side s' = side s
        /\ lastFlickTimeRef s' = lastFlickTimeRef s
        /\ platform s' = platform s
        /\ prevYRef s' = y)
  /\ ((4000 < now (platform s) - lastFlickTimeRef s)%Z ->
      flipInProgressRef s = false ->
      isMounted s2 = true ->
      flipInProgressRef s2 = false ->
      prevYRef s2 = prevYRef s' ->
      lastFlickTimeRef s2 = lastFlickTimeRef s' ->
      now (platform s2) = (now (platform s) + 500)%Z ->
      flips s2' = flips s2
      /\ flipInProgressRef s2' = false
      /\ isFlipping s2' = isFlipping s2
      /\ side s2' = side s2
      /\ lastFlickTimeRef s2' = now (platform s)
      /\ platform s2' = platform s2).
Proof.
  intros Hmounted Hdelta. cbv zeta. split.
  - revert Hmounted Hdelta. open_state s. cbn [isMounted prevYRef].
    intros -> Hdelta.
    unfold accelerometer_listener, liftP. run_js. rewrite Hdelta. cbn [andb].
    destruct ((4000 <? clock - lastFlick)%Z && negb inProgress) eqn:Hfire.
    + apply andb_true_iff in Hfire as [_ Hfree].
      apply negb_true_iff in Hfree. subst inProgress.
      unfold phase. run_app. repeat split; reflexivity.
    + run_cases; fields.
  - intros Helapsed Hfree Hmounted2 Hfree2 HprevY Hflick Hnow.
    assert (Hfired : lastFlickTimeRef
                       (snd (accelerometer_listener
                               (Reading x) (Reading y) (Reading z) s))
                     = now (platform s)
                     /\ prevYRef
                          (snd (accelerometer_listener
                                  (Reading x) (Reading y) (Reading z) s))
                        = y).
    { revert Hmounted Hdelta Helapsed Hfree. open_state s.
      cbn [isMounted prevYRef flipInProgressRef lastFlickTimeRef platform now].
      intros -> Hdelta Helapsed ->.
      apply Z.ltb_lt in Helapsed.
      unfold accelerometer_listener, liftP. run_js.
      rewrite Hdelta, Helapsed. cbn [andb negb]. run_app.
      split; reflexivity. }
    destruct Hfired as [Hflick' HprevY'].
    rewrite Hflick' in Hflick. rewrite HprevY' in HprevY.
    revert Hmounted2 Hfree2 HprevY Hflick Hnow. open_state s2.
    cbn [isMounted prevYRef flipInProgressRef lastFlickTimeRef platform now].
    intros -> -> -> -> ->.
    unfold accelerometer_listener, liftP. run_js.
    replace (4000 <? now (platform s) + 500 - now (platform s))%Z
      with false by (symmetry; apply Z.ltb_ge; lia).
    rewrite andb_false_r. cbn [andb]. run_cases; fields.
Qed.

End CoordinatorClaims.

(* ===================================================================== *)
(** ** The properties on concrete runs, with the reference runtime *)
(* ===================================================================== *)

Lemma flipCoin_ignored_while_flipping_witness :
  phase flipping = Flipping
  /\ (flipCoin_enter first_render flipping = (Return None, flipping)
      /\ flipCoin first_render flipping = (Return tt, flipping)
      /\ (length (in_progress
                    (@run reference_runtime two_presses
                       (initial_state fresh_platform))) <= 1)%nat
      /\ (phase (@run reference_runtime two_presses
                   (initial_state fresh_platform)) = Flipping
          <-> length (in_progress
                        (@run reference_runtime two_presses
                           (initial_state fresh_platform))) = 1%nat)).
Proof.
  split; [reflexivity|].
  apply (@flipCoin_ignored_while_flipping reference_runtime
           first_render flipping fresh_platform two_presses).
  reflexivity.
Defined.

Lemma reset_and_toggle_ignored_while_flipping_witness :
  (phase flipping = Flipping \/ r_isFlipping first_render = true)
  /\ (resetResult first_render flipping = (Return tt, flipping)
      /\ toggleMode first_render flipping = (Return tt, flipping)).
Proof.
  split; [left; reflexivity|].
  apply (reset_and_toggle_ignored_while_flipping first_render flipping).
  left. reflexivity.
Defined.


Lemma custom_flip_logs_label_pizza :
  @round_trips reference_runtime
  /\ r_isCustomMode pizza = true
  /\ flipInProgressRef (draws 0.25) = false
  /\ r_isFlipping pizza = false
  /\ faults (platform (draws 0.25)) = []
  /\ exists result s' w',
      @flipCoin_to_end reference_runtime pizza (draws 0.25) = (Return tt, s')
      /\ (result = "A" \/ result = "B")
      /\ side s' = Some result
      /\ historyLabel pizza result = custom_label pizza result
      /\ @getHistory reference_runtime (platform s')
         = (Return (take 10 (history_entry (custom_label pizza result)
                               (now (platform (draws 0.25)))
                             :: @readAll_spec reference_runtime
                                  (history_slot (platform (draws 0.25))))),
            w').
Proof.
  split; [exact reference_round_trips|].
  split; [reflexivity|]. split; [reflexivity|]. split; [reflexivity|].
  split; [reflexivity|].
  apply (@custom_flip_logs_label reference_runtime pizza (draws 0.25));
    try reflexivity.
  exact reference_round_trips.
Defined.

(** The scenario of the specification: with the labels ["Pizza"] and the
    empty string, the side A is logged as ["Pizza"] and the side B as
    ["B"]. *)
Example pizza_side_A_logged_as_Pizza :
  let s' := snd (@flipCoin_to_end reference_runtime pizza (draws 0.25)) in
  side s' = Some "A" /\ phase s' = Idle
  /\ fst (@getHistory reference_runtime (platform s'))
     = Return [history_entry "Pizza" 1700000000000].
Proof. vm_compute. repeat split. Qed.

Example pizza_side_B_logged_as_B :
  let s' := snd (@flipCoin_to_end reference_runtime pizza (draws 0.75)) in
  side s' = Some "B" /\ phase s' = Idle
  /\ fst (@getHistory reference_runtime (platform s'))
     = Return [history_entry "B" 1700000000000].
Proof. vm_compute. repeat split. Qed.

(** The flip that the accelerometer starts is the [flipCoin] of the first
    render, which saw the standard mode and no label: its draw selects
    ["Heads"] or ["Tails"], whatever the mode of the application is. *)
Lemma listener_flip_is_standard (x : Q) :
  outcome_of first_render x = "Heads" \/ outcome_of first_render x = "Tails".
Proof. unfold outcome_of. cbn. destruct (Qltb x 0.5); auto. Qed.

(** C4 fails on the code.  After [flick_in_custom_mode] the application
    is in the custom mode, no flip is in progress, and the flip that has
    completed left the outcome ["Heads"] and logged the label ["Heads"]:
    neither the side A nor the side B. *)
Theorem flick_in_custom_mode_flips_heads :
  let s := @run reference_runtime flick_in_custom_mode (draws 0.25) in
  isCustomMode s = true
  /\ customSideA s = "Pizza"
  /\ phase s = Idle
  /\ flips s = []
  /\ side s = Some "Heads"
  /\ fst (@getHistory reference_runtime (platform s))
     = Return [history_entry "Heads" 1700000000000].
Proof. vm_compute. repeat split. Qed.

(** The same flip started by the button, whose [flipCoin] is the one of
    the latest render, gives the side A and logs ["Pizza"]. *)
Example button_in_custom_mode_flips_A :
  let s :=
    @run reference_runtime
      [PressToggleMode first_render;
       ChangeTextA "Pizza";
       PressFlip pizza;
       Resume 0; Resume 0; Resume 0; Resume 0; Resume 0]
      (draws 0.25) in
  render_of s = pizza
  /\ phase s = Idle
  /\ flips s = []
  /\ side s = Some "A"
  /\ fst (@getHistory reference_runtime (platform s))
     = Return [history_entry "Pizza" 1700000000000].
Proof. vm_compute. repeat split. Qed.

Lemma flip_fail_safe_witness :
  flipInProgressRef failing_timer = false
  /\ r_isFlipping first_render = false
  /\ (exists s',
        @flipCoin_to_end reference_runtime first_render failing_timer
        = (Return tt, s')
        /\ phase s' = Idle
        /\ flipInProgressRef s' = false
        /\ isFlipping s' = false
        /\ if nth 1 (faults (platform failing_timer)) false
              || nth 2 (faults (platform failing_timer)) false
           then side s' = side failing_timer
           else side s' = Some (outcome_of first_render
                                  (next_random (platform failing_timer))))
  /\ (exists i,
        phase (@run reference_runtime
                 (two_presses ++ replicate 3 (Resume i))
                 (initial_state fresh_platform)) = Idle).
Proof.
  split; [reflexivity|]. split; [reflexivity|].
  apply (@flip_fail_safe reference_runtime first_render failing_timer
           fresh_platform two_presses);
    reflexivity.
Defined.

(** The flip whose first timer fails, evaluated: the fail-safe leaves the
    phase [Idle], no outcome, and an unchanged history. *)
Example failing_timer_resets :
  let s' :=
    snd (@flipCoin_to_end reference_runtime first_render failing_timer) in
  phase s' = Idle /\ isFlipping s' = false /\ side s' = None
  /\ history_slot (platform s') = None.
Proof. vm_compute. repeat split. Qed.

Lemma flick_detection_witness :
  isMounted started = true
  /\ (0.8 <? 0.9 - prevYRef started)%float = true
  /\ (0.8 <? 1.8 - 0.9)%float = true
  /\ let s' :=
       snd (accelerometer_listener
              (Reading 0) (Reading 0.9) (Reading 0) started) in
     let s2' :=
       snd (accelerometer_listener
              (Reading 0) (Reading 1.8) (Reading 0) after_flick) in
     (if (4000 <? now (platform started) - lastFlickTimeRef started)%Z
         && negb (flipInProgressRef started)
      then flips s' = (flips started
                       ++ [mkFlipTask first_render AwaitImpact])%list
           /\ phase s' = Flipping
           /\ lastFlickTimeRef s' = now (platform started)
           /\ lastShakeTimeRef s' = lastShakeTimeRef started
           /\ shakeTimeoutRef s' = shakeTimeoutRef started
           /\ timers s' = timers started
           /\ prevYRef s' = 0.9%float
      else flips s' = flips started
           /\ flipInProgressRef s' = flipInProgressRef started
           /\ isFlipping s' = isFlipping started
           /\ side s' = side started
           /\ lastFlickTimeRef s' = lastFlickTimeRef started
           /\ platform s' = platform started
           /\ prevYRef s' = 0.9%float)
     /\ ((4000 < now (platform started) - lastFlickTimeRef started)%Z ->
         flipInProgressRef started = false ->
         isMounted after_flick = true ->
         flipInProgressRef after_flick = false ->
         prevYRef after_flick = prevYRef s' ->
         lastFlickTimeRef after_flick = lastFlickTimeRef s' ->
         now (platform after_flick) = (now (platform started) + 500)%Z ->
         flips s2' = flips after_flick
         /\ flipInProgressRef s2' = false
         /\ isFlipping s2' = isFlipping after_flick
         /\ side s2' = side after_flick
         /\ lastFlickTimeRef s2' = now (platform started)
         /\ platform s2' = platform after_flick).
Proof.
  split; [reflexivity|]. split; [reflexivity|]. split; [reflexivity|].
  apply (flick_detection 0 0.9 0 started 0 1.8 0 after_flick);
    reflexivity.
Defined.

(** The scenario of the specification: a sample 0.9 above the previous
    one starts a flip; a second one, 500 ms later and again 0.9 above,
    starts none, whether the first flip is still in progress or not. *)
Example two_flicks_fire_once :
  length (flips (@run reference_runtime
                   [Accelerometer (Reading 0) (Reading 0.9) (Reading 0);
                    Tick 500;
                    Accelerometer (Reading 0) (Reading 1.8) (Reading 0)]
                   started)) = 1%nat
  /\ flips (snd (accelerometer_listener
                   (Reading 0) (Reading 1.8) (Reading 0) after_flick)) = [].
Proof. vm_compute. split; reflexivity. Qed.

(** The threshold of the flick is that of the doubles.  From the
    previous sample [-1e-30] the sample 0.8 gives the difference 0.8,
    which is not greater than 0.8: no flip starts.  From 0.57 the
    sample 1.37 gives 0.8000000000000002: a flip starts.  A sample
    whose Y component is [NaN] starts none, and neither does the sample
    after it. *)
Example flick_threshold_in_doubles :
  let calls (prevY y : float) :=
    length (flips (snd (accelerometer_listener
                          (Reading 0) (Reading y) (Reading 0)
                          (set_prevYRef prevY started)))) in
  calls (-1e-30)%float 0.8%float = 0%nat
  /\ calls 0.57%float 1.37%float = 1%nat
  /\ calls 0%float nan = 0%nat
  /\ calls nan 5%float = 0%nat
  /\ calls 0%float infinity = 1%nat.
Proof. vm_compute. repeat split. Qed.

(** Twelve appends to the empty store, evaluated: the history holds the
    entries of the times 12, 11, ..., 3. *)
Example twelve_appends_keep_ten :
  fst (@getHistory reference_runtime
         (@appends reference_runtime
            (map heads_at [1; 2; 3; 4; 5; 6; 7; 8; 9; 10; 11; 12]%nat)
            fresh_platform))
  = Return (map (fun t => history_entry "Heads" t)
              [12; 11; 10; 9; 8; 7; 6; 5; 4; 3]%Z).
Proof. vm_compute. reflexivity. Qed.

(* ===================================================================== *)
(** ** The history log: clearing, failures and sequences of calls *)
(* ===================================================================== *)

Section StorageFacts.
Context `{JsonRuntime}.

(** Every run of [clearHistory]. *)
Lemma clearHistory_run (w : Platform) :
  exists w',
    clearHistory w = (Return (negb (fails_next w)), w')
    /\ now w' = now w /\ randoms w' = randoms w
    /\ faults w' = tail (faults w)
    /\ asyncStorage w' =
         (if fails_next w then asyncStorage w
          else delete HISTORY_KEY (asyncStorage w)).
Proof.
  unfold clearHistory, AsyncStorage.removeItem, fails_next. run_js.
  destruct (faults w) as [|[|] fs] eqn:Hf; run_js;
    eexists; (split; [reflexivity|]); cbn; rewrite ?Hf; tauto.
Qed.

(** A read of a slot that holds nothing gives the empty log, whatever
    the platform does. *)
Lemma getHistory_empty_slot (w : Platform) :
  history_slot w = None -> fst (getHistory w) = Return [].
Proof.
  intros Hslot. destruct (getHistory_run w) as (w' & -> & _).
  unfold AsyncStorage.getItem. run_js. fold (history_slot w).
  rewrite Hslot. destruct (faults w) as [|[|] fs]; reflexivity.
Qed.

(** What [getHistory] returns: the stored log, or the empty log when
    the read of the slot fails. *)
Lemma getHistory_result (w : Platform) :
  exists w',
    getHistory w
    = (Return (if fails_next w then [] else stored_log w), w')
    /\ after_read w w'.
Proof.
  destruct (getHistory_run w) as (w' & -> & Hafter).
  exists w'. split; [|exact Hafter].
  unfold AsyncStorage.getItem, fails_next, stored_log, history_slot. run_js.
  destruct (faults w) as [|[|] fs]; reflexivity.
Qed.

(** Every run of [saveFlipToHistory], by what the slot then decodes
    to. *)
Lemma saveFlipToHistory_log (v : value) (w : Platform) :
  round_trips ->
  exists (ok : bool) (w' : Platform),
    saveFlipToHistory v w = (Return ok, w')
    /\ now w' = now w
    /\ (forall key, key <> HISTORY_KEY ->
        asyncStorage w' !! key = asyncStorage w !! key)
    /\ if ok then
         exists label,
           v = data (JString label) /\ JsString.truthy label = true
           /\ stored_log w'
              = take 10 (history_entry (JsString.trim label) (now w)
                         :: (if fails_next w then [] else stored_log w))
       else asyncStorage w' = asyncStorage w.
Proof.
  intros Hrt.
  destruct (saveFlipToHistory_run v w) as (ok & w' & Hrun & Hnow & _ & Hcase).
  exists ok, w'. split; [exact Hrun|]. split; [exact Hnow|].
  destruct ok.
  - destruct Hcase as (label & current & w1 & -> & Hv & Hget & _ & Hstore).
    split.
    + intros key Hkey. rewrite Hstore. apply lookup_insert_ne. congruence.
    + exists label. split; [reflexivity|].
      split; [destruct label; [discriminate Hv | reflexivity]|].
      destruct (getHistory_result w) as (w1' & Hget' & _).
      rewrite Hget in Hget'. injection Hget' as -> _.
      unfold stored_log at 1, history_slot.
      rewrite Hstore, lookup_insert_eq.
      rewrite (readAll_spec_stringify _ Hrt). reflexivity.
  - split; [|exact Hcase]. intros key _. rewrite Hcase. reflexivity.
Qed.

(** *** Sequences of calls *)

(** What one call does to the clock and to the stored log. *)
Lemma perform_log (w : Platform) (c : storage_call) :
  round_trips ->
  now (perform w c) = match c with Wait ms => (now w + ms)%Z | _ => now w end
  /\ (stored_log (perform w c) = stored_log w
      \/ stored_log (perform w c) = []
      \/ exists label base,
           (base = [] \/ base = stored_log w)
           /\ stored_log (perform w c)
              = take 10 (history_entry (JsString.trim label) (now w) :: base)).
Proof.
  intros Hrt. destruct c as [v| | |ms]; cbn [perform].
  - destruct (saveFlipToHistory_log v w Hrt)
      as (ok & w' & -> & Hnow & _ & Hcase).
    cbn [snd]. split; [exact Hnow|]. destruct ok.
    + destruct Hcase as (label & _ & _ & Hlog).
      right. right. exists label. eexists. split; [|exact Hlog].
      destruct (fails_next w); auto.
    + left. unfold stored_log, history_slot. rewrite Hcase. reflexivity.
  - destruct (getHistory_run w) as (w' & -> & Hstore & Hnow & _).
    cbn [snd]. split; [exact Hnow|].
    left. unfold stored_log, history_slot. rewrite Hstore. reflexivity.
  - destruct (clearHistory_run w) as (w' & -> & Hnow & _ & _ & Hstore).
    cbn [snd]. split; [exact Hnow|].
    unfold stored_log, history_slot. rewrite Hstore.
    destruct (fails_next w); [left; reflexivity|].
    right. left. rewrite lookup_delete_eq. reflexivity.
  - split; [reflexivity|]. left. reflexivity.
Qed.

Lemma session_cons (c : storage_call) (cs : list storage_call)
  (w : Platform) :
  session (c :: cs) w = session cs (perform w c).
Proof. reflexivity. Qed.

Lemma newest_first_entry (bound t : Z) (label : string) (l : list json) :
  newest_first bound (history_entry label t :: l)
  = String.eqb (JsString.trim label) label && (t <=? bound)%Z
    && newest_first t l.
Proof. reflexivity. Qed.

Lemma newest_first_cons (bound : Z) (e : json) (l : list json) :
  newest_first bound (e :: l) = true ->
  exists label t,
    e = history_entry label t /\ JsString.trim label = label
    /\ (t <= bound)%Z /\ newest_first t l = true.
Proof.
  destruct e as [| | | | |members]; try discriminate.
  destruct members as [|[k1 [| | |label| |]] [|[k2 [| |t| | |]] [|]]];
    try discriminate.
  cbn [newest_first]. rewrite !andb_true_iff.
  intros ((((Hk1 & Hk2) & Htrim) & Ht) & Hrest).
  apply String.eqb_eq in Hk1, Hk2, Htrim. apply Z.leb_le in Ht.
  subst k1 k2. exists label, t. tauto.
Qed.

Lemma newest_first_weaken (bound bound' : Z) (l : list json) :
  (bound <= bound')%Z ->
  newest_first bound l = true -> newest_first bound' l = true.
Proof.
  destruct l as [|e l]; [reflexivity|]. intros Hle Hl.
  destruct (newest_first_cons _ _ _ Hl)
    as (label & t & -> & Htrim & Ht & Hrest).
  rewrite newest_first_entry, Htrim, String.eqb_refl, Hrest.
  replace (t <=? bound')%Z with true by (symmetry; apply Z.leb_le; lia).
  reflexivity.
Qed.

Lemma newest_first_take (n : nat) (bound : Z) (l : list json) :
  newest_first bound l = true -> newest_first bound (take n l) = true.
Proof.
  revert bound l; induction n as [|n IH]; intros bound [|e l] Hl;
    try reflexivity.
  destruct (newest_first_cons _ _ _ Hl)
    as (label & t & -> & Htrim & Ht & Hrest).
  cbn [take]. rewrite newest_first_entry, Htrim, String.eqb_refl.
  rewrite (IH _ _ Hrest).
  replace (t <=? bound)%Z with true by (symmetry; apply Z.leb_le; lia).
  reflexivity.
Qed.


(** An append writes the history slot at most, and nothing when it
    returns [false]. *)
Lemma failed_append_store (v : value) (w : Platform) (ok : bool)
  (w' : Platform) :
  saveFlipToHistory v w = (Return ok, w') ->
  (forall key, key <> HISTORY_KEY ->
     asyncStorage w' !! key = asyncStorage w !! key)
  /\ (ok = false -> asyncStorage w' = asyncStorage w).
Proof.
  intros Hsave.
  destruct (saveFlipToHistory_run v w) as (ok' & w2 & Hrun & _ & _ & Hcase).
  rewrite Hsave in Hrun. injection Hrun as <- <-. destruct ok.
  - destruct Hcase as (label & current & w1 & _ & _ & _ & _ & Hstore).
    split; [|discriminate].
    intros key Hkey. rewrite Hstore. apply lookup_insert_ne. congruence.
  - split; [|intros _; exact Hcase].
    intros key _. rewrite Hcase. reflexivity.
Qed.

(** *** Properties of the module *)

(** X1.  [clearHistory] never throws.  When the removal succeeds it
    returns [true], the history slot is gone and the other keys of the
    store are as they were, and every later [getHistory] returns the
    empty log, whatever the platform then does; when the removal fails
    it returns [false] and the store is as it was. *)
Theorem clearHistory_empties_log (w : Platform) :
  exists ok w',
    clearHistory w = (Return ok, w')
    /\ ok = negb (fails_next w)
    /\ if ok
       then asyncStorage w' = delete HISTORY_KEY (asyncStorage w)
            /\ forall plan,
                 fst (getHistory (set_faults plan w')) = Return []
       else asyncStorage w' = asyncStorage w.
Proof.
  destruct (clearHistory_run w) as (w' & Hrun & _ & _ & _ & Hstore).
  exists (negb (fails_next w)), w'. split; [exact Hrun|].
  split; [reflexivity|].
  destruct (fails_next w); cbn [negb]; [exact Hstore|].
  split; [exact Hstore|]. intros plan. apply getHistory_empty_slot.
  unfold history_slot. cbn [asyncStorage set_faults].
  rewrite Hstore. apply lookup_delete_eq.
Qed.

(** X2.  [saveFlipToHistory] never throws, whatever its argument and
    whatever fails: it returns [true] or [false].  It writes no key of
    the store but the history slot, and when it returns [false] the
    whole store is as it was: an append that fails loses nothing. *)
Theorem failed_append_keeps_store (v : value) (w : Platform) :
  exists ok w',
    saveFlipToHistory v w = (Return ok, w')
    /\ (forall key, key <> HISTORY_KEY ->
        asyncStorage w' !! key = asyncStorage w !! key)
    /\ (ok = false -> asyncStorage w' = asyncStorage w).
Proof.
  destruct (saveFlipToHistory_run v w) as (ok & w' & Hrun & _).
  exists ok, w'. split; [exact Hrun|].
  exact (failed_append_store v w ok w' Hrun).
Qed.

(** X3.  An append whose read of the slot fails and whose write
    succeeds reports success and leaves a log of one entry, the new
    one: [getHistory] has turned the failed read into an empty log, and
    the entries that the slot held are overwritten. *)
Theorem append_after_failed_read_drops_log (label : string) (w : Platform) :
  round_trips ->
  JsString.truthy label = true ->
  fails_next w = true ->
  nth 1 (faults w) false = false ->
  exists w',
    saveFlipToHistory (data (JString label)) w = (Return true, w')
    /\ stored_log w' = [history_entry (JsString.trim label) (now w)].
Proof.
  intros Hrt Hlabel Hread Hwrite.
  destruct (saveFlipToHistory_log (data (JString label)) w Hrt)
    as (ok & w' & Hrun & _ & _ & Hcase).
  assert (Hok : ok = true).
  { revert Hrun Hread Hwrite. unfold saveFlipToHistory, fails_next.
    rewrite guard_non_empty_string.
    destruct label; [discriminate Hlabel|].
    unfold call_trim, getHistory, AsyncStorage.getItem,
      AsyncStorage.setItem.
    run_js. destruct (faults w) as [|[|] [|[|] plan]]; run_js;
      try discriminate; congruence. }
  subst ok. exists w'. split; [exact Hrun|].
  destruct Hcase as (label' & [= <-] & _ & Hlog).
  rewrite Hlog, Hread. reflexivity.
Qed.

(** X4.  Whatever sequence of appends, reads and clears a client makes,
    with any arguments, and whichever of them fail: a log of at most 10
    entries [{ side, timestamp }] stays one. *)
Theorem stored_log_stays_bounded (cs : list storage_call) (w : Platform) :
  round_trips ->
  length (stored_log w) <= 10 ->
  Forall is_history_entry (stored_log w) ->
  length (stored_log (session cs w)) <= 10
  /\ Forall is_history_entry (stored_log (session cs w)).
Proof.
  intros Hrt. revert w.
  induction cs as [|c cs IH]; intros w Hlen Hall; [split; assumption|].
  rewrite session_cons.
  destruct (perform_log w c Hrt)
    as [_ [Hlog | [Hlog | (label & base & Hbase & Hlog)]]];
    apply IH; rewrite Hlog; try assumption.
  - cbn; lia.
  - constructor.
  - rewrite length_take. lia.
  - apply Forall_take. constructor; [eexists _, _; reflexivity|].
    destruct Hbase as [-> | ->]; [constructor | exact Hall].
Qed.

(** X5.  While the clock does not go back, the log stays sorted, newest
    entry first, with trimmed labels and no timestamp in the future,
    whatever sequence of appends, reads and clears a client makes and
    whichever of them fail. *)
Theorem stored_log_stays_newest_first
  (cs : list storage_call) (w : Platform) :
  round_trips ->
  Forall forward cs ->
  newest_first (now w) (stored_log w) = true ->
  newest_first (now (session cs w)) (stored_log (session cs w)) = true.
Proof.
  intros Hrt Hcs. revert w.
  induction Hcs as [|c cs Hc _ IH]; intros w Hw; [exact Hw|].
  rewrite session_cons. apply IH.
  destruct (perform_log w c Hrt)
    as [Hnow [Hlog | [Hlog | (label & base & Hbase & Hlog)]]];
    rewrite Hlog, Hnow.
  - destruct c; try exact Hw.
    apply (newest_first_weaken (now w)); [cbn in Hc; lia | exact Hw].
  - reflexivity.
  - assert (Hsame : match c with
                    | Wait ms => (now w + ms)%Z
                    | _ => now w
                    end = now w \/ stored_log (perform w c) = stored_log w).
    { destruct c; auto. }
    apply newest_first_take.
    rewrite newest_first_entry, JsStringFacts.trim_idempotent,
      String.eqb_refl.
    replace (now w <=? match c with
                       | Wait ms => (now w + ms)%Z
                       | _ => now w
                       end)%Z with true
      by (symmetry; apply Z.leb_le; destruct c; cbn in Hc; lia).
    destruct Hbase as [-> | ->]; [reflexivity | exact Hw].
Qed.

End StorageFacts.

(* ===================================================================== *)
(** ** The calls of the history panel, run *)
(* ===================================================================== *)

Ltac run_panel :=
  unfold HistoryPanel.loadHistory, HistoryPanel.handleClearHistory,
    try_finally, HistoryPanel.setHistory, HistoryPanel.setIsLoading,
    HistoryPanel.liftH;
  run_js.

Section PanelRuns.
Context `{JsonRuntime}.
Import HistoryPanel.

Lemma loadHistory_run (p : Panel) :
  exists w',
    loadHistory p
    = (Return tt,
       mkPanel (if fails_next (host p) then [] else stored_log (host p))
         false w')
    /\ after_read (host p) w'.
Proof.
  destruct p as [items loading w]. cbn [host].
  destruct (getHistory_result w) as (w' & Hget & Hafter).
  exists w'. split; [|exact Hafter].
  run_panel. rewrite Hget. reflexivity.
Qed.

Lemma handleClearHistory_run (p : Panel) :
  exists w',
    handleClearHistory p
    = (Return tt,
       mkPanel (if fails_next (host p) then history p else [])
         (isLoading p) w')
    /\ asyncStorage w' =
         (if fails_next (host p) then asyncStorage (host p)
          else delete HISTORY_KEY (asyncStorage (host p))).
Proof.
  destruct p as [items loading w]. cbn [host history isLoading].
  destruct (clearHistory_run w) as (w' & Hclear & _ & _ & _ & Hstore).
  exists w'. split; [|exact Hstore].
  run_panel. rewrite Hclear. destruct (fails_next w); reflexivity.
Qed.

End PanelRuns.

(* ===================================================================== *)
(** ** The running application: the display, the store and the timers *)
(* ===================================================================== *)

(** Name what an event of the panel keeps. *)
Ltac panel_facts s e Hpanel :=
  destruct (step_panel_frame s e Hpanel)
    as (Hp_side & Hp_isFlipping & Hp_mode & Hp_A & Hp_B & Hp_handle
        & Hp_lastShake & Hp_lastFlick & Hp_prevY & Hp_ref & Hp_mounted
        & Hp_flips & Hp_timers & Hp_next).

Section Handlers.
Context `{JsonRuntime}.

(** [flipCoin], up to its first [await], touches the two marks and the
    list of suspended calls only. *)
Lemma flipCoin_keeps (r : Render) (s : State) :
  let s' := snd (flipCoin r s) in
  side s' = side s /\ isCustomMode s' = isCustomMode s
  /\ customSideA s' = customSideA s /\ customSideB s' = customSideB s
  /\ isMounted s' = isMounted s /\ timers s' = timers s
  /\ shakeTimeoutRef s' = shakeTimeoutRef s
  /\ platform s' = platform s.
Proof. cbv zeta. run_cases; fields. Qed.

(** The listener updates the cells of the motion detection, and then
    calls [flipCoin] or nothing; it calls [flipCoin] only when no flip
    is in progress. *)
Lemma accelerometer_listener_motion (x y z : reading) (s : State) :
  exists s1,
    motion_frame s s1
    /\ (snd (accelerometer_listener x y z s) = s1
        \/ (flipInProgressRef s = false
            /\ timers s1 = timers s
            /\ shakeTimeoutRef s1 = shakeTimeoutRef s
            /\ accelerometer_listener x y z s = flipCoin first_render s1)).
Proof.
  unfold motion_frame, accelerometer_listener.
  destruct x as [x|], y as [y|], z as [z|];
    try (exists s; split; [tauto | left; reflexivity]).
  destruct s as [sd flipping custom labelA labelB handle lastShake lastFlick
                   prevY inProgress mounted tasks pending next
                   visible items loading w].
  unfold liftP. run_js.
  destruct ((0.8 <? y - prevY)%float && (4000 <? now w - lastFlick)%Z
            && negb inProgress) eqn:Hflick.
  - destruct mounted.
    + exists (mkState sd flipping custom labelA labelB handle lastShake
                (now w) y inProgress true tasks pending next
                visible items loading w).
      split; [cbn; tauto|]. right.
      apply andb_true_iff in Hflick as [_ Hfree].
      apply negb_true_iff in Hfree.
      repeat split; try reflexivity. exact Hfree.
    + eexists. split; [|left; reflexivity]. cbn. tauto.
  - eexists. split; [|left; reflexivity]. run_cases; fields.
Qed.

(** A resumption leaves the result on display alone, unless it is the
    one that ends the flip. *)
Lemma resume_flip_display (i : nat) (s : State) :
  isCustomMode (snd (resume_flip i s)) = isCustomMode s
  /\ (side (snd (resume_flip i s)) = side s
      \/ flipInProgressRef (snd (resume_flip i s)) = false).
Proof.
  unfold resume_flip.
  destruct (flips s !! i) as [t|]; [|cbn; tauto].
  destruct (flipCoin_resume_cases (closure t) (pc t) s)
    as (next & s' & -> & (Hmode & _) & Hcase).
  assert (Hside : side s' = side s \/ flipInProgressRef s' = false).
  { destruct (pc t); repeat match goal with
      | H : _ /\ _ |- _ => destruct H
      | H : _ \/ _ |- _ => destruct H
      | H : exists _, _ |- _ => destruct H
      end; subst; auto. }
  destruct next; cbn; tauto.
Qed.

(** X6.  While a flip is in progress no event changes the mode, and no
    event changes the result on display but the one that ends the flip:
    the button, the reset, the mode switch, the label edits, the motion
    samples and the debounce timer all leave both as they are. *)
Theorem display_frozen_while_flipping (s : State) (e : event) :
  phase s = Flipping ->
  isCustomMode (step s e) = isCustomMode s
  /\ (phase (step s e) = Flipping -> side (step s e) = side s).
Proof.
  rewrite !phase_flipping. intros Href. unfold step.
  destruct e as [r|r|r|text|text|x y z|id|i|ms| | | |]; cbn [handle].
  - rewrite flipCoin_guarded by auto. tauto.
  - run_app. rewrite Href, orb_true_r. tauto.
  - run_app. rewrite Href, orb_true_r. tauto.
  - cbn. tauto.
  - cbn. tauto.
  - unfold bind, gets. destruct (isMounted s); [|tauto].
    destruct (accelerometer_listener_motion x y z s)
      as (s1 & Hframe & [-> | (Hfree & _)]); [|congruence].
    destruct Hframe as (Hside & _ & Hmode & _). tauto.
  - revert Href. open_state s. cbn [flipInProgressRef]. intros ->.
    unfold shake_timeout. run_cases; cbn; tauto.
  - destruct (resume_flip_display i s) as [Hmode [Hside | Hreleased]].
    + tauto.
    + split; [exact Hmode|]. congruence.
  - cbn. tauto.
  - unfold cleanup. run_cases; cbn; tauto.
  - destruct (step_panel_frame s PressHistory eq_refl)
      as (Hside & _ & Hmode & _). unfold step in Hside, Hmode. tauto.
  - destruct (step_panel_frame s CloseHistory eq_refl)
      as (Hside & _ & Hmode & _). unfold step in Hside, Hmode. tauto.
  - destruct (step_panel_frame s PressClearHistory eq_refl)
      as (Hside & _ & Hmode & _). unfold step in Hside, Hmode. tauto.
Qed.

(** X7.  Whatever has happened to the application since its start: when
    no flip is in progress, a press of the flip button of the latest
    render starts one.  The call stops at its first [await] with both
    marks set, and the result on display is still the old one. *)
Theorem idle_button_starts_a_flip (es : list event) (w : Platform) :
  let s := run es (initial_state w) in
  phase s = Idle ->
  let s' := step s (PressFlip (render_of s)) in
  phase s' = Flipping
  /\ isFlipping s' = true
  /\ flips s' = (flips s ++ [mkFlipTask (render_of s) AwaitImpact])%list
  /\ side s' = side s.
Proof.
  cbv zeta. set (s := run es (initial_state w)).
  destruct (run_guard_consistent es _ (initial_guard_consistent w))
    as [Hmarks _].
  fold s in Hmarks. unfold phase at 1. intros Hidle.
  assert (Href : flipInProgressRef s = false)
    by (destruct (flipInProgressRef s); [discriminate | reflexivity]).
  assert (Hr : r_isFlipping (render_of s) = false)
    by (cbn; congruence).
  unfold step. cbn [handle]. unfold flipCoin, bind.
  rewrite (flipCoin_enter_free _ s Href Hr).
  repeat split; reflexivity.
Qed.

(** *** The store *)

(** One step of a suspended flip writes the history slot at most, and
    only at the end of the animation. *)
Lemma flipCoin_resume_store (r : Render) (at_ : flip_pc) (s : State) :
  let s' := snd (flipCoin_resume r at_ s) in
  (forall key, key <> HISTORY_KEY ->
     asyncStorage (platform s') !! key = asyncStorage (platform s) !! key)
  /\ match at_ with
     | AwaitAnimation _ => True
     | _ => asyncStorage (platform s') = asyncStorage (platform s)
     end.
Proof.
  cbv zeta.
  assert (Hsame : forall s' : State,
             asyncStorage (platform s') = asyncStorage (platform s) ->
             forall key : string, key <> HISTORY_KEY ->
             asyncStorage (platform s') !! key
             = asyncStorage (platform s) !! key)
    by (intros s' -> key _; reflexivity).
  destruct at_ as [| |result| |].
  - destruct (resume_impact r s) as (s' & -> & _ & _ & _ & _ & (Hs & _) & _).
    cbn [snd]. auto.
  - destruct (fails_next (platform s)) eqn:Hnext.
    + destruct (resume_start_fail r s Hnext)
        as (s' & -> & _ & _ & _ & _ & (Hs & _) & _).
      cbn [snd]. auto.
    + destruct (resume_start_ok r s Hnext)
        as (s' & -> & _ & _ & _ & _ & Hs & _).
      cbn [snd]. auto.
  - split; [|exact I].
    destruct (fails_next (platform s)) eqn:Hnext.
    + destruct (resume_animation_fail r result s Hnext)
        as (s' & -> & _ & _ & _ & _ & (Hs & _) & _).
      cbn [snd]. auto.
    + destruct (resume_animation_ok r result s Hnext)
        as (ok & w' & s' & Hsave & -> & _ & _ & _ & _ & Hplatform).
      cbn [snd]. rewrite Hplatform.
      destruct (failed_append_store _ _ _ _ Hsave) as [Hkeys _].
      exact Hkeys.
  - change (flipCoin_resume r AwaitSave s)
      with (Return (Some AwaitNotification), s).
    cbn [snd]. auto.
  - destruct (resume_notification r s)
      as (s' & -> & _ & _ & _ & _ & (Hs & _) & _).
    cbn [snd]. auto.
Qed.

Lemma classic_resume (e : event) :
  (exists i, e = Resume i) \/ (forall i, e <> Resume i).
Proof. destruct e; try (right; discriminate). left. eexists. reflexivity. Qed.

(** The events of the panel: opening it reads the slot, and a press of
    Clear History removes the slot unless the removal fails. *)
Lemma step_panel_store (s : State) (e : event) :
  panel_event e = true ->
  asyncStorage (platform (step s e))
  = (if clears e && negb (fails_next (platform s))
     then delete HISTORY_KEY (asyncStorage (platform s))
     else asyncStorage (platform s)).
Proof.
  unfold step. destruct e; try discriminate; intros _;
    cbn [handle clears andb].
  - unfold setHistoryVisible. run_js.
    destruct (historyVisible s); [reflexivity|].
    unfold liftPanel.
    destruct (loadHistory_run (panel_of (set_historyVisible true s)))
      as (w' & -> & Hstore & _).
    exact Hstore.
  - reflexivity.
  - unfold liftPanel.
    destruct (handleClearHistory_run (panel_of s)) as (w' & -> & Hstore).
    cbn [snd platform set_platform HistoryPanel.host] in *.
    rewrite Hstore. cbn [panel_of HistoryPanel.host].
    destruct (fails_next (platform s)); reflexivity.
Qed.

(** Every event but the resumption of a flip and a press of Clear
    History leaves the store as it is. *)
Lemma step_keeps_store (s : State) (e : event) :
  (forall i, e <> Resume i) ->
  clears e = false ->
  asyncStorage (platform (step s e)) = asyncStorage (platform s).
Proof.
  intros He Hclears.
  destruct (panel_event e) eqn:Hpanel.
  { rewrite (step_panel_store s e Hpanel), Hclears. reflexivity. }
  clear Hclears. unfold step.
  destruct e as [r|r|r|text|text|x y z|id|i|ms| | | |]; cbn [handle];
    try discriminate Hpanel.
  - destruct (flipCoin_keeps r s) as (_&_&_&_&_&_&_& ->). reflexivity.
  - run_cases; reflexivity.
  - run_cases; reflexivity.
  - reflexivity.
  - reflexivity.
  - unfold bind, gets. destruct (isMounted s); [|reflexivity].
    destruct (accelerometer_listener_motion x y z s)
      as (s1 & Hframe & [-> | (_ & _ & _ & ->)]).
    + destruct Hframe as (_&_&_&_&_&_&_&_& -> & _). reflexivity.
    + destruct (flipCoin_keeps first_render s1) as (_&_&_&_&_&_&_& ->).
      destruct Hframe as (_&_&_&_&_&_&_&_& -> & _). reflexivity.
  - unfold shake_timeout. run_cases; reflexivity.
  - destruct (He i). reflexivity.
  - reflexivity.
  - unfold cleanup. run_cases; reflexivity.
Qed.

(** X8.  The application and its history panel write no key of the
    store but the history slot, and they write the slot in two places
    only: where a flip, at the end of its animation, commits its
    result, and where the Clear History button of the panel is pressed,
    which removes the slot unless the removal fails.  The button, the
    reset, the mode switch, the label edits, the motion samples, the
    timers, the unmounting, the opening and the closing of the panel
    and the other steps of a flip leave the store as it is. *)
Theorem only_commit_and_clear_write_the_store (s : State) (e : event) :
  (forall key, key <> HISTORY_KEY ->
     asyncStorage (platform (step s e)) !! key
     = asyncStorage (platform s) !! key)
  /\ (commits s e = false -> clears e = false ->
      asyncStorage (platform (step s e)) = asyncStorage (platform s))
  /\ (clears e = true ->
      asyncStorage (platform (step s e))
      = (if fails_next (platform s) then asyncStorage (platform s)
         else delete HISTORY_KEY (asyncStorage (platform s)))).
Proof.
  destruct (classic_resume e) as [[i ->] | He].
  - split; [|split; [|discriminate]].
    + unfold step. cbn [handle]. unfold resume_flip.
      destruct (flips s !! i) as [t|]; [|reflexivity].
      pose proof (flipCoin_resume_store (closure t) (pc t) s) as [Hkeys _].
      cbv zeta in Hkeys.
      destruct (flipCoin_resume (closure t) (pc t) s) as [[[at'|]|err] s'];
        cbn [snd platform set_flips] in *; exact Hkeys.
    + intros Hcommits _. revert Hcommits.
      unfold step, commits. cbn [handle]. unfold resume_flip.
      destruct (flips s !! i) as [t|]; [|reflexivity].
      pose proof (flipCoin_resume_store (closure t) (pc t) s) as [_ Hrest].
      cbv zeta in Hrest.
      destruct (flipCoin_resume (closure t) (pc t) s) as [[[at'|]|err] s'];
        cbn [snd platform set_flips] in *;
        destruct (pc t); (discriminate || (intros _; exact Hrest)).
  - destruct (clears e) eqn:Hclears.
    + assert (Hpanel : panel_event e = true)
        by (destruct e; try discriminate Hclears; reflexivity).
      rewrite (step_panel_store s e Hpanel), Hclears. cbn [andb].
      split; [|split; [discriminate|]].
      * intros key Hkey.
        destruct (fails_next (platform s)); cbn [negb]; [reflexivity|].
        apply lookup_delete_ne. congruence.
      * intros _. destruct (fails_next (platform s)); reflexivity.
    + rewrite (step_keeps_store s e He Hclears).
      split; [reflexivity|]. split; [reflexivity | discriminate].
Qed.

(** *** The result on display *)

Lemma sides_is_side (custom : bool) (result : string) :
  In result (sides custom) -> is_side result = true.
Proof.
  destruct custom; cbn; intros [<- | [<- | []]]; reflexivity.
Qed.

Lemma flipCoin_flips (r : Render) (s : State) :
  flips (snd (flipCoin r s)) = flips s
  \/ flips (snd (flipCoin r s))
     = (flips s ++ [mkFlipTask r AwaitImpact])%list.
Proof.
  destruct (flipInProgressRef s) eqn:Href;
    [rewrite flipCoin_guarded by auto; auto|].
  destruct (r_isFlipping r) eqn:Hr;
    [rewrite flipCoin_guarded by auto; auto|].
  unfold flipCoin, bind. rewrite (flipCoin_enter_free r s Href Hr).
  right. reflexivity.
Qed.

Lemma flipCoin_results_valid (r : Render) (s : State) :
  results_valid s -> results_valid (snd (flipCoin r s)).
Proof.
  intros [Hside Hflips]. unfold results_valid.
  destruct (flipCoin_keeps r s) as (-> & _).
  split; [exact Hside|].
  destruct (flipCoin_flips r s) as [-> | ->]; [exact Hflips|].
  apply Forall_app. split; [exact Hflips|].
  constructor; [exact I | constructor].
Qed.

Lemma resume_flip_results_valid (i : nat) (s : State) :
  results_valid s -> results_valid (snd (resume_flip i s)).
Proof.
  intros [Hside Hflips]. unfold resume_flip.
  destruct (flips s !! i) as [t|] eqn:Hi; [|split; assumption].
  assert (Ht : drawn t)
    by (eapply Forall_lookup_1; [exact Hflips | exact Hi]).
  destruct (flipCoin_resume_cases (closure t) (pc t) s)
    as (next & s' & -> & Hsame & Hcase).
  destruct Hsame as (_ & _ & _ & _ & _ & _ & _ & _ & Hflips' & _).
  assert (Hside' : match side s' with
                   | Some x => is_side x = true
                   | None => True
                   end).
  { unfold drawn in Ht.
    destruct (pc t); repeat match goal with
      | H : _ /\ _ |- _ => destruct H
      | H : _ \/ _ |- _ => destruct H
      | H : exists _, _ |- _ => destruct H
      end; subst;
      repeat match goal with
        | H : side s' = _ |- _ => rewrite H
        end; assumption. }
  assert (Hnext : forall at', next = Some at' ->
                              drawn (mkFlipTask (closure t) at')).
  { intros at' ->. unfold drawn. cbn [pc].
    destruct (pc t); repeat match goal with
      | H : _ /\ _ |- _ => destruct H
      | H : _ \/ _ |- _ => destruct H
      | H : exists _, _ |- _ => destruct H
      end;
      repeat match goal with
        | H : Some _ = Some _ |- _ => injection H as ?
        end; subst; try discriminate; try exact I.
    eapply sides_is_side; eassumption. }
  destruct next as [at'|]; cbn [snd]; split; cbn;
    try exact Hside'; rewrite Hflips'.
  - apply Forall_insert; [exact Hflips | apply Hnext; reflexivity].
  - apply Forall_delete, Hflips.
Qed.

Lemma step_results_valid (s : State) (e : event) :
  results_valid s -> results_valid (step s e).
Proof.
  intros Hs.
  assert (Hframe : forall s',
             (side s' = side s \/ side s' = None) ->
             flips s' = flips s -> results_valid s').
  { intros s' Hside Hflips. destruct Hs as [Hs1 Hs2].
    unfold results_valid. rewrite Hflips. split; [|exact Hs2].
    destruct Hside as [-> | ->]; [exact Hs1 | exact I]. }
  destruct (panel_event e) eqn:Hpanel.
  { panel_facts s e Hpanel. apply Hframe; auto. }
  unfold step.
  destruct e as [r|r|r|text|text|x y z|id|i|ms| | | |]; cbn [handle];
    try discriminate Hpanel.
  - apply flipCoin_results_valid, Hs.
  - apply Hframe; run_cases; cbn; auto.
  - apply Hframe; run_cases; cbn; auto.
  - apply Hframe; cbn; auto.
  - apply Hframe; cbn; auto.
  - unfold bind, gets. destruct (isMounted s); [|exact Hs].
    destruct (accelerometer_listener_motion x y z s)
      as (s1 & Hmotion & [-> | (_ & _ & _ & ->)]).
    + destruct Hmotion as (Hside & _ & _ & _ & _ & _ & _ & Hflips & _).
      apply Hframe; auto.
    + apply flipCoin_results_valid.
      destruct Hmotion as (Hside & _ & _ & _ & _ & _ & _ & Hflips & _).
      apply Hframe; auto.
  - apply Hframe; unfold shake_timeout; run_cases; cbn; auto.
  - apply resume_flip_results_valid, Hs.
  - exact Hs.
  - apply Hframe; unfold cleanup; run_cases; cbn; auto.
Qed.

Lemma run_results_valid (es : list event) (s : State) :
  results_valid s -> results_valid (run es s).
Proof.
  revert s; induction es as [|e es IH]; intros s Hs; [exact Hs|].
  apply IH, step_results_valid, Hs.
Qed.

Lemma initial_results_valid (w : Platform) : results_valid (initial_state w).
Proof. split; [exact I | constructor]. Qed.

Lemma is_side_In (x : string) :
  is_side x = true -> In x ["Heads"; "Tails"; "A"; "B"].
Proof.
  unfold is_side. rewrite !orb_true_iff, !String.eqb_eq. cbn. intuition.
Qed.

Lemma length_trim (s : string) :
  (String.length (JsString.trim s) <= String.length s)%nat.
Proof.
  unfold JsString.trim.
  assert (Hstart : forall t,
             (String.length (JsString.trimStart t) <= String.length t)%nat).
  { induction t as [|c t IH]; cbn; [lia|].
    destruct (JsString.is_white_space c); cbn; lia. }
  assert (Hend : forall t,
             (String.length (JsString.trimEnd t) <= String.length t)%nat).
  { induction t as [|c t IH]; cbn; [lia|].
    destruct (JsString.trimEnd t);
      [destruct (JsString.is_white_space c)|]; cbn in *; lia. }
  specialize (Hstart s). specialize (Hend (JsString.trimStart s)). lia.
Qed.

Lemma truthy_length (s : string) :
  JsString.truthy s = true -> (1 <= String.length s)%nat.
Proof. destruct s; [discriminate | cbn; lia]. Qed.

(** The label of a side: the trimmed custom label when something is
    left of it, the name of the side otherwise. *)
Lemma getDisplayLabel_side (x customSideA customSideB : string) :
  is_side x = true ->
  getDisplayLabel (Some x) customSideA customSideB
  = if String.eqb x "A" then label_or customSideA "A"
    else if String.eqb x "B" then label_or customSideB "B"
    else x.
Proof.
  intros Hx. rewrite !label_or_spec.
  apply is_side_In in Hx. cbn in Hx.
  destruct Hx as [<- | [<- | [<- | [<- | []]]]]; cbn -[JsString.trim];
    try reflexivity;
    rewrite truthy_trim; reflexivity.
Qed.

(** X9.  Whatever happens to the application from its start, the result
    on display is none or one of ["Heads"], ["Tails"], ["A"], ["B"]:
    no flip, however it ends, commits anything else. *)
Theorem result_is_a_side (es : list event) (w : Platform) :
  let s := run es (initial_state w) in
  side s = None
  \/ exists x, side s = Some x /\ In x ["Heads"; "Tails"; "A"; "B"].
Proof.
  cbv zeta.
  destruct (run_results_valid es _ (initial_results_valid w)) as [Hside _].
  destruct (side (run es (initial_state w))) as [x|]; [|left; reflexivity].
  right. exists x. split; [reflexivity | apply is_side_In, Hside].
Qed.

(** X10.  Whatever happens to the application from its start, the label
    that [getDisplayLabel] computes has between 1 and 150 characters:
    it is ["Ready"], the name of a side, or a custom label that has
    been cut to 150 characters and trimmed. *)
Theorem display_label_fits (es : list event) (w : Platform) :
  let s := run es (initial_state w) in
  let shown := getDisplayLabel (side s) (customSideA s) (customSideB s) in
  (1 <= String.length shown <= 150)%nat.
Proof.
  cbv zeta.
  destruct (run_results_valid es _ (initial_results_valid w)) as [Hside _].
  destruct (run_labels_bounded es (initial_state w)) as [HA HB];
    [split; cbn; lia|].
  set (s := run es (initial_state w)) in *.
  destruct (side s) as [x|]; [|cbn; lia].
  rewrite (getDisplayLabel_side _ _ _ Hside), !label_or_spec.
  pose proof (length_trim (customSideA s)).
  pose proof (length_trim (customSideB s)).
  apply is_side_In in Hside. cbn in Hside.
  destruct Hside as [<- | [<- | [<- | [<- | []]]]]; cbn -[JsString.trim];
    try lia.
  - destruct (JsString.truthy (JsString.trim (customSideA s))) eqn:Ht;
      [apply truthy_length in Ht|cbn]; lia.
  - destruct (JsString.truthy (JsString.trim (customSideB s))) eqn:Ht;
      [apply truthy_length in Ht|cbn]; lia.
Qed.

(** X11.  The label on the coin and the result text agree: whenever the
    component shows a result, [getSideLabel] of the coin computes the
    label that [getDisplayLabel] computes; and while there is no
    result, the coin is labelled ["Heads"]. *)
Theorem coin_shows_the_result (s : State) :
  match resultText s with
  | Some shown => coinLabel s = shown
  | None => coinLabel s = "Heads"
  end.
Proof.
  unfold resultText, coinLabel, coin_side, Coin.displaySide.
  destruct (side s) as [x|]; [|reflexivity].
  destruct (JsString.truthy x) eqn:Hx; [|reflexivity].
  rewrite Hx. unfold Coin.getSideLabel, getDisplayLabel. rewrite Hx.
  cbn [negb].
  destruct (String.eqb x "A") eqn:HxA.
  - apply String.eqb_eq in HxA. subst x.
    change (String.eqb "A" "B") with false. cbn [andb].
    destruct (JsString.truthy (customSideA s)
              && JsString.truthy (JsString.trim (customSideA s)));
      reflexivity.
  - cbn [andb]. destruct (String.eqb x "B") eqn:HxB; cbn [andb];
      [|reflexivity].
    apply String.eqb_eq in HxB. subst x.
    destruct (JsString.truthy (customSideB s)
              && JsString.truthy (JsString.trim (customSideB s)));
      reflexivity.
Qed.

(** *** The debounce timer *)

Lemma one_timer_frame (s s' : State) :
  timers s' = timers s -> shakeTimeoutRef s' = shakeTimeoutRef s ->
  one_timer s -> one_timer s'.
Proof. unfold one_timer. intros -> ->. trivial. Qed.

Lemma filter_other_nil (id : nat) :
  filter (fun i : nat => i <> id) ([] : list nat) = [].
Proof. reflexivity. Qed.

Lemma filter_other_self (id : nat) :
  filter (fun i : nat => i <> id) [id] = [].
Proof. rewrite filter_cons_False by (intros Hne; apply Hne; reflexivity).
  reflexivity. Qed.

Lemma accelerometer_listener_one_timer (x y z : reading) (s : State) :
  one_timer s -> one_timer (snd (accelerometer_listener x y z s)).
Proof.
  intros Hs.
  destruct (accelerometer_listener_motion x y z s)
    as (s1 & _ & [Hrun | (_ & Htimers & Hhandle & ->)]).
  2: { destruct (flipCoin_keeps first_render s1)
         as (_ & _ & _ & _ & _ & Htimers' & Hhandle' & _).
       eapply one_timer_frame; [| |exact Hs]; congruence. }
  clear Hrun s1.
  remember (snd (accelerometer_listener x y z s)) as s' eqn:Hs'.
  revert Hs Hs'. unfold one_timer, accelerometer_listener.
  destruct x as [x|], y as [y|], z as [z|];
    try (intros Hs ->; cbn; exact Hs).
  destruct s as [sd flipping custom labelA labelB handle lastShake lastFlick
                   prevY inProgress mounted tasks pending next
                   visible items loading w].
  cbn [timers shakeTimeoutRef]. intros Hs.
  unfold liftP. run_js.
  destruct ((0.8 <? y - prevY)%float && (4000 <? now w - lastFlick)%Z
            && negb inProgress).
  - destruct mounted; run_cases; intros ->; cbn; exact Hs.
  - run_app.
    destruct ((1.5 <? sqrt (x * x + y * y + z * z))%float
              && (1000 <? now w - lastShake)%Z); [|intros ->; cbn; exact Hs].
    destruct handle as [id|]; run_app; intros ->; right; exists next; cbn.
    + destruct Hs as [-> | (id' & -> & [= ->])];
        rewrite ?filter_other_nil, ?filter_other_self; split; reflexivity.
    + destruct Hs as [-> | (id' & _ & [=])]. split; reflexivity.
Qed.

Lemma shake_timeout_one_timer (id : nat) (s : State) :
  one_timer s -> one_timer (snd (shake_timeout id s)).
Proof.
  unfold one_timer, shake_timeout. open_state s.
  cbn [timers shakeTimeoutRef]. intros Hs. run_js.
  destruct (bool_decide (id ∈ pending)) eqn:Hin; [|cbn; exact Hs].
  apply bool_decide_eq_true in Hin.
  destruct Hs as [-> | (id' & -> & ->)]; [apply elem_of_nil in Hin as []|].
  apply list_elem_of_singleton in Hin as ->.
  run_app. destruct (decide (id' <> id')) as [Hne|_]; [congruence|].
  destruct mounted; run_cases; left; reflexivity.
Qed.

Lemma cleanup_no_timer (s : State) :
  one_timer s ->
  timers (snd (cleanup s)) = [] /\ isMounted (snd (cleanup s)) = false.
Proof.
  unfold one_timer, cleanup. open_state s.
  cbn [timers shakeTimeoutRef]. intros Hs. run_app.
  destruct handle as [id|]; run_app.
  - destruct Hs as [-> | (id' & -> & [= ->])];
      rewrite ?filter_other_nil, ?filter_other_self; split; reflexivity.
  - destruct Hs as [-> | (id' & _ & [=])]. split; reflexivity.
Qed.

Lemma resume_flip_timers (i : nat) (s : State) :
  timers (snd (resume_flip i s)) = timers s
  /\ shakeTimeoutRef (snd (resume_flip i s)) = shakeTimeoutRef s
  /\ isMounted (snd (resume_flip i s)) = isMounted s.
Proof.
  unfold resume_flip.
  destruct (flips s !! i) as [t|]; [|cbn; tauto].
  destruct (flipCoin_resume_cases (closure t) (pc t) s)
    as (next & s' & -> & Hsame & _).
  destruct Hsame as (_ & _ & _ & Hhandle & _ & _ & _ & Hmounted & _
                     & Htimers & _).
  destruct next; cbn; tauto.
Qed.

Lemma step_one_timer (s : State) (e : event) :
  one_timer s -> one_timer (step s e).
Proof.
  intros Hs.
  destruct (panel_event e) eqn:Hpanel.
  { panel_facts s e Hpanel.
    exact (one_timer_frame _ _ Hp_timers Hp_handle Hs). }
  unfold step.
  destruct e as [r|r|r|text|text|x y z|id|i|ms| | | |]; cbn [handle];
    try discriminate Hpanel.
  - destruct (flipCoin_keeps r s) as (_ & _ & _ & _ & _ & Ht & Hh & _).
    exact (one_timer_frame _ _ Ht Hh Hs).
  - eapply one_timer_frame; [| |exact Hs]; run_cases; reflexivity.
  - eapply one_timer_frame; [| |exact Hs]; run_cases; reflexivity.
  - exact Hs.
  - exact Hs.
  - unfold bind, gets. destruct (isMounted s); [|exact Hs].
    apply accelerometer_listener_one_timer, Hs.
  - apply shake_timeout_one_timer, Hs.
  - destruct (resume_flip_timers i s) as (Ht & Hh & _).
    exact (one_timer_frame _ _ Ht Hh Hs).
  - exact Hs.
  - left. apply cleanup_no_timer, Hs.
Qed.

Lemma run_one_timer (es : list event) (s : State) :
  one_timer s -> one_timer (run es s).
Proof.
  revert s; induction es as [|e es IH]; intros s Hs; [exact Hs|].
  apply IH, step_one_timer, Hs.
Qed.

(** After the cleanup no timer is armed and none fires. *)
Lemma step_unmounted (s : State) (e : event) :
  isMounted s = false -> timers s = [] ->
  isMounted (step s e) = false /\ timers (step s e) = [].
Proof.
  intros Hmounted Htimers.
  destruct (panel_event e) eqn:Hpanel.
  { panel_facts s e Hpanel. split; congruence. }
  unfold step.
  destruct e as [r|r|r|text|text|x y z|id|i|ms| | | |]; cbn [handle];
    try discriminate Hpanel.
  - destruct (flipCoin_keeps r s) as (_ & _ & _ & _ & -> & -> & _). tauto.
  - run_cases; cbn; tauto.
  - run_cases; cbn; tauto.
  - cbn; tauto.
  - cbn; tauto.
  - unfold bind, gets. rewrite Hmounted. tauto.
  - unfold shake_timeout, bind, gets. rewrite Htimers. cbn. tauto.
  - destruct (resume_flip_timers i s) as (-> & _ & ->). tauto.
  - cbn; tauto.
  - unfold cleanup. revert Hmounted Htimers. open_state s.
    cbn [isMounted timers]. intros -> ->. run_cases; cbn; tauto.
Qed.

Lemma run_unmounted (es : list event) (s : State) :
  isMounted s = false -> timers s = [] ->
  isMounted (run es s) = false /\ timers (run es s) = [].
Proof.
  revert s; induction es as [|e es IH]; intros s Hm Ht; [tauto|].
  destruct (step_unmounted s e Hm Ht) as [Hm' Ht'].
  exact (IH _ Hm' Ht').
Qed.

(** X12.  Whatever happens to the application from its start, at most
    one debounce timer of the shake detection is pending: the listener
    clears the timer it armed before it arms a new one. *)
Theorem at_most_one_shake_timer (es : list event) (w : Platform) :
  (length (timers (run es (initial_state w))) <= 1)%nat.
Proof.
  destruct (run_one_timer es (initial_state w)) as [-> | (id & -> & _)];
    [left; reflexivity | |]; cbn; lia.
Qed.

(** X13.  Once the component has unmounted, whatever happened before and
    whatever happens after: no debounce timer is pending, and a motion
    sample or a timer that still arrives changes nothing.  The cleanup
    of the effect leaves nothing of the motion detection behind. *)
Theorem unmount_ends_motion_detection
  (es es' : list event) (w : Platform) (x y z : reading) (id : nat) :
  let s := run (es ++ Unmount :: es') (initial_state w) in
  isMounted s = false
  /\ timers s = []
  /\ step s (Accelerometer x y z) = s
  /\ step s (ShakeTimeout id) = s.
Proof.
  cbv zeta. rewrite run_app_events, run_cons.
  assert (Hone : one_timer (run es (initial_state w)))
    by (apply run_one_timer; left; reflexivity).
  destruct (cleanup_no_timer _ Hone) as [Htimers Hmounted].
  destruct (run_unmounted es' (step (run es (initial_state w)) Unmount))
    as [Hm Ht]; [exact Hmounted | exact Htimers |].
  set (s := run es' (step (run es (initial_state w)) Unmount)) in *.
  split; [exact Hm|]. split; [exact Ht|].
  unfold step, handle, shake_timeout, bind, gets.
  rewrite Hm, Ht. split; reflexivity.
Qed.

(** *** The shake detection *)

(** The debounce callback of a pending timer. *)
Lemma shake_timeout_pending (id : nat) (s : State) :
  id ∈ timers s ->
  shake_timeout id s
  = (let s1 := set_timers (filter (fun i : nat => i <> id) (timers s)) s in
     if isMounted s then resetResult first_render s1 else (Return tt, s1)).
Proof.
  intros Hin. unfold shake_timeout, bind, gets.
  rewrite bool_decide_eq_true_2 by exact Hin.
  unfold clearTimeout, modify, ret. cbv zeta.
  destruct (isMounted s) eqn:Hmounted; cbn [isMounted set_timers];
    rewrite Hmounted; reflexivity.
Qed.

(** The state after a sample that the listener takes as a shake. *)
Lemma shake_armed (x y z : float) (s : State) :
  (0.8 <? y - prevYRef s)%float
  && (4000 <? now (platform s) - lastFlickTimeRef s)%Z
  && negb (flipInProgressRef s) = false ->
  (1.5 <? sqrt (x * x + y * y + z * z))%float = true ->
  (1000 < now (platform s) - lastShakeTimeRef s)%Z ->
  snd (accelerometer_listener (Reading x) (Reading y) (Reading z) s)
  = set_shakeTimeoutRef (Some (nextTimer s))
      (set_nextTimer (S (nextTimer s))
         (set_timers
            (match shakeTimeoutRef s with
             | Some old => filter (fun i : nat => i <> old) (timers s)
             | None => timers s
             end ++ [nextTimer s])%list
            (set_lastShakeTimeRef (now (platform s)) (set_prevYRef y s)))).
Proof.
  intros Hflick Hshake Helapsed.
  apply Z.ltb_lt in Helapsed.
  revert Hflick Hshake Helapsed. open_state s.
  cbn [isMounted prevYRef platform now lastFlickTimeRef flipInProgressRef
         lastShakeTimeRef side flips].
  intros Hflick Hshake Helapsed.
  unfold accelerometer_listener, liftP. run_js.
  rewrite Hflick. run_js. rewrite Hshake, Helapsed. cbn [andb].
  destruct handle as [old|]; reflexivity.
Qed.

(** X14.  A sample that reaches the mounted listener, is not taken as a
    flick, has a magnitude that tests greater than 1.5, as the code
    computes it in double precision, and comes more than 1000 ms after
    the last shake, arms the debounce timer and records the time of the
    shake; the result on display is still there.  When that timer
    fires, the result is cleared, unless a flip is in progress: then
    it stays.  Either way the timer is no longer pending. *)
Theorem shake_resets_result (x y z : float) (s : State) :
  isMounted s = true ->
  (0.8 <? y - prevYRef s)%float
  && (4000 <? now (platform s) - lastFlickTimeRef s)%Z
  && negb (flipInProgressRef s) = false ->
  (1.5 <? sqrt (x * x + y * y + z * z))%float = true ->
  (1000 < now (platform s) - lastShakeTimeRef s)%Z ->
  let s1 := step s (Accelerometer (Reading x) (Reading y) (Reading z)) in
  exists id,
    shakeTimeoutRef s1 = Some id
    /\ id ∈ timers s1
    /\ lastShakeTimeRef s1 = now (platform s)
    /\ side s1 = side s
    /\ flips s1 = flips s
    /\ let s2 := step s1 (ShakeTimeout id) in
       side s2 = (if flipInProgressRef s then side s else None)
       /\ id ∉ timers s2.
Proof.
  intros Hmounted Hflick Hshake Helapsed. cbv zeta.
  assert (Hs1 : step s (Accelerometer (Reading x) (Reading y) (Reading z))
                = snd (accelerometer_listener
                         (Reading x) (Reading y) (Reading z) s))
    by (unfold step; cbn [handle]; unfold bind, gets; rewrite Hmounted;
        reflexivity).
  rewrite Hs1, (shake_armed x y z s Hflick Hshake Helapsed). clear Hs1.
  exists (nextTimer s).
  set (armed := (match shakeTimeoutRef s with
                   | Some old => filter (fun i : nat => i <> old) (timers s)
                   | None => timers s
                   end ++ [nextTimer s])%list).
  assert (Hin : nextTimer s ∈ armed)
    by (apply elem_of_app; right; apply list_elem_of_singleton; reflexivity).
  split; [reflexivity|]. split; [exact Hin|].
  split; [reflexivity|]. split; [reflexivity|]. split; [reflexivity|].
  unfold step. cbn [handle].
  rewrite shake_timeout_pending by exact Hin.
  revert Hmounted Hin. clearbody armed.
  open_state s. cbn [isMounted nextTimer]. intros -> Hin.
  assert (Hout : next ∉ filter (fun i : nat => i <> next) armed).
  { intros Hl. apply list_elem_of_filter in Hl as [Hne _].
    apply Hne. reflexivity. }
  cbv zeta.
  cbn [isMounted timers set_shakeTimeoutRef set_nextTimer set_timers
         set_lastShakeTimeRef set_prevYRef platform now].
  unfold resetResult, bind, gets.
  cbn [flipInProgressRef r_isFlipping first_render orb].
  destruct inProgress; split; try reflexivity; exact Hout.
Qed.

(** X15.  A sample that is not taken as a flick and whose magnitude, as
    the code computes it in double precision, does not test greater
    than 1.5, or that comes within 1000 ms of the last shake, is
    recorded and nothing else: no timer is armed, the result stays. *)
Theorem weak_or_early_shake_is_dropped (x y z : float) (s : State) :
  (0.8 <? y - prevYRef s)%float
  && (4000 <? now (platform s) - lastFlickTimeRef s)%Z
  && negb (flipInProgressRef s) = false ->
  (1.5 <? sqrt (x * x + y * y + z * z))%float = false
  \/ (now (platform s) - lastShakeTimeRef s <= 1000)%Z ->
  snd (accelerometer_listener (Reading x) (Reading y) (Reading z) s)
  = set_prevYRef y s.
Proof.
  intros Hflick Hweak.
  assert (Hshake : (1.5 <? sqrt (x * x + y * y + z * z))%float
                   && (1000 <? now (platform s) - lastShakeTimeRef s)%Z
                   = false).
  { apply andb_false_iff. destruct Hweak as [Hweak | Hearly].
    - left. exact Hweak.
    - right. apply Z.ltb_ge, Hearly. }
  revert Hflick Hshake. open_state s.
  cbn [isMounted prevYRef platform now lastFlickTimeRef flipInProgressRef
         lastShakeTimeRef].
  intros Hflick Hshake.
  unfold accelerometer_listener, liftP. run_js.
  rewrite Hflick. run_js. rewrite Hshake. reflexivity.
Qed.

(** The listener records the Y component of every sample it is given. *)
Lemma accelerometer_listener_prevY (x y z : float) (s : State) :
  prevYRef (snd (accelerometer_listener
                   (Reading x) (Reading y) (Reading z) s)) = y.
Proof.
  remember (snd (accelerometer_listener
                   (Reading x) (Reading y) (Reading z) s)) as s' eqn:Hs'.
  revert Hs'. unfold accelerometer_listener. open_state s.
  unfold liftP. run_js.
  destruct ((0.8 <? y - prevY)%float && (4000 <? clock - lastFlick)%Z
            && negb inProgress).
  - destruct mounted; run_cases; intros ->; reflexivity.
  - run_cases; intros ->; reflexivity.
Qed.

(** A sample without a spike of Y starts no flip. *)
Lemma no_spike_no_flip (x y z : float) (s : State) :
  (0.8 <? y - prevYRef s)%float = false ->
  flips (snd (accelerometer_listener
                (Reading x) (Reading y) (Reading z) s)) = flips s.
Proof.
  intros Hflick.
  remember (snd (accelerometer_listener
                   (Reading x) (Reading y) (Reading z) s)) as s' eqn:Hs'.
  revert Hflick Hs'. unfold accelerometer_listener. open_state s.
  cbn [prevYRef]. intros Hflick.
  unfold liftP. run_js. rewrite Hflick. cbn [andb].
  run_cases; intros ->; reflexivity.
Qed.

(** X16.  The flick detection reacts to a rise of Y from one sample to
    the next, not to its level: after any sample, a sample whose Y, less
    the Y of that sample, does not test greater than 0.8 in double
    precision starts no flip, however long after the last flick it
    comes. *)
Theorem steady_tilt_starts_no_flip (x y z x' y' z' : float) (s : State) :
  (0.8 <? y' - y)%float = false ->
  let s1 := step s (Accelerometer (Reading x) (Reading y) (Reading z)) in
  flips (step s1 (Accelerometer (Reading x') (Reading y') (Reading z')))
  = flips s1.
Proof.
  intros Hdelta. cbv zeta.
  assert (Hstep : forall (a b c : float) (s0 : State),
             step s0 (Accelerometer (Reading a) (Reading b) (Reading c))
             = if isMounted s0
               then snd (accelerometer_listener
                           (Reading a) (Reading b) (Reading c) s0)
               else s0)
    by (intros a b c s0; unfold step; cbn [handle]; unfold bind, gets;
        destruct (isMounted s0); reflexivity).
  rewrite !Hstep.
  destruct (isMounted s) eqn:Hmounted; [|rewrite Hmounted; reflexivity].
  set (s1 := snd (accelerometer_listener
                    (Reading x) (Reading y) (Reading z) s)).
  destruct (isMounted s1); [|reflexivity].
  apply no_spike_no_flip. unfold s1.
  rewrite accelerometer_listener_prevY. exact Hdelta.
Qed.

(** *** The mode switch and the reset *)

(** X17.  With no flip in progress, a press of the mode switch changes
    the mode and clears the result; a second press, by the next render,
    brings the mode back.  Both labels and the store are kept through
    the switches, and a second press that the first render still
    receives changes nothing more. *)
Theorem toggle_twice_restores_mode (s : State) :
  flipInProgressRef s = false ->
  isFlipping s = false ->
  let s1 := step s (PressToggleMode (render_of s)) in
  let s2 := step s1 (PressToggleMode (render_of s1)) in
  isCustomMode s1 = negb (isCustomMode s)
  /\ side s1 = None
  /\ isCustomMode s2 = isCustomMode s
  /\ side s2 = None
  /\ customSideA s2 = customSideA s
  /\ customSideB s2 = customSideB s
  /\ platform s2 = platform s
  /\ step s1 (PressToggleMode (render_of s)) = s1.
Proof.
  open_state s. cbn [flipInProgressRef isFlipping]. intros -> ->.
  cbv zeta. unfold step. cbn. rewrite negb_involutive.
  repeat split; reflexivity.
Qed.

(** *** The gesture on the coin *)

(** X18.  A flick of the coin faster than 500 upwards does what a press
    of the flip button does, and any other end of the gesture does
    nothing: the test of [isFlipping] that [Coin] makes is one that
    [flipCoin] makes again. *)
Theorem coin_flick_is_a_press (r : Render) (velocityY : Q) (s : State) :
  coin_onEnd r velocityY s
  = if Qltb velocityY (-500) then handle (PressFlip r) s else (Return tt, s).
Proof.
  unfold coin_onEnd, Coin.panGesture_onEnd. cbn [handle].
  destruct (Qltb velocityY (-500)); [|reflexivity].
  destruct (r_isFlipping r) eqn:Hr; [|reflexivity].
  cbn [andb negb]. rewrite flipCoin_guarded by auto. reflexivity.
Qed.

(** *** A flip from the button to the history *)

Lemma historyLabel_shown (r : Render) (result : string) :
  JsString.truthy result = true ->
  historyLabel r result
  = getDisplayLabel (Some result) (r_customSideA r) (r_customSideB r).
Proof.
  intros Hresult. unfold historyLabel, getDisplayLabel.
  rewrite Hresult. reflexivity.
Qed.

(** The label that a flip writes is not empty and is trimmed. *)
Lemma historyLabel_clean (r : Render) (x : Q) :
  let result := outcome_of r x in
  is_side result = true
  /\ JsString.truthy (historyLabel r result) = true
  /\ JsString.trim (historyLabel r result) = historyLabel r result.
Proof.
  cbv zeta. unfold outcome_of.
  destruct (r_isCustomMode r), (Qltb x 0.5);
    rewrite ?historyLabel_A, ?historyLabel_B;
    try (split; [reflexivity|];
         destruct (label_or_trimmed (r_customSideA r) "A") as [Ht Hn];
         try reflexivity; tauto);
    try (split; [reflexivity|];
         destruct (label_or_trimmed (r_customSideB r) "B") as [Ht Hn];
         try reflexivity; tauto);
    repeat split; reflexivity.
Qed.

(** A call of [flipCoin] that passes the guard, run to its end with no
    failure: it commits the side drawn, and the history then starts
    with the label of that side, by the labels the call saw. *)
Lemma flip_commits_and_logs (r : Render) (s : State) :
  round_trips ->
  flipInProgressRef s = false ->
  r_isFlipping r = false ->
  faults (platform s) = [] ->
  let result := outcome_of r (next_random (platform s)) in
  exists s' w',
    flipCoin_to_end r s = (Return tt, s')
    /\ side s' = Some result
    /\ flipInProgressRef s' = false
    /\ customSideA s' = customSideA s
    /\ customSideB s' = customSideB s
    /\ now (platform s') = now (platform s)
    /\ getHistory (platform s')
       = (Return (take 10 (history_entry (historyLabel r result)
                             (now (platform s))
                           :: stored_log (platform s))),
          w').
Proof.
  intros Hrt Href Hr Hplan. cbv zeta.
  set (result := outcome_of r (next_random (platform s))).
  set (s0 := set_isFlipping true (set_flipInProgressRef true s)).
  assert (Hplatform0 : platform s0 = platform s) by reflexivity.
  destruct (resume_impact r s0)
    as (s1 & Hstep1 & (_ & HA1 & HB1 & _) & _ & _ & _
        & (Hstore1 & Hnow1 & Hrandoms1) & Hfaults1).
  rewrite Hplatform0, ?Hplan in *. cbn [tail] in Hfaults1.
  destruct (resume_start_ok r s1)
    as (s2 & Hstep2 & (_ & HA2 & HB2 & _) & _ & _ & _
        & Hstore2 & Hnow2 & Hfaults2).
  { unfold fails_next. rewrite Hfaults1. reflexivity. }
  rewrite Hfaults1 in Hfaults2. cbn [tail] in Hfaults2.
  assert (Hdraw : next_random (platform s1) = next_random (platform s))
    by (unfold next_random; rewrite Hrandoms1; reflexivity).
  rewrite Hdraw in Hstep2. fold result in Hstep2.
  destruct (historyLabel_clean r (next_random (platform s)))
    as (_ & Htruthy & Htrim).
  fold result in Htruthy, Htrim.
  destruct (resume_animation_ok r result s2)
    as (ok & w3 & s3 & Hsave & Hstep3 & (_ & HA3 & HB3 & _) & Hside3 & _
        & Href3 & Hplatform3).
  { unfold fails_next. rewrite Hfaults2. reflexivity. }
  rewrite Hfaults2 in Hsave. cbn [tail] in Hsave.
  destruct (saveFlipToHistory_no_fault (historyLabel r result)
              (set_faults [] (platform s2)) Htruthy eq_refl)
    as (w3' & Hsave' & Hnow3 & Hfaults3 & _ & Hstore3).
  rewrite Hsave' in Hsave. injection Hsave as <- <-.
  destruct (flipCoin_from_committed 0 r s3)
    as (s4 & Hstep4 & (_ & HA4 & HB4 & _) & Hside4 & _ & Href4
        & (Hstore4 & Hnow4 & _) & Hfaults4).
  rewrite Hplatform3, ?Hfaults3 in *. cbn [tail] in Hfaults4.
  destruct (getHistory_no_fault (platform s4) Hfaults4)
    as (w' & Hget & _).
  exists s4, w'. split.
  { unfold flipCoin_to_end, bind.
    rewrite (flipCoin_enter_free r s Href Hr). fold s0.
    rewrite flipCoin_from_step, Hstep1, flipCoin_from_step, Hstep2,
      flipCoin_from_step, Hstep3.
    exact Hstep4. }
  split; [congruence|]. split; [congruence|].
  split; [rewrite HA4, HA3, HA2, HA1; reflexivity|].
  split; [rewrite HB4, HB3, HB2, HB1; reflexivity|].
  cbn [now asyncStorage set_faults] in *.
  split; [congruence|].
  rewrite Hget. unfold history_slot at 1.
  rewrite Hstore4, Hstore3, lookup_insert_eq.
  rewrite (readAll_spec_stringify _ Hrt), appended_cons, Htrim.
  unfold stored_log, history_slot.
  cbn [asyncStorage set_faults].
  rewrite Hnow2, Hnow1, Hstore2, Hstore1. reflexivity.
Qed.

(** X19.  A flip started by the flip button of the latest render, with
    no flip in progress and no failure: the side drawn is committed,
    the screen shows its label, and the history then starts with an
    entry that carries that very label, in front of the entries it
    held, cut to 10.  What is logged is what is shown, in both modes. *)
Theorem flip_logs_what_it_shows (s : State) :
  round_trips ->
  flipInProgressRef s = false ->
  isFlipping s = false ->
  faults (platform s) = [] ->
  exists s' w' shown,
    flipCoin_to_end (render_of s) s = (Return tt, s')
    /\ side s' = Some (outcome_of (render_of s) (next_random (platform s)))
    /\ resultText s' = Some shown
    /\ getHistory (platform s')
       = (Return (take 10 (history_entry shown (now (platform s))
                           :: stored_log (platform s))),
          w').
Proof.
  intros Hrt Href Hflipping Hplan.
  destruct (flip_commits_and_logs (render_of s) s Hrt Href Hflipping Hplan)
    as (s' & w' & Hrun & Hside & _ & HA & HB & _ & Hget).
  set (result := outcome_of (render_of s) (next_random (platform s))) in *.
  destruct (historyLabel_clean (render_of s) (next_random (platform s)))
    as (Hresult & _).
  fold result in Hresult.
  assert (Htruthy : JsString.truthy result = true)
    by (apply is_side_In in Hresult; cbn in Hresult;
        destruct Hresult as [<- | [<- | [<- | [<- | []]]]]; reflexivity).
  assert (Hshown : resultText s'
                   = Some (historyLabel (render_of s) result)).
  { unfold resultText. rewrite Hside, Htruthy, HA, HB.
    rewrite (historyLabel_shown _ _ Htruthy). reflexivity. }
  exists s', w', (historyLabel (render_of s) result).
  split; [exact Hrun|]. split; [exact Hside|]. split; [exact Hshown|].
  exact Hget.
Qed.

(** *** What the application writes to the history *)

Lemma historyLabel_of_side (r : Render) (result : string) :
  is_side result = true ->
  JsString.truthy (historyLabel r result) = true
  /\ JsString.trim (historyLabel r result) = historyLabel r result.
Proof.
  intros Hresult. apply is_side_In in Hresult. cbn in Hresult.
  destruct Hresult as [<- | [<- | [<- | [<- | []]]]];
    rewrite ?historyLabel_A, ?historyLabel_B;
    try (split; reflexivity).
  - destruct (label_or_trimmed (r_customSideA r) "A"); try reflexivity.
    tauto.
  - destruct (label_or_trimmed (r_customSideB r) "B"); try reflexivity.
    tauto.
Qed.

(** One step of a suspended flip leaves the stored log as it is, or puts
    a labelled entry in front of it, or in front of nothing. *)
Lemma flipCoin_resume_log (r : Render) (at_ : flip_pc) (s : State) :
  round_trips ->
  drawn (mkFlipTask r at_) ->
  let s' := snd (flipCoin_resume r at_ s) in
  stored_log (platform s') = stored_log (platform s)
  \/ exists entry base,
       labelled entry
       /\ (base = [] \/ base = stored_log (platform s))
       /\ stored_log (platform s') = take 10 (entry :: base).
Proof.
  intros Hrt Hdrawn. cbv zeta.
  assert (Hsame : forall s' : State,
             asyncStorage (platform s') = asyncStorage (platform s) ->
             stored_log (platform s') = stored_log (platform s))
    by (intros s' Hs; unfold stored_log, history_slot; rewrite Hs;
        reflexivity).
  pose proof (flipCoin_resume_store r at_ s) as [_ Hstore].
  cbv zeta in Hstore.
  destruct at_ as [| |result| |]; try (left; apply Hsame, Hstore).
  clear Hstore. unfold drawn in Hdrawn. cbn [pc] in Hdrawn.
  destruct (historyLabel_of_side r result Hdrawn) as [Htruthy Htrim].
  destruct (fails_next (platform s)) eqn:Hnext.
  - destruct (resume_animation_fail r result s Hnext)
      as (s' & -> & _ & _ & _ & _ & (Hs & _) & _).
    left. apply Hsame, Hs.
  - destruct (resume_animation_ok r result s Hnext)
      as (ok & w' & s' & Hsave & -> & _ & _ & _ & _ & Hplatform).
    cbn [snd]. rewrite Hplatform.
    destruct (saveFlipToHistory_log
                (data (JString (historyLabel r result)))
                (set_faults (tail (faults (platform s))) (platform s)) Hrt)
      as (ok' & w2 & Hsave' & _ & _ & Hcase).
    rewrite Hsave in Hsave'. injection Hsave' as <- <-.
    destruct ok.
    + destruct Hcase as (label & [= <-] & _ & Hlog).
      set (w1 := set_faults (tail (faults (platform s))) (platform s))
        in *.
      right.
      exists (history_entry (JsString.trim (historyLabel r result)) (now w1)),
        (if fails_next w1 then [] else stored_log (platform s)).
      split; [|split; [|exact Hlog]].
      * eexists _, _. split; [reflexivity|].
        rewrite Htrim. split; [exact Htruthy | exact Htrim].
      * destruct (fails_next w1); [left | right]; reflexivity.
    + left. unfold stored_log, history_slot. rewrite Hcase. reflexivity.
Qed.

Lemma step_log (s : State) (e : event) :
  round_trips ->
  results_valid s ->
  stored_log (platform (step s e)) = stored_log (platform s)
  \/ stored_log (platform (step s e)) = []
  \/ exists entry base,
       labelled entry
       /\ (base = [] \/ base = stored_log (platform s))
       /\ stored_log (platform (step s e)) = take 10 (entry :: base).
Proof.
  intros Hrt [_ Hflips].
  destruct (clears e) eqn:Hclears.
  { assert (Hpanel : panel_event e = true)
      by (destruct e; try discriminate Hclears; reflexivity).
    unfold stored_log, history_slot.
    rewrite (step_panel_store s e Hpanel), Hclears. cbn [andb].
    destruct (fails_next (platform s)); cbn [negb]; [left; reflexivity|].
    right. left. rewrite lookup_delete_eq. reflexivity. }
  destruct (classic_resume e) as [[i ->] | He].
  - unfold step. cbn [handle]. unfold resume_flip.
    destruct (flips s !! i) as [t|] eqn:Hi; [|left; reflexivity].
    assert (Ht : drawn (mkFlipTask (closure t) (pc t)))
      by (eapply Forall_lookup_1 in Hflips; [|exact Hi]; exact Hflips).
    pose proof (flipCoin_resume_log (closure t) (pc t) s Hrt Ht) as Hlog.
    cbv zeta in Hlog.
    destruct (flipCoin_resume (closure t) (pc t) s) as [[[at'|]|err] s'];
      (destruct Hlog as [Hlog | Hlog]; [left | right; right]; exact Hlog).
  - left. unfold stored_log, history_slot.
    rewrite (step_keeps_store s e He Hclears). reflexivity.
Qed.

(** X20.  Whatever happens to the application from its start, with any
    failures: a stored log of at most 10 entries with non-empty,
    trimmed labels stays one.  The application never logs an entry
    without a label. *)
Theorem app_logs_labelled_entries (es : list event) (w : Platform) :
  round_trips ->
  length (stored_log w) <= 10 ->
  Forall labelled (stored_log w) ->
  let s := run es (initial_state w) in
  length (stored_log (platform s)) <= 10
  /\ Forall labelled (stored_log (platform s)).
Proof.
  intros Hrt Hlen Hall. cbv zeta.
  change w with (platform (initial_state w)) in Hlen, Hall.
  pose proof (initial_results_valid w) as Hvalid.
  revert Hlen Hall Hvalid. generalize (initial_state w). clear w.
  induction es as [|e es IH]; intros s Hlen Hall Hvalid;
    [split; assumption|].
  rewrite run_cons.
  pose proof (step_results_valid s e Hvalid) as Hvalid'.
  destruct (step_log s e Hrt Hvalid)
    as [Hlog | [Hlog | (entry & base & Hentry & Hbase & Hlog)]];
    apply IH; try exact Hvalid'; rewrite Hlog; try assumption.
  - cbn. lia.
  - constructor.
  - rewrite length_take. lia.
  - apply Forall_take. constructor; [exact Hentry|].
    destruct Hbase as [-> | ->]; [constructor | exact Hall].
Qed.

End Handlers.

(* ===================================================================== *)
(** ** The history panel *)
(* ===================================================================== *)

Module HistoryPanelFacts.
Import HistoryPanel.

Section PanelFacts.
Context `{JsonRuntime} `{DateRuntime}.

(** X21.  [loadHistory] never throws and always ends with [isLoading]
    unset: the panel does not stay on its loading text.  It shows the
    stored log, or the empty list when the read of the slot fails, and
    it leaves the store as it was. *)
Theorem loadHistory_shows_the_log (p : Panel) :
  exists p',
    loadHistory p = (Return tt, p')
    /\ isLoading p' = false
    /\ history p' = (if fails_next (host p) then []
                     else stored_log (host p))
    /\ asyncStorage (host p') = asyncStorage (host p)
    /\ view p' = match history p' with
                 | [] => EmptyView
                 | _ :: _ => ListView (history p')
                 end.
Proof.
  destruct (loadHistory_run p) as (w' & Hrun & Hstore & _).
  eexists. split; [exact Hrun|]. cbn [isLoading history host].
  split; [reflexivity|]. split; [reflexivity|]. split; [exact Hstore|].
  unfold view. cbn [isLoading history].
  destruct (if fails_next (host p) then [] else stored_log (host p));
    reflexivity.
Qed.

(** X22.  [handleClearHistory] never throws.  When the removal
    succeeds the list on display is emptied, the slot is gone, and
    every later [loadHistory] shows the empty list, whatever fails
    then; when the removal fails, the list on display and the store
    are what they were. *)
Theorem handleClearHistory_clears (p : Panel) :
  exists p',
    handleClearHistory p = (Return tt, p')
    /\ isLoading p' = isLoading p
    /\ if fails_next (host p)
       then history p' = history p
            /\ asyncStorage (host p') = asyncStorage (host p)
       else history p' = []
            /\ history_slot (host p') = None
            /\ forall plan,
                 history (snd (loadHistory
                                 (set_host (set_faults plan (host p')) p')))
                 = [].
Proof.
  destruct (handleClearHistory_run p) as (w' & Hrun & Hstore).
  eexists. split; [exact Hrun|]. cbn [isLoading history host].
  split; [reflexivity|].
  destruct (fails_next (host p)); [split; [reflexivity | exact Hstore]|].
  assert (Hslot : history_slot w' = None)
    by (unfold history_slot; rewrite Hstore; apply lookup_delete_eq).
  split; [reflexivity|]. split; [exact Hslot|].
  intros plan.
  destruct (loadHistory_run (set_host (set_faults plan w')
                               (mkPanel [] (isLoading p) w')))
    as (w'' & -> & _).
  cbn [snd history host set_host].
  unfold stored_log, history_slot in *. cbn [asyncStorage set_faults].
  rewrite Hslot. destruct (fails_next (set_faults plan w')); reflexivity.
Qed.

(** *** The age of an entry *)

Lemma div_ltb (a d k : Z) :
  (0 < d)%Z -> (a / d <? k)%Z = (a <? k * d)%Z.
Proof.
  intros Hd.
  destruct (Z.ltb_spec (a / d) k) as [Hlt | Hge];
    destruct (Z.ltb_spec a (k * d)) as [Hlt' | Hge']; try reflexivity;
    exfalso.
  - assert (k <= a / d)%Z by (apply Z.div_le_lower_bound; lia). lia.
  - assert (a / d < k)%Z by (apply Z.div_lt_upper_bound; lia). lia.
Qed.

Lemma formatTimestamp_number (t : Z) (w : Platform) :
  t <> 0%Z ->
  (Z.abs t <= 8640000000000000)%Z ->
  let age := (now w - t)%Z in
  formatTimestamp (data (JNumber t)) w
  = (Return
       (if (age <? 60000)%Z then "Just now"
        else if (age <? 3600000)%Z then
          Number_toString (age / 60000) ++ "m ago"
        else if (age <? 86400000)%Z then
          Number_toString (age / 3600000) ++ "h ago"
        else if (age <? 604800000)%Z then
          Number_toString (age / 86400000) ++ "d ago"
        else toLocaleDateString t),
     w).
Proof.
  intros Ht Hrange. cbv zeta.
  unfold formatTimestamp, new_Date. cbn [truthy typeof].
  apply Z.eqb_neq in Ht. rewrite Ht. cbn [negb orb String.eqb].
  change (String.eqb "number" "number") with true. cbn [negb orb].
  apply Z.leb_le in Hrange. run_js. rewrite Hrange.
  rewrite !div_ltb by lia.
  change (1 * 60000)%Z with 60000%Z.
  change (60 * 60000)%Z with 3600000%Z.
  change (24 * 3600000)%Z with 86400000%Z.
  change (7 * 86400000)%Z with 604800000%Z.
  repeat match goal with
         | |- context [(?a <? ?b)%Z] => destruct (a <? b)%Z
         end; reflexivity.
Qed.

(** X23.  For a timestamp that is a number other than 0 and a valid
    date, [formatTimestamp] gives its text by the age of the entry in
    milliseconds: ["Just now"] below one minute, and for a timestamp in
    the future; whole minutes from 1 to 59 below one hour; whole hours
    from 1 to 23 below one day; whole days from 1 to 6 below one week;
    the date of the locale from then on.  It changes nothing and does
    not throw. *)
Theorem formatTimestamp_by_age (t : Z) (w : Platform) :
  t <> 0%Z ->
  (Z.abs t <= 8640000000000000)%Z ->
  let age := (now w - t)%Z in
  exists text,
    formatTimestamp (data (JNumber t)) w = (Return text, w)
    /\ ((age < 60000)%Z -> text = "Just now")
    /\ ((60000 <= age < 3600000)%Z ->
        text = Number_toString (age / 60000) ++ "m ago"
        /\ (1 <= age / 60000 <= 59)%Z)
    /\ ((3600000 <= age < 86400000)%Z ->
        text = Number_toString (age / 3600000) ++ "h ago"
        /\ (1 <= age / 3600000 <= 23)%Z)
    /\ ((86400000 <= age < 604800000)%Z ->
        text = Number_toString (age / 86400000) ++ "d ago"
        /\ (1 <= age / 86400000 <= 6)%Z)
    /\ ((604800000 <= age)%Z -> text = toLocaleDateString t).
Proof.
  intros Ht Hrange. cbv zeta.
  eexists. split; [exact (formatTimestamp_number t w Ht Hrange)|].
  assert (Hdiv : forall d lo hi : Z,
             (0 < d)%Z -> (lo * d <= now w - t < (hi + 1) * d)%Z ->
             (lo <= (now w - t) / d <= hi)%Z).
  { intros d lo hi Hd [Hlo Hhi]. split.
    - apply Z.div_le_lower_bound; lia.
    - assert ((now w - t) / d < hi + 1)%Z
        by (apply Z.div_lt_upper_bound; lia).
      lia. }
  split; [|split; [|split; [|split]]]; intros Hage;
    repeat match goal with
      | |- context [(?a <? ?b)%Z] =>
          destruct (Z.ltb_spec a b); try lia
      end;
    try reflexivity; (split; [reflexivity | apply Hdiv; lia]).
Qed.

(** [formatTimestamp] never throws and changes nothing, whatever it is
    given; for a timestamp that is missing, 0, or not a number, the
    text is ["Unknown time"]. *)
Lemma formatTimestamp_total (timestamp : value) (w : Platform) :
  exists text,
    formatTimestamp timestamp w = (Return text, w)
    /\ match timestamp with
       | data (JNumber t) => t = 0%Z -> text = "Unknown time"
       | _ => text = "Unknown time"
       end.
Proof.
  unfold formatTimestamp.
  destruct timestamp as [|[|b|t|text| |]];
    try (eexists; split; reflexivity);
    try (destruct b; eexists; split; reflexivity);
    try (destruct text; eexists; split; reflexivity).
  cbn [truthy typeof]. change (String.eqb "number" "number") with true.
  cbn [negb orb]. destruct (Z.eqb_spec t 0) as [-> | Hne]; cbn [negb].
  - eexists. split; reflexivity.
  - run_js. unfold new_Date.
    repeat match goal with
           | |- context [(?a <=? ?b)%Z] => destruct (a <=? b)%Z
           | |- context [(?a <? ?b)%Z] => destruct (a <? b)%Z
           end; eexists; (split; [reflexivity|]); congruence.
Qed.

(** *** The rows of the list *)

(** X24.  [renderHistoryItem] never throws and changes nothing, whatever
    value it is given: it renders nothing for [null], a boolean, a
    number or a string, and a row for every object and array, whose
    first text is the member [side] when it is truthy and ["Unknown"]
    otherwise. *)
Theorem renderHistoryItem_never_throws (item : json) (w : Platform) :
  exists row,
    renderHistoryItem item w = (Return row, w)
    /\ match item with
       | JArray _ | JObject _ =>
           exists time,
             row = Some (mkRow (or_else (get_member "side" item)
                                  (JString "Unknown")) time)
       | _ => row = None
       end.
Proof.
  unfold renderHistoryItem.
  destruct item as [|b|n|text|elements|members];
    try (eexists; split; reflexivity);
    try (destruct b; eexists; split; reflexivity);
    try (cbn [truthy typeof]; destruct (negb (n =? 0)%Z);
         eexists; split; reflexivity);
    try (destruct text; eexists; split; reflexivity).
  all: cbn [truthy typeof negb orb];
    change (String.eqb "object" "object") with true; cbn [negb orb];
    unfold bind, Date_now, gets, ret;
    match goal with
    | |- context [formatTimestamp ?v ?w] =>
        destruct (formatTimestamp_total v w) as (text & -> & _)
    end;
    eexists; split; [reflexivity|]; eexists; reflexivity.
Qed.

(** The row of an entry [{ side, timestamp }]. *)
Lemma renderHistoryItem_entry (label : string) (t : Z) (w : Platform) :
  t <> 0%Z ->
  renderHistoryItem (history_entry label t) w
  = (Return (Some (mkRow
                     (JString (if JsString.truthy label then label
                               else "Unknown"))
                     (match fst (formatTimestamp (data (JNumber t)) w) with
                      | Return text => text
                      | Throw _ => EmptyString
                      end))),
     w).
Proof.
  intros Ht. unfold renderHistoryItem, history_entry.
  cbn [truthy typeof negb orb].
  change (String.eqb "object" "object") with true. cbn [negb orb].
  unfold bind, Date_now, gets, ret.
  change (get_member "side"
            (JObject [("side", JString label); ("timestamp", JNumber t)]))
    with (Some (JString label)).
  change (get_member "timestamp"
            (JObject [("side", JString label); ("timestamp", JNumber t)]))
    with (Some (JNumber t)).
  unfold or_else. cbn [truthy].
  apply Z.eqb_neq in Ht. rewrite Ht. cbn [negb].
  destruct (formatTimestamp_total (data (JNumber t)) w)
    as (text & Htext & _).
  rewrite Htext. cbn [fst]. destruct (JsString.truthy label); reflexivity.
Qed.

(** X25.  From the flip button to the panel.  After a flip started by
    the button of the latest render, with no flip in progress and no
    failure, the panel that is opened loads a list whose first item is
    the entry of that flip, and the row of that item shows the label
    that the screen shows as the result, with the time ["Just now"]. *)
Theorem flip_then_panel_shows_it (s : State) :
  round_trips ->
  flipInProgressRef s = false ->
  isFlipping s = false ->
  faults (platform s) = [] ->
  now (platform s) <> 0%Z ->
  (Z.abs (now (platform s)) <= 8640000000000000)%Z ->
  exists s' p' shown rest,
    flipCoin_to_end (render_of s) s = (Return tt, s')
    /\ resultText s' = Some shown
    /\ loadHistory (initial_panel (platform s')) = (Return tt, p')
    /\ view p' = ListView (history_entry shown (now (platform s)) :: rest)
    /\ renderHistoryItem (history_entry shown (now (platform s))) (host p')
       = (Return (Some (mkRow (JString shown) "Just now")), host p').
Proof.
  intros Hrt Href Hflipping Hplan Hnow Hrange.
  destruct (flip_commits_and_logs (render_of s) s Hrt Href Hflipping Hplan)
    as (s' & w' & Hrun & Hside & _ & HA & HB & Hnow' & Hget).
  set (result := outcome_of (render_of s) (next_random (platform s))) in *.
  destruct (historyLabel_clean (render_of s) (next_random (platform s)))
    as (Hresult & Htruthy & _).
  fold result in Hresult, Htruthy.
  set (shown := historyLabel (render_of s) result) in *.
  assert (Hresult' : JsString.truthy result = true)
    by (apply is_side_In in Hresult; cbn in Hresult;
        destruct Hresult as [<- | [<- | [<- | [<- | []]]]]; reflexivity).
  destruct (loadHistory_run (initial_panel (platform s')))
    as (w'' & Hload & _ & Hnow'' & _).
  cbn [host initial_panel] in Hload, Hnow''.
  destruct (getHistory_result (platform s')) as (w3 & Hget' & _).
  rewrite Hget in Hget'. injection Hget' as Hlog _.
  rewrite <- Hlog in Hload. cbn [take] in Hload.
  eexists s', _, shown, _.
  split; [exact Hrun|]. split.
  { unfold resultText. rewrite Hside, Hresult', HA, HB.
    unfold shown. rewrite (historyLabel_shown _ _ Hresult'). reflexivity. }
  split; [exact Hload|]. split; [reflexivity|].
  cbn [host].
  rewrite (renderHistoryItem_entry shown _ w'' Hnow), Htruthy.
  rewrite (formatTimestamp_number _ w'' Hnow Hrange). cbn [fst].
  rewrite Hnow'', Hnow', Z.sub_diag. reflexivity.
Qed.

(** *** The keys of the list *)

Lemma no_dash_uint (d : Decimal.uint) :
  no_dash (NilEmpty.string_of_uint d).
Proof. induction d; cbn; auto; split; (discriminate || assumption). Qed.

Lemma no_dash_index (index : nat) :
  no_dash (Number_toString (Z.of_nat index)).
Proof.
  unfold Number_toString.
  destruct (Z.of_nat index) as [|p|p] eqn:Hindex; try lia.
  - cbn. split; [discriminate | exact I].
  - cbn [Z.to_int NilZero.string_of_int].
    rewrite (ReferenceJSONFacts.string_of_uint_nonnil _
               (Unsigned.to_uint_nonnil p)).
    apply no_dash_uint.
Qed.

Lemma no_dash_app (s k : string) : no_dash (s ++ String "-" k) -> False.
Proof.
  induction s as [|c s IH].
  - intros [Hdash _]. apply Hdash. reflexivity.
  - intros [_ Hrest]. exact (IH Hrest).
Qed.

(** The text after the last ["-"] of a string. *)
Lemma last_dash (a b da db : string) :
  no_dash da -> no_dash db ->
  a ++ String "-" da = b ++ String "-" db -> da = db.
Proof.
  intros Hda Hdb. revert b.
  induction a as [|c a IH]; intros [|c' b] Heq.
  - injection Heq as ->. reflexivity.
  - injection Heq as _ ->. destruct (no_dash_app _ _ Hda).
  - injection Heq as _ <-. destruct (no_dash_app _ _ Hdb).
  - injection Heq as _ Heq. exact (IH b Heq).
Qed.

Lemma Number_toString_inj (a b : Z) :
  Number_toString a = Number_toString b -> a = b.
Proof.
  intros Heq.
  apply (f_equal ReferenceJSON.parse_number) in Heq.
  unfold Number_toString in Heq.
  rewrite !ReferenceJSONFacts.parse_number_numeral in Heq. congruence.
Qed.

(** Every key ends with ["-"] and the numeral of the index. *)
Lemma keyExtractor_shape (item : json) (index : nat) (key : string) :
  keyExtractor item index = Return key ->
  exists front,
    key = front ++ String "-" (Number_toString (Z.of_nat index)).
Proof.
  unfold keyExtractor.
  destruct item as [|b|n|text|elements|members]; try discriminate.
  all: destruct (get_member "timestamp" _) as [stamp|];
    [destruct (truthy (data stamp));
     [destruct (ToString stamp) as [front|]; [|discriminate]|]|].
  all: intros [= <-];
    first [exists "item"; reflexivity | eexists; reflexivity].
Qed.

(** X26.  The keys that [keyExtractor] gives to the cells of the list are
    different for different indices, whatever the items are: two cells
    of one list never share a key. *)
Theorem keyExtractor_keys_differ
  (item item' : json) (index index' : nat) (key key' : string) :
  keyExtractor item index = Return key ->
  keyExtractor item' index' = Return key' ->
  index <> index' ->
  key <> key'.
Proof.
  intros Hkey Hkey' Hindex Heq.
  destruct (keyExtractor_shape _ _ _ Hkey) as (front & ->).
  destruct (keyExtractor_shape _ _ _ Hkey') as (front' & ->).
  apply last_dash in Heq; try apply no_dash_index.
  apply Number_toString_inj in Heq. lia.
Qed.

(** X27.  A [null] among the stored items goes through [loadHistory]
    into the list; [renderHistoryItem] renders nothing for it and does
    not throw, but [keyExtractor] reads a property of it and throws a
    [TypeError]. *)
Theorem null_item_has_no_key (p : Panel) (index : nat) :
  fails_next (host p) = false ->
  stored_log (host p) !! index = Some JNull ->
  exists p',
    loadHistory p = (Return tt, p')
    /\ history p' !! index = Some JNull
    /\ renderHistoryItem JNull (host p') = (Return None, host p')
    /\ keyExtractor JNull index = Throw (Error "TypeError").
Proof.
  intros Hread Hnull.
  destruct (loadHistory_run p) as (w' & Hrun & _).
  rewrite Hread in Hrun.
  eexists. split; [exact Hrun|]. cbn [history host].
  split; [exact Hnull|]. split; reflexivity.
Qed.

End PanelFacts.
End HistoryPanelFacts.

(* ===================================================================== *)
(** ** The further properties on concrete runs *)
(* ===================================================================== *)

Lemma append_after_failed_read_drops_log_witness :
  @round_trips reference_runtime
  /\ JsString.truthy "Tails" = true
  /\ fails_next failing_read = true
  /\ nth 1 (faults failing_read) false = false
  /\ exists w',
      @saveFlipToHistory reference_runtime (data (JString "Tails"))
        failing_read = (Return true, w')
      /\ @stored_log reference_runtime w'
         = [history_entry (JsString.trim "Tails") (now failing_read)].
Proof.
  split; [exact reference_round_trips|].
  split; [reflexivity|]. split; [reflexivity|]. split; [reflexivity|].
  apply (@append_after_failed_read_drops_log reference_runtime
           "Tails" failing_read);
    [exact reference_round_trips | reflexivity..].
Defined.

(** The entries [1] and [2] that the slot held are gone. *)
Example failed_read_loses_entries :
  @stored_log reference_runtime failing_read = [JNumber 1; JNumber 2]
  /\ @stored_log reference_runtime
       (snd (@saveFlipToHistory reference_runtime (data (JString "Tails"))
               failing_read))
     = [history_entry "Tails" 1700000000000].
Proof. vm_compute. split; reflexivity. Qed.

Lemma stored_log_stays_bounded_witness :
  @round_trips reference_runtime
  /\ length (@stored_log reference_runtime heads_appended) <= 10
  /\ Forall is_history_entry (@stored_log reference_runtime heads_appended)
  /\ length (@stored_log reference_runtime heads_appended) = 1%nat
  /\ length (@stored_log reference_runtime
               (@session reference_runtime some_calls heads_appended))
     = 10%nat
  /\ length (@stored_log reference_runtime
               (@session reference_runtime some_calls heads_appended)) <= 10
  /\ Forall is_history_entry
       (@stored_log reference_runtime
          (@session reference_runtime some_calls heads_appended)).
Proof.
  assert (Hall : Forall is_history_entry
                   (@stored_log reference_runtime heads_appended))
    by (repeat constructor; eexists _, _; reflexivity).
  split; [exact reference_round_trips|].
  split; [vm_compute; lia|]. split; [exact Hall|].
  split; [reflexivity|]. split; [reflexivity|].
  apply (@stored_log_stays_bounded reference_runtime some_calls
           heads_appended);
    [exact reference_round_trips | vm_compute; lia | exact Hall].
Defined.

Lemma stored_log_stays_newest_first_witness :
  @round_trips reference_runtime
  /\ Forall forward some_calls
  /\ @stored_log reference_runtime heads_appended
     = [history_entry "Heads" 1700000000000]
  /\ newest_first (now heads_appended)
       (@stored_log reference_runtime heads_appended) = true
  /\ hd_error (@stored_log reference_runtime
                 (@session reference_runtime some_calls heads_appended))
     = Some (history_entry "A" 1700000000014)
  /\ newest_first
       (now (@session reference_runtime some_calls heads_appended))
       (@stored_log reference_runtime
          (@session reference_runtime some_calls heads_appended)) = true.
Proof.
  assert (Hforward : Forall forward some_calls)
    by (repeat constructor; cbn; lia).
  split; [exact reference_round_trips|].
  split; [exact Hforward|]. split; [reflexivity|]. split; [reflexivity|].
  split; [reflexivity|].
  apply (@stored_log_stays_newest_first reference_runtime some_calls
           heads_appended);
    [exact reference_round_trips | exact Hforward | reflexivity].
Defined.

(** The calls of [some_calls], evaluated on a log of one entry: the
    clear drops that entry, and of the eleven entries appended after it
    the log holds the ten newest, the newest first, the padded label
    trimmed. *)
Example some_calls_log :
  let entries (l : list json) :=
    omap (fun j => match j with
                   | JObject [(_, JString label); (_, JNumber t)] =>
                       Some (label, (t - 1700000000000)%Z)
                   | _ => None
                   end) l in
  entries (@stored_log reference_runtime heads_appended) = [("Heads", 0%Z)]
  /\ entries (@stored_log reference_runtime
                (@session reference_runtime some_calls heads_appended))
     = [("A", 14%Z); ("A", 13%Z); ("A", 12%Z); ("A", 11%Z); ("A", 10%Z);
        ("A", 9%Z); ("A", 8%Z); ("A", 7%Z); ("A", 6%Z); ("Tails", 5%Z)].
Proof. vm_compute. split; reflexivity. Qed.

Lemma display_frozen_while_flipping_witness :
  phase flipping = Flipping
  /\ isCustomMode (@step reference_runtime flipping
                     (PressToggleMode first_render))
     = isCustomMode flipping
  /\ (phase (@step reference_runtime flipping (PressToggleMode first_render))
      = Flipping ->
      side (@step reference_runtime flipping (PressToggleMode first_render))
      = side flipping).
Proof.
  split; [reflexivity|].
  apply (@display_frozen_while_flipping reference_runtime flipping
           (PressToggleMode first_render)).
  reflexivity.
Defined.

Lemma idle_button_starts_a_flip_witness :
  let s :=
    @run reference_runtime
      [PressToggleMode first_render; ChangeTextA "Pizza"]
      (initial_state fresh_platform) in
  phase s = Idle
  /\ let s' := @step reference_runtime s (PressFlip (render_of s)) in
     phase s' = Flipping
     /\ isFlipping s' = true
     /\ flips s' = (flips s ++ [mkFlipTask (render_of s) AwaitImpact])%list
     /\ side s' = side s.
Proof.
  cbv zeta. split; [reflexivity|].
  apply (@idle_button_starts_a_flip reference_runtime
           [PressToggleMode first_render; ChangeTextA "Pizza"]
           fresh_platform).
  reflexivity.
Defined.

Lemma shake_resets_result_witness :
  isMounted showing_heads = true
  /\ (0.8 <? 0 - prevYRef showing_heads)%float
     && (4000 <? now (platform showing_heads)
                 - lastFlickTimeRef showing_heads)%Z
     && negb (flipInProgressRef showing_heads) = false
  /\ (1.5 <? sqrt (2 * 2 + 0 * 0 + 0 * 0))%float = true
  /\ (1000 < now (platform showing_heads)
             - lastShakeTimeRef showing_heads)%Z
  /\ let s1 :=
       @step reference_runtime showing_heads
         (Accelerometer (Reading 2) (Reading 0) (Reading 0)) in
     exists id,
       shakeTimeoutRef s1 = Some id
       /\ id ∈ timers s1
       /\ lastShakeTimeRef s1 = now (platform showing_heads)
       /\ side s1 = side showing_heads
       /\ flips s1 = flips showing_heads
       /\ let s2 := @step reference_runtime s1 (ShakeTimeout id) in
          side s2 = (if flipInProgressRef showing_heads
                     then side showing_heads else None)
          /\ id ∉ timers s2.
Proof.
  split; [reflexivity|]. split; [reflexivity|]. split; [reflexivity|].
  split; [reflexivity|].
  apply (@shake_resets_result reference_runtime 2 0 0 showing_heads);
    reflexivity.
Defined.

(** The shake, evaluated: the result ["Heads"] is cleared when the timer
    fires. *)
Example shake_clears_heads :
  side showing_heads = Some "Heads"
  /\ side (@run reference_runtime
             [Accelerometer (Reading 2) (Reading 0) (Reading 0);
              Tick 100; ShakeTimeout 1]
             showing_heads) = None.
Proof. vm_compute. split; reflexivity. Qed.

(** The threshold of the shake is that of the doubles.  The magnitude
    of [(1.5, 0, 1e-9)] is computed as 1.5, which is not greater than
    1.5: no timer is armed.  That of the second sample is computed as
    1.5000000000000002: the timer is armed.  A sample with a component
    [NaN] arms none; an infinite one does. *)
Example shake_threshold_in_doubles :
  let armed (x y z : float) :=
    shakeTimeoutRef
      (snd (accelerometer_listener (Reading x) (Reading y) (Reading z)
              (set_prevYRef y showing_heads))) in
  armed 1.5%float 0%float 1e-9%float = None
  /\ armed 1.1403457020916838%float 0.9318916828775123%float
       0.2849378372640997%float = Some 1%nat
  /\ armed nan 0%float 0%float = None
  /\ armed 0%float 0%float nan = None
  /\ armed neg_infinity 0%float 0%float = Some 1%nat.
Proof. vm_compute. repeat split. Qed.

Lemma weak_or_early_shake_is_dropped_witness :
  (0.8 <? 0 - prevYRef showing_heads)%float
  && (4000 <? now (platform showing_heads)
              - lastFlickTimeRef showing_heads)%Z
  && negb (flipInProgressRef showing_heads) = false
  /\ ((1.5 <? sqrt (1.5 * 1.5 + 0 * 0 + 1e-9 * 1e-9))%float = false
      \/ (now (platform showing_heads) - lastShakeTimeRef showing_heads
          <= 1000)%Z)
  /\ snd (accelerometer_listener (Reading 1.5) (Reading 0) (Reading 1e-9)
            showing_heads)
     = set_prevYRef 0 showing_heads.
Proof.
  split; [reflexivity|]. split; [left; reflexivity|].
  apply (weak_or_early_shake_is_dropped 1.5 0 1e-9 showing_heads);
    [reflexivity | left; reflexivity].
Defined.

Lemma steady_tilt_starts_no_flip_witness :
  (0.8 <? 0.8 - (-1e-30))%float = false
  /\ let s1 :=
       @step reference_runtime started
         (Accelerometer (Reading 0) (Reading (-1e-30)) (Reading 0)) in
     flips (@step reference_runtime s1
              (Accelerometer (Reading 0) (Reading 0.8) (Reading 0)))
     = flips s1.
Proof.
  split; [reflexivity|].
  apply (@steady_tilt_starts_no_flip reference_runtime
           0 (-1e-30) 0 0 0.8 0 started).
  reflexivity.
Defined.

Lemma toggle_twice_restores_mode_witness :
  flipInProgressRef showing_heads = false
  /\ isFlipping showing_heads = false
  /\ let s1 :=
       @step reference_runtime showing_heads
         (PressToggleMode (render_of showing_heads)) in
     let s2 := @step reference_runtime s1 (PressToggleMode (render_of s1)) in
     isCustomMode s1 = negb (isCustomMode showing_heads)
     /\ side s1 = None
     /\ isCustomMode s2 = isCustomMode showing_heads
     /\ side s2 = None
     /\ customSideA s2 = customSideA showing_heads
     /\ customSideB s2 = customSideB showing_heads
     /\ platform s2 = platform showing_heads
     /\ @step reference_runtime s1 (PressToggleMode (render_of showing_heads))
        = s1.
Proof.
  split; [reflexivity|]. split; [reflexivity|].
  apply (@toggle_twice_restores_mode reference_runtime showing_heads);
    reflexivity.
Defined.

Lemma flip_logs_what_it_shows_witness :
  @round_trips reference_runtime
  /\ flipInProgressRef (draws 0.25) = false
  /\ isFlipping (draws 0.25) = false
  /\ faults (platform (draws 0.25)) = []
  /\ exists s' w' shown,
      @flipCoin_to_end reference_runtime (render_of (draws 0.25))
        (draws 0.25) = (Return tt, s')
      /\ side s' = Some (outcome_of (render_of (draws 0.25))
                           (next_random (platform (draws 0.25))))
      /\ resultText s' = Some shown
      /\ @getHistory reference_runtime (platform s')
         = (Return (take 10 (history_entry shown
                               (now (platform (draws 0.25)))
                             :: @stored_log reference_runtime
                                  (platform (draws 0.25)))),
            w').
Proof.
  split; [exact reference_round_trips|].
  split; [reflexivity|]. split; [reflexivity|]. split; [reflexivity|].
  apply (@flip_logs_what_it_shows reference_runtime (draws 0.25));
    [exact reference_round_trips | reflexivity..].
Defined.

Lemma app_logs_labelled_entries_witness :
  @round_trips reference_runtime
  /\ length (@stored_log reference_runtime fresh_platform) <= 10
  /\ Forall labelled (@stored_log reference_runtime fresh_platform)
  /\ let s := @run reference_runtime one_flip (initial_state fresh_platform) in
     length (@stored_log reference_runtime (platform s)) <= 10
     /\ Forall labelled (@stored_log reference_runtime (platform s)).
Proof.
  split; [exact reference_round_trips|].
  split; [vm_compute; lia|]. split; [constructor|].
  apply (@app_logs_labelled_entries reference_runtime one_flip
           fresh_platform);
    [exact reference_round_trips | vm_compute; lia | constructor].
Defined.

(** The flip of [one_flip], evaluated: one entry is logged. *)
Example one_flip_logs_heads :
  let s := @run reference_runtime one_flip (initial_state fresh_platform) in
  side s = Some "Heads"
  /\ @stored_log reference_runtime (platform s)
     = [history_entry "Heads" 1700000000000].
Proof. vm_compute. split; reflexivity. Qed.

Lemma formatTimestamp_by_age_witness :
  earlier <> 0%Z
  /\ (Z.abs earlier <= 8640000000000000)%Z
  /\ let age := (now fresh_platform - earlier)%Z in
     exists text,
       @HistoryPanel.formatTimestamp reference_dates
         (data (JNumber earlier)) fresh_platform
       = (Return text, fresh_platform)
       /\ ((age < 60000)%Z -> text = "Just now")
       /\ ((60000 <= age < 3600000)%Z ->
           text = Number_toString (age / 60000) ++ "m ago"
           /\ (1 <= age / 60000 <= 59)%Z)
       /\ ((3600000 <= age < 86400000)%Z ->
           text = Number_toString (age / 3600000) ++ "h ago"
           /\ (1 <= age / 3600000 <= 23)%Z)
       /\ ((86400000 <= age < 604800000)%Z ->
           text = Number_toString (age / 86400000) ++ "d ago"
           /\ (1 <= age / 86400000 <= 6)%Z)
       /\ ((604800000 <= age)%Z ->
           text = @toLocaleDateString reference_dates earlier).
Proof.
  assert (Hnonzero : earlier <> 0%Z) by discriminate.
  assert (Hrange : (Z.abs earlier <= 8640000000000000)%Z) by discriminate.
  split; [exact Hnonzero|]. split; [exact Hrange|].
  apply (@HistoryPanelFacts.formatTimestamp_by_age reference_dates
           earlier fresh_platform Hnonzero Hrange).
Defined.

(** The texts of some ages, with the clock at 1700000000000. *)
Example formatTimestamp_texts :
  let text (t : Z) :=
    fst (@HistoryPanel.formatTimestamp reference_dates (data (JNumber t))
           fresh_platform) in
  text 1700000000000%Z = Return "Just now"
  /\ text 1700000500000%Z = Return "Just now"
  /\ text earlier = Return "16m ago"
  /\ text 1699990000000%Z = Return "2h ago"
  /\ text 1699500000000%Z = Return "5d ago"
  /\ text 1600000000000%Z = Return "9/13/2020"
  /\ text 0%Z = Return "Unknown time"
  /\ text 8640000000000001%Z = Return "Invalid Date".
Proof. vm_compute. repeat split. Qed.

Lemma flip_then_panel_shows_it_witness :
  @round_trips reference_runtime
  /\ flipInProgressRef (draws 0.25) = false
  /\ isFlipping (draws 0.25) = false
  /\ faults (platform (draws 0.25)) = []
  /\ now (platform (draws 0.25)) <> 0%Z
  /\ (Z.abs (now (platform (draws 0.25))) <= 8640000000000000)%Z
  /\ exists s' p' shown rest,
      @flipCoin_to_end reference_runtime (render_of (draws 0.25))
        (draws 0.25) = (Return tt, s')
      /\ resultText s' = Some shown
      /\ @HistoryPanel.loadHistory reference_runtime
           (HistoryPanel.initial_panel (platform s')) = (Return tt, p')
      /\ HistoryPanel.view p'
         = HistoryPanel.ListView
             (history_entry shown (now (platform (draws 0.25))) :: rest)
      /\ @HistoryPanel.renderHistoryItem reference_dates
           (history_entry shown (now (platform (draws 0.25))))
           (HistoryPanel.host p')
         = (Return (Some (HistoryPanel.mkRow (JString shown) "Just now")),
            HistoryPanel.host p').
Proof.
  assert (Hnonzero : now (platform (draws 0.25)) <> 0%Z) by discriminate.
  assert (Hrange : (Z.abs (now (platform (draws 0.25)))
                    <= 8640000000000000)%Z) by discriminate.
  split; [exact reference_round_trips|].
  split; [reflexivity|]. split; [reflexivity|]. split; [reflexivity|].
  split; [exact Hnonzero|]. split; [exact Hrange|].
  apply (@HistoryPanelFacts.flip_then_panel_shows_it reference_runtime
           reference_dates (draws 0.25));
    [exact reference_round_trips | reflexivity | reflexivity | reflexivity
    | exact Hnonzero | exact Hrange].
Defined.

Lemma keyExtractor_keys_differ_witness :
  HistoryPanel.keyExtractor (history_entry "Heads" 5) 0 = Return "5-0"
  /\ HistoryPanel.keyExtractor (history_entry "Heads" 5) 1 = Return "5-1"
  /\ 0%nat <> 1%nat
  /\ "5-0" <> "5-1".
Proof.
  assert (Hindex : 0%nat <> 1%nat) by discriminate.
  split; [reflexivity|]. split; [reflexivity|]. split; [exact Hindex|].
  apply (HistoryPanelFacts.keyExtractor_keys_differ
           (history_entry "Heads" 5) (history_entry "Heads" 5) 0 1
           "5-0" "5-1");
    [reflexivity | reflexivity | exact Hindex].
Defined.

Lemma null_item_has_no_key_witness :
  fails_next holding_null = false
  /\ @stored_log reference_runtime holding_null !! 0%nat = Some JNull
  /\ exists p',
      @HistoryPanel.loadHistory reference_runtime
        (HistoryPanel.initial_panel holding_null) = (Return tt, p')
      /\ HistoryPanel.history p' !! 0%nat = Some JNull
      /\ @HistoryPanel.renderHistoryItem reference_dates JNull
           (HistoryPanel.host p')
         = (Return None, HistoryPanel.host p')
      /\ HistoryPanel.keyExtractor JNull 0 = Throw (Error "TypeError").
Proof.
  split; [reflexivity|]. split; [reflexivity|].
  apply (@HistoryPanelFacts.null_item_has_no_key reference_runtime
           reference_dates (HistoryPanel.initial_panel holding_null) 0);
    reflexivity.
Defined.
